(** * OBD-II CAN simulator: a shallow embedding and its properties

    The development follows the two Python programs of the repository:

    - [can_simulator.py]   (class [CANBusSimulator]), module [CanSim];
    - [physics_obd_sim.py] (class [PhysicsSimulator]), module [Physics].

    Conventions of the embedding.

    - Python [int] is [Z]; a CAN data byte is a [Z] in [0, 255].
    - Python [float] state fields are idealised as exact rationals [Q];
      [int(x)] is truncation toward zero ([py_int]).  A product or sum of
      floats is the exact one here, where the program rounds it to the
      nearest binary64 number: [int] of it can differ by one from [int] of
      the rounded result when the exact value lies next to an integer.
      The statements on the clamping encoders, on the odometer reply
      and on the coolant reply allow for either value; a multiplication
      by 4 is exact in binary64.
    - [bus.send] appends a frame to an output trace: every handler returns
      the list of frames it transmitted, in order.  The listener loops only
      run while [self.bus] is set, so the bus is taken to be open, and
      [bus.send] itself is the opaque channel.
    - Random draws and the wall clock are explicit inputs.
    - A Python exception inside a [try] is a [None] / [Raises] result and
      the [except] branch is written out. *)

From Stdlib Require Import ZArith QArith String Ascii List Bool Lia Lqa.
Import ListNotations.
Open Scope Z_scope.

(** ** Python builtins used by both programs *)

Module Py.

(** [int(x)] for a float [x]: truncation toward zero. *)
Definition py_int (x : Q) : Z := Z.quot (Qnum x) (Zpos (Qden x)).

(** [max(a, b)] and [min(a, b)] on integers. *)
Definition py_max (a b : Z) : Z := if b >? a then b else a.
Definition py_min (a b : Z) : Z := if b <? a then b else a.

(** [max(a, b)] and [min(a, b)] on floats. *)
Definition qmax (a b : Q) : Q := if Qlt_le_dec a b then b else a.
Definition qmin (a b : Q) : Q := if Qlt_le_dec b a then b else a.

(** [struct.pack('>H', v)]: two big-endian bytes, [struct.error] (here
    [None]) outside [0, 65535]. *)
Definition struct_pack_H (v : Z) : option (list Z) :=
  if (0 <=? v) && (v <=? 65535)
  then Some [Z.land (Z.shiftr v 8) 255; Z.land v 255]
  else None.

(** [struct.pack('>I', v)]: four big-endian bytes, [struct.error] outside
    [0, 2^32 - 1]. *)
Definition struct_pack_I (v : Z) : option (list Z) :=
  if (0 <=? v) && (v <=? 4294967295)
  then Some [Z.land (Z.shiftr v 24) 255; Z.land (Z.shiftr v 16) 255;
             Z.land (Z.shiftr v 8) 255; Z.land v 255]
  else None.

(** A value that [bytearray] accepts as an element. *)
Definition is_byte (b : Z) : bool := (0 <=? b) && (b <=? 255).

End Py.

(** ** CAN frames *)

Record Message := mkMessage {
  arbitration_id : Z;
  data : list Z
}.

(** [can.Message(arbitration_id=.., data=.., is_extended_id=False)]:
    the data goes through [bytearray], which raises [ValueError] on an
    element outside [0, 255]. *)
Definition can_Message (aid : Z) (d : list Z) : option Message :=
  if forallb Py.is_byte d then Some (mkMessage aid d) else None.

(** The request filter shared by both programs:
    [id == 0x7DF or 0x7E0 <= id <= 0x7E7]. *)
Definition is_obd_request_id (aid : Z) : bool :=
  (aid =? 0x7DF) || ((0x7E0 <=? aid) && (aid <=? 0x7E7)).

(** [while len(l) < 8: l.append(0x00)] *)
Definition pad8 (l : list Z) : list Z :=
  l ++ repeat 0 (8 - length l)%nat.

(** ** [int(s, 16)] on strings

    A Python [str] is a list of code points; the type [ascii] holds the
    code points 0 to 255, so the strings of the embedding are the Latin-1
    strings.  CPython converts a [str] in two stages.  First
    [_PyUnicode_TransformDecimalAndSpaceToASCII] ([to_ascii] below) keeps a
    code point below 127, turns a Unicode space at or above 127 into a
    blank (in Latin-1 these are U+0085 and U+00A0; no Latin-1 code point
    at or above 127 is a decimal digit) and turns any other code point
    into [?], which no number contains.  Then [PyLong_FromString]
    ([parse16] below) reads the base-16 grammar: leading whitespace, an
    optional sign, an optional [0x] / [0X] prefix (with one underscore
    allowed after it), hex digits with single underscores between them,
    trailing whitespace.  [None] is [ValueError]. *)

Module PyInt.

Definition code (c : ascii) : Z := Z.of_nat (nat_of_ascii c).

Definition hex_digit_value (c : ascii) : option Z :=
  let n := code c in
  if (48 <=? n) && (n <=? 57) then Some (n - 48)
  else if (65 <=? n) && (n <=? 70) then Some (n - 55)
  else if (97 <=? n) && (n <=? 102) then Some (n - 87)
  else None.

(** [Py_ISSPACE], the test [PyLong_FromString] applies to the bytes of
    the transformed string: tab, newline, vertical tab, form feed,
    carriage return, space.  The Unicode spaces U+0085 and U+00A0 are
    blanks by the time this test runs (see [to_ascii]); the separators
    0x1C to 0x1F are below 127, stay as they are and are not accepted. *)
Definition is_space (c : ascii) : bool :=
  let n := code c in ((9 <=? n) && (n <=? 13)) || (n =? 32).

Definition is_underscore (c : ascii) : bool := code c =? 95.

Fixpoint skip_spaces (s : list ascii) : list ascii :=
  match s with
  | c :: r => if is_space c then skip_spaces r else s
  | [] => []
  end.

(** The digit loop: [prev_us] records that the previous character was an
    underscore; the result is the accumulated value, the number of digits
    consumed and the unread rest. *)
Fixpoint scan_digits (prev_us : bool) (acc : Z) (ndig : nat) (s : list ascii)
  : option (Z * nat * list ascii) :=
  match s with
  | c :: r =>
      match hex_digit_value c with
      | Some d => scan_digits false (acc * 16 + d) (S ndig) r
      | None =>
          if is_underscore c
          then (if prev_us then None else scan_digits true acc ndig r)
          else (if prev_us then None else Some (acc, ndig, s))
      end
  | [] => if prev_us then None else Some (acc, ndig, [])
  end.

Definition strip_sign (s : list ascii) : Z * list ascii :=
  match s with
  | c :: r => if code c =? 43 then (1, r)
              else if code c =? 45 then (-1, r)
              else (1, s)
  | [] => (1, [])
  end.

Definition strip_prefix (s : list ascii) : list ascii :=
  match s with
  | z :: x :: r =>
      if (code z =? 48) && ((code x =? 120) || (code x =? 88))
      then match r with
           | u :: r' => if is_underscore u then r' else r
           | [] => r
           end
      else s
  | _ => s
  end.

(** One code point through
    [_PyUnicode_TransformDecimalAndSpaceToASCII]. *)
Definition to_ascii (c : ascii) : ascii :=
  let n := code c in
  if n <? 127 then c
  else if (n =? 0x85) || (n =? 0xA0) then " "%char
  else "?"%char.

(** [PyLong_FromString(buffer, &end, 16)] followed by the check that the
    whole buffer was read. *)
Definition parse16 (s : list ascii) : option Z :=
  let (sign, s2) := strip_sign (skip_spaces s) in
  let s3 := strip_prefix s2 in
  match s3 with
  | c :: _ => if is_underscore c then None else
      match scan_digits false 0 0%nat s3 with
      | Some (v, ndig, rest) =>
          match ndig, skip_spaces rest with
          | S _, [] => Some (sign * v)
          | _, _ => None
          end
      | None => None
      end
  | [] => None
  end.

(** [int(s, 16)] for a [str] [s]. *)
Definition int16 (s : list ascii) : option Z := parse16 (map to_ascii s).

(** [c.upper()] for one character, as far as [_encode_dtc] can tell: an
    ASCII letter is capitalised; no other code point has one of the
    letters P, C, B, U as its upper case, so it is left as it is. *)
Definition upper (c : ascii) : ascii :=
  let n := code c in
  if (97 <=? n) && (n <=? 122) then ascii_of_nat (nat_of_ascii c - 32) else c.

End PyInt.

(** ** [can_simulator.py] *)

Module CanSim.

(** *** Data classes *)

Record EngineState := mkEngine {
  rpm : Q;
  coolant_temp : Q;
  oil_temp : Q;
  intake_air_temp : Q;
  engine_load : Q;
  throttle_position : Q;
  maf_flow : Q;
  fuel_pressure : Q;
  timing_advance : Q;
  is_running : bool;
  runtime_since_start : Z
}.

Record VehicleState := mkVehicle {
  speed : Q;
  odometer : Q;
  fuel_level : Q;
  battery_voltage : Q;
  ambient_temperature : Q;
  barometric_pressure : Q;
  gear : Z;
  speed_limit : Z;
  mil_status : bool;
  dtc_count : Z;
  fuel_system_status : Z;
  o2_sensor1_voltage : Q;
  o2_sensor2_voltage : Q;
  short_fuel_trim_bank1 : Q;
  long_fuel_trim_bank1 : Q
}.

Inductive DtcStatus := pending | confirmed | permanent.

Definition status_eqb (a b : DtcStatus) : bool :=
  match a, b with
  | pending, pending | confirmed, confirmed | permanent, permanent => true
  | _, _ => false
  end.

(** [DiagnosticTroubleCode]; the two timestamps play no part in any
    behaviour and are left out.  Descriptions are free text for the log
    and are given in English below. *)
Record DiagnosticTroubleCode := mkDtc {
  code : string;
  description : string;
  status : DtcStatus;
  occurrence_count : Z
}.

(** The simulator object: the fields the request handlers and the DTC
    bookkeeping read or write.  The counters of [simulation_stats]
    ([requests_received], [responses_sent], [messages_sent], [errors]) are
    written by the loops and by [_send_obd_response] and read only by the
    final printout; they are not part of [Sim], so a state below is the
    simulator object without its statistics. *)
Record Sim := mkSim {
  engine : EngineState;
  vehicle : VehicleState;
  dtc_codes : list DiagnosticTroubleCode;
  simulate_dtcs : bool
}.

(** Defaults of the data classes, as [__init__] creates them. *)
Definition EngineState_default : EngineState :=
  mkEngine 800 90 85 25 0 0 (35 # 10) (35 # 10) 15 true 0.

Definition VehicleState_default : VehicleState :=
  mkVehicle 0 (1258475 # 10) 75 (126 # 10) 20 (1013 # 10) 0 60
            false 0 2 (45 # 100) (47 # 100) 0 0.

Definition init (simulate : bool) : Sim :=
  mkSim EngineState_default VehicleState_default [] simulate.

(** *** Supported PID table and mask *)

(** [_initialize_supported_pids]: the dictionary, in source order. *)
Definition _initialize_supported_pids : list (Z * list Z) :=
  [ (0x00, [0x01; 0x04; 0x05; 0x06; 0x07; 0x0A; 0x0B; 0x0C; 0x0D; 0x0E;
            0x0F; 0x10; 0x11; 0x13; 0x14; 0x15; 0x1F]);
    (0x20, [0x21; 0x22; 0x2F; 0x33]);
    (0x40, [0x42; 0x43; 0x46; 0x4D; 0x4E]) ].

(** [d.get(k, [])] *)
Fixpoint dict_get (d : list (Z * list Z)) (k : Z) : list Z :=
  match d with
  | (k', v) :: r => if k' =? k then v else dict_get r k
  | [] => []
  end.

(** The loop body of [_get_supported_pids_mask], folded over the list. *)
Definition mask_step (pid_range : Z) (mask : Z) (pid : Z) : Z :=
  let bit_position := pid - (pid_range + 1) in
  if (0 <=? bit_position) && (bit_position <? 32)
  then Z.lor mask (Z.shiftl 1 (31 - bit_position))
  else mask.

Definition mask_of (pids : list Z) (pid_range : Z) : Z :=
  fold_left (mask_step pid_range) pids 0.

Definition _get_supported_pids_mask (pid_range : Z) : Z :=
  mask_of (dict_get _initialize_supported_pids pid_range) pid_range.

(** *** DTC encoding *)

Definition _encode_dtc (dtc_code : string) : list Z :=
  let chars := list_ascii_of_string dtc_code in
  match chars with
  | c0 :: number_part =>
      if negb (length chars =? 5)%nat then [0x00; 0x00] else
      let first_char := PyInt.upper c0 in
      let first_byte :=
        if Ascii.eqb first_char "P" then 0x00
        else if Ascii.eqb first_char "C" then 0x40
        else if Ascii.eqb first_char "B" then 0x80
        else if Ascii.eqb first_char "U" then 0xC0
        else 0x00 in
      match PyInt.int16 number_part with
      | Some number =>
          [Z.lor first_byte (Z.land (Z.shiftr number 8) 0x3F);
           Z.land number 0xFF]
      | None => [0x00; 0x00]
      end
  | [] => [0x00; 0x00]
  end.

(** *** Sending *)

(** [_send_obd_response]: the frame handed to [bus.send], or no frame when
    [can.Message] raises.  After a successful send the source also
    increments [simulation_stats['responses_sent']], a counter that is not
    part of [Sim]. *)
Definition _send_obd_response (request_id : Z) (response_data : list Z)
  : list Message :=
  let response_id := if request_id =? 0x7DF then 0x7E8 else request_id + 8 in
  let full_response := Z.of_nat (length response_data) :: response_data in
  let full_response :=
    if (8 <? length full_response)%nat then firstn 8 full_response
    else full_response in
  let full_response := pad8 full_response in
  match can_Message response_id full_response with
  | Some message => [message]
  | None => []
  end.

Definition _send_negative_response (request_id mode : Z) (pid : option Z)
  : list Message :=
  let response_id := request_id + 8 in
  let negative_response := [0x7F; mode; 0x12] in
  let negative_response :=
    match pid with
    | Some p => negative_response ++ [p]
    | None => negative_response
    end in
  let negative_response := pad8 negative_response in
  match can_Message response_id negative_response with
  | Some message => [message]
  | None => []
  end.

(** *** Mode 0x01: current data *)

(** What the body of the [try] in [_handle_current_data_request] produces
    for a PID: the bytes appended to the response, an exception
    ([struct.error]), or the final [else] (PID not handled). *)
Inductive Encoded :=
| Bytes (bs : list Z)
| Raises
| NotHandled.

Definition of_pack (r : option (list Z)) : Encoded :=
  match r with
  | Some bs => Bytes bs
  | None => Raises
  end.

(** [max(0, min(255, v))] and [max(0, min(65535, v))] *)
Definition clamp255 (v : Z) : Z := Py.py_max 0 (Py.py_min 255 v).
Definition clamp65535 (v : Z) : Z := Py.py_max 0 (Py.py_min 65535 v).

Definition encode_current_data (s : Sim) (requested_pid : Z) : Encoded :=
  let e := engine s in
  let v := vehicle s in
  if requested_pid =? 0x00 then
    of_pack (Py.struct_pack_I (_get_supported_pids_mask 0x00))
  else if requested_pid =? 0x0C then
    of_pack (Py.struct_pack_H (Py.py_int (rpm e * 4)%Q))
  else if requested_pid =? 0x0D then
    Bytes [Py.py_int (speed v)]
  else if requested_pid =? 0x05 then
    Bytes [clamp255 (Py.py_int (coolant_temp e + 40)%Q)]
  else if requested_pid =? 0x04 then
    Bytes [clamp255 (Py.py_int (engine_load e * 255 / 100)%Q)]
  else if requested_pid =? 0x11 then
    Bytes [clamp255 (Py.py_int (throttle_position e * 255 / 100)%Q)]
  else if requested_pid =? 0x0F then
    Bytes [clamp255 (Py.py_int (intake_air_temp e + 40)%Q)]
  else if requested_pid =? 0x10 then
    of_pack (Py.struct_pack_H (clamp65535 (Py.py_int (maf_flow e * 100)%Q)))
  else if requested_pid =? 0x2F then
    Bytes [clamp255 (Py.py_int (fuel_level v * 255 / 100)%Q)]
  else if requested_pid =? 0x42 then
    of_pack (Py.struct_pack_H
               (clamp65535 (Py.py_int (battery_voltage v * 1000)%Q)))
  else if requested_pid =? 0x46 then
    Bytes [clamp255 (Py.py_int (ambient_temperature v + 40)%Q)]
  else if requested_pid =? 0x0A then
    Bytes [clamp255 (Py.py_int (fuel_pressure e * 100 / 3)%Q)]
  else if requested_pid =? 0x0E then
    Bytes [clamp255 (Py.py_int ((timing_advance e + 64) * 2)%Q)]
  else if requested_pid =? 0x14 then
    Bytes [clamp255 (Py.py_int (o2_sensor1_voltage v * 200)%Q); 0xFF]
  else if requested_pid =? 0x06 then
    Bytes [clamp255 (Py.py_int (short_fuel_trim_bank1 v * 128 / 100 + 128)%Q)]
  else if requested_pid =? 0x07 then
    Bytes [clamp255 (Py.py_int (long_fuel_trim_bank1 v * 128 / 100 + 128)%Q)]
  else if requested_pid =? 0x1F then
    of_pack (Py.struct_pack_H (Py.py_min 65535 (runtime_since_start e)))
  else if requested_pid =? 0x33 then
    Bytes [clamp255 (Py.py_int (barometric_pressure v))]
  else if requested_pid =? 0xA5 then
    Bytes [gear v]
  else if requested_pid =? 0xA8 then
    Bytes [speed_limit v]
  else NotHandled.

Definition _handle_current_data_request (s : Sim) (request : Message)
  : list Message :=
  if (length (data request) <? 3)%nat then [] else
  let requested_pid := nth 2 (data request) 0 in
  let response_data := [0x41; requested_pid] in
  match encode_current_data s requested_pid with
  | Bytes bs =>
      _send_obd_response (arbitration_id request) (response_data ++ bs)
  | NotHandled =>
      _send_negative_response (arbitration_id request) 0x01
                              (Some requested_pid)
  | Raises =>
      _send_negative_response (arbitration_id request) 0x01
                              (Some requested_pid)
  end.

(** *** Mode 0x03: stored trouble codes *)

Definition is_confirmed (dtc : DiagnosticTroubleCode) : bool :=
  status_eqb (status dtc) confirmed.

(** The [response_data] list the handler builds before sending. *)
Definition diagnostic_codes_payload (s : Sim) : list Z :=
  let response_data := [0x43] in
  let dtc_count :=
    Z.of_nat (length (filter is_confirmed (dtc_codes s))) in
  let response_data := response_data ++ [dtc_count] in
  fold_left
    (fun acc dtc =>
       if is_confirmed dtc then acc ++ _encode_dtc (code dtc) else acc)
    (firstn 3 (dtc_codes s)) response_data.

Definition _handle_diagnostic_codes_request (s : Sim) (request : Message)
  : list Message :=
  _send_obd_response (arbitration_id request) (diagnostic_codes_payload s).

(** *** Mode 0x04: clear trouble codes *)

Definition set_mil_count (v : VehicleState) (mil : bool) (count : Z)
  : VehicleState :=
  mkVehicle (speed v) (odometer v) (fuel_level v) (battery_voltage v)
            (ambient_temperature v) (barometric_pressure v) (gear v)
            (speed_limit v) mil count (fuel_system_status v)
            (o2_sensor1_voltage v) (o2_sensor2_voltage v)
            (short_fuel_trim_bank1 v) (long_fuel_trim_bank1 v).

Definition _handle_clear_codes_request (s : Sim) (request : Message)
  : Sim * list Message :=
  let s' := mkSim (engine s) (set_mil_count (vehicle s) false 0) []
                  (simulate_dtcs s) in
  (s', _send_obd_response (arbitration_id request) [0x44]).

(** *** Mode 0x09: vehicle information *)

Definition ord (c : ascii) : Z := Z.of_nat (nat_of_ascii c).

Definition vin : string := "1HGBH41JXMN109186".
Definition cal_id : string := "CAL001234567890".

Definition _handle_vehicle_info_request (s : Sim) (request : Message)
  : list Message :=
  if (length (data request) <? 2)%nat then [] else
  let info_type := nth 1 (data request) 0 in
  let response_data := [0x49; info_type] in
  if info_type =? 0x02 then
    _send_obd_response (arbitration_id request)
      (response_data ++ [1] ++ map ord (list_ascii_of_string vin))
  else if info_type =? 0x04 then
    _send_obd_response (arbitration_id request)
      (response_data ++ [1]
         ++ map ord (firstn 16 (list_ascii_of_string cal_id)))
  else
    _send_negative_response (arbitration_id request) 0x09 (Some info_type).

(** *** Dispatch *)

Definition _process_can_message (s : Sim) (message : Message)
  : Sim * list Message :=
  if negb (is_obd_request_id (arbitration_id message)) then (s, []) else
  if (length (data message) <? 3)%nat then (s, []) else
  let mode := nth 1 (data message) 0 in
  if mode =? 0x01 then (s, _handle_current_data_request s message)
  else if mode =? 0x03 then (s, _handle_diagnostic_codes_request s message)
  else if mode =? 0x04 then _handle_clear_codes_request s message
  else if mode =? 0x09 then (s, _handle_vehicle_info_request s message)
  else (s, _send_negative_response (arbitration_id message) mode None).

(** *** DTC bookkeeping *)

Definition demo_codes : list DiagnosticTroubleCode :=
  [ mkDtc "P0420" "catalyst efficiency below threshold (bank 1)" confirmed 1;
    mkDtc "P0171" "system too lean (bank 1)" pending 1;
    mkDtc "P0301" "cylinder 1 misfire detected" confirmed 1 ].

(** The random draws of [_initialize_demo_dtcs]: whether
    [random.random() < 0.7], and the positions in [demo_codes] that
    [random.sample(demo_codes, random.randint(1, 2))] picked, in order. *)
Record InitDraw := mkInitDraw {
  has_codes : bool;
  sample : list nat
}.

Fixpoint distinct (l : list nat) : bool :=
  match l with
  | x :: r => negb (existsb (Nat.eqb x) r) && distinct r
  | [] => true
  end.

(** A draw that [random.sample] can return: one or two distinct
    positions of [demo_codes]. *)
Definition valid_draw (d : InitDraw) : bool :=
  ((length (sample d) =? 1) || (length (sample d) =? 2))%nat
  && forallb (fun i => i <? length demo_codes)%nat (sample d)
  && distinct (sample d).

Definition pick (l : list DiagnosticTroubleCode) (idx : list nat)
  : list DiagnosticTroubleCode :=
  flat_map (fun i => match nth_error l i with
                     | Some x => [x]
                     | None => []
                     end) idx.

Definition _initialize_demo_dtcs (s : Sim) (d : InitDraw) : Sim :=
  if has_codes d then
    let codes := dtc_codes s ++ pick demo_codes (sample d) in
    mkSim (engine s)
          (set_mil_count (vehicle s) true (Z.of_nat (length codes)))
          codes (simulate_dtcs s)
  else s.

Definition possible_codes : list (string * string) :=
  [ ("P0100"%string, "mass air flow sensor circuit"%string);
    ("P0110"%string, "intake air temperature sensor circuit"%string);
    ("P0130"%string, "oxygen sensor circuit (bank 1, sensor 1)"%string);
    ("P0340"%string, "camshaft position sensor circuit"%string);
    ("P0505"%string, "idle control system"%string);
    ("U0001"%string, "high speed CAN communication bus"%string) ].

(** [_add_random_dtc]; [choice] is the position [random.choice] picked in
    [possible_codes] and [promote] is [random.random() < 0.3].  The new
    object is appended first and its status changed afterwards, so the
    list element itself becomes confirmed. *)
Definition _add_random_dtc (s : Sim) (choice : nat) (promote : bool) : Sim :=
  if (length (dtc_codes s) <? 5)%nat then
    match nth_error possible_codes choice with
    | Some (c, descr) =>
        if negb (existsb (fun dtc => String.eqb (code dtc) c) (dtc_codes s))
        then
          if promote then
            mkSim (engine s)
                  (set_mil_count (vehicle s) true (dtc_count (vehicle s)))
                  (dtc_codes s ++ [mkDtc c descr confirmed 1])
                  (simulate_dtcs s)
          else
            mkSim (engine s) (vehicle s)
                  (dtc_codes s ++ [mkDtc c descr pending 1])
                  (simulate_dtcs s)
        else s
    | None => s
    end
  else s.

(** [start()]: the demo codes are loaded only when DTC simulation is on. *)
Definition start (s : Sim) (d : InitDraw) : Sim :=
  if simulate_dtcs s then _initialize_demo_dtcs s d else s.

(** One step of the running simulator, as far as the DTC bookkeeping can
    see it.  The scenario and correlated-parameter updates of
    [_update_vehicle_state] assign engine fields and vehicle scalars but
    never [mil_status], [dtc_count] or [dtc_codes]; they are covered by
    [step_scalars] with arbitrary new values.

    The simulation loop and the CAN listener run in two threads over the
    same object.  A step here is a whole loop iteration or a whole
    request: the statements of [_add_random_dtc] and of
    [_handle_clear_codes_request] are not interleaved with each other. *)
Inductive step : Sim -> Sim -> Prop :=
| step_scalars s e v :
    mil_status v = mil_status (vehicle s) ->
    dtc_count v = dtc_count (vehicle s) ->
    step s (mkSim e v (dtc_codes s) (simulate_dtcs s))
| step_add_dtc s choice promote :
    simulate_dtcs s = true ->
    (choice < length possible_codes)%nat ->
    step s (_add_random_dtc s choice promote)
| step_request s message :
    step s (fst (_process_can_message s message)).

Inductive reachable : Sim -> Prop :=
| reach_start simulate d :
    valid_draw d = true -> reachable (start (init simulate) d)
| reach_step s s' :
    reachable s -> step s s' -> reachable s'.

(** *** The simulation loop

    The state the loop keeps besides the simulator object, and what one
    iteration reads from outside: the clock, the library sine and the raw
    random numbers.  [random.uniform(a, b)] is [a + (b - a) * random()] and
    [random.gauss(mu, sigma)] is [mu + z * sigma] for a standard normal
    draw [z]; the draws below are those [random()] and [z] values. *)

Inductive DrivingScenario :=
| IDLE | CITY_DRIVING | HIGHWAY_DRIVING | AGGRESSIVE_DRIVING | ECO_DRIVING
| PARKING | TRAFFIC_JAM.

Definition scenario_eqb (a b : DrivingScenario) : bool :=
  match a, b with
  | IDLE, IDLE | CITY_DRIVING, CITY_DRIVING
  | HIGHWAY_DRIVING, HIGHWAY_DRIVING
  | AGGRESSIVE_DRIVING, AGGRESSIVE_DRIVING | ECO_DRIVING, ECO_DRIVING
  | PARKING, PARKING | TRAFFIC_JAM, TRAFFIC_JAM => true
  | _, _ => false
  end.

Record Loop := mkLoop {
  sim : Sim;
  current_scenario : DrivingScenario;
  _simulation_tick : Z;
  _last_scenario_change : Q;
  _scenario_duration : Z
}.

Record Draws := mkDraws {
  now : Q;
  math_sin : Q -> Q;
  next_duration : Z;
  scenario_pick : nat;
  limit_pick : nat;
  r_jam : Q;
  u_speed : Q;
  u_rpm : Q;
  u_throttle : Q;
  u_load : Q;
  u_maf : Q;
  u_oil : Q;
  z_scenario : Q;
  z_intake : Q;
  z_battery : Q;
  z_o2_1 : Q;
  z_o2_2 : Q;
  z_short_trim : Q;
  z_long_trim : Q;
  r_dtc : Q;
  dtc_choice : nat;
  r_promote : Q
}.

Definition uniform (a b r : Q) : Q := (a + (b - a) * r)%Q.
Definition gauss (mu sigma z : Q) : Q := (mu + z * sigma)%Q.

Definition qlt (a b : Q) : bool := if Qlt_le_dec a b then true else false.

(** Field updates of the two data classes. *)
Definition set_drive (e : EngineState) (rpm' throttle' load' maf' : Q)
  : EngineState :=
  mkEngine rpm' (coolant_temp e) (oil_temp e) (intake_air_temp e) load'
           throttle' maf' (fuel_pressure e) (timing_advance e)
           (is_running e) (runtime_since_start e).

Definition set_motion (v : VehicleState) (speed' : Q) (gear' limit' : Z)
  : VehicleState :=
  mkVehicle speed' (odometer v) (fuel_level v) (battery_voltage v)
            (ambient_temperature v) (barometric_pressure v) gear' limit'
            (mil_status v) (dtc_count v) (fuel_system_status v)
            (o2_sensor1_voltage v) (o2_sensor2_voltage v)
            (short_fuel_trim_bank1 v) (long_fuel_trim_bank1 v).

(** *** Gear model *)

Definition auto_gear (speed_kmh : Q) : Z :=
  if qlt speed_kmh 20 then 1
  else if qlt speed_kmh 40 then 2
  else if qlt speed_kmh 60 then 3
  else if qlt speed_kmh 80 then 4
  else if qlt speed_kmh 110 then 5
  else 6.

(** [gear_ratios.get(gear, 1.0)] *)
Definition gear_ratio (g : Z) : Q :=
  if g =? 1 then 35 # 10
  else if g =? 2 then 21 # 10
  else if g =? 3 then 14 # 10
  else if g =? 4 then 1
  else if g =? 5 then 8 # 10
  else if g =? 6 then 65 # 100
  else 1.

(** [_calculate_rpm_for_speed]: the gear it stores in [self.vehicle.gear]
    and the engine speed it returns. *)
Definition _calculate_rpm_for_speed (speed_kmh : Q) (gear_arg : option Z)
  : Z * Q :=
  if negb (qlt 0 speed_kmh) then (0, 800%Q)
  else
    let g := match gear_arg with
             | None => auto_gear speed_kmh
             | Some g => g
             end in
    let final_drive_ratio := (373 # 100)%Q in
    let wheel_circumference := (207 # 100)%Q in
    let wheel_rpm := ((speed_kmh * 1000 / 60) / wheel_circumference)%Q in
    let engine_rpm := (wheel_rpm * gear_ratio g * final_drive_ratio)%Q in
    (g, Py.qmax 800 (Py.qmin 7000 engine_rpm)).

(** *** Scenarios *)

Definition _simulate_idle (s : Sim) (d : Draws) : Sim :=
  let e := engine s in
  let v := vehicle s in
  mkSim (set_drive e (800 + gauss 0 30 (z_scenario d))%Q 0
                   (uniform 15 25 (u_load d)) (uniform 2 4 (u_maf d)))
        (set_motion v 0 (gear v) (speed_limit v))
        (dtc_codes s) (simulate_dtcs s).

(** [random.choice(limits)], [i] being the position drawn (inside the
    list for a draw the random module can produce). *)
Definition pick_limit (limits : list Z) (i : nat) (old : Z) : Z :=
  nth i limits old.

Definition _simulate_city_driving (s : Sim) (tick : Z) (d : Draws) : Sim :=
  let v := vehicle s in
  let base_speed :=
    (40 + 15 * math_sin d (inject_Z tick * (1 # 100)))%Q in
  let speed' := Py.qmax 0 (base_speed + gauss 0 5 (z_scenario d))%Q in
  let limit' := pick_limit [40; 50; 60] (limit_pick d) (speed_limit v) in
  let '(gear', rpm') := _calculate_rpm_for_speed speed' None in
  mkSim (set_drive (engine s) rpm' (uniform 20 60 (u_throttle d))
                   (uniform 30 70 (u_load d)) (uniform 8 25 (u_maf d)))
        (set_motion v speed' gear' limit')
        (dtc_codes s) (simulate_dtcs s).

Definition _simulate_highway_driving (s : Sim) (tick : Z) (d : Draws) : Sim :=
  let v := vehicle s in
  let base_speed :=
    (110 + 10 * math_sin d (inject_Z tick * (5 # 1000)))%Q in
  let speed' := (base_speed + gauss 0 3 (z_scenario d))%Q in
  let limit' := pick_limit [90; 110; 130] (limit_pick d) (speed_limit v) in
  let '(gear', rpm') := _calculate_rpm_for_speed speed' (Some 6) in
  mkSim (set_drive (engine s) rpm' (uniform 40 70 (u_throttle d))
                   (uniform 40 80 (u_load d)) (uniform 15 35 (u_maf d)))
        (set_motion v speed' gear' limit')
        (dtc_codes s) (simulate_dtcs s).

Definition _simulate_aggressive_driving (s : Sim) (d : Draws) : Sim :=
  let v := vehicle s in
  mkSim (set_drive (engine s) (uniform 3000 6500 (u_rpm d))
                   (uniform 70 100 (u_throttle d))
                   (uniform 70 95 (u_load d)) (uniform 25 50 (u_maf d)))
        (set_motion v (uniform 60 140 (u_speed d)) (gear v) (speed_limit v))
        (dtc_codes s) (simulate_dtcs s).

Definition _simulate_eco_driving (s : Sim) (d : Draws) : Sim :=
  let v := vehicle s in
  let speed' := uniform 50 90 (u_speed d) in
  let '(gear', rpm') := _calculate_rpm_for_speed speed' None in
  mkSim (set_drive (engine s) (Py.qmin 2500 rpm')
                   (uniform 10 40 (u_throttle d))
                   (uniform 20 50 (u_load d)) (uniform 5 20 (u_maf d)))
        (set_motion v speed' gear' (speed_limit v))
        (dtc_codes s) (simulate_dtcs s).

Definition _simulate_traffic_jam (s : Sim) (d : Draws) : Sim :=
  if qlt (r_jam d) (3 # 10) then _simulate_idle s d
  else
    let v := vehicle s in
    let speed' := uniform 5 25 (u_speed d) in
    let '(gear', rpm') := _calculate_rpm_for_speed speed' None in
    mkSim (set_drive (engine s) rpm' (uniform 10 30 (u_throttle d))
                     (uniform 25 45 (u_load d)) (uniform 5 15 (u_maf d)))
          (set_motion v speed' gear' (speed_limit v))
          (dtc_codes s) (simulate_dtcs s).

Definition _simulate_parking (s : Sim) (d : Draws) : Sim :=
  if is_running (engine s) then _simulate_idle s d
  else
    let v := vehicle s in
    mkSim (set_drive (engine s) 0 0 0 0)
          (set_motion v 0 (gear v) (speed_limit v))
          (dtc_codes s) (simulate_dtcs s).

(** *** Correlated parameters *)

Definition _update_correlated_parameters (s : Sim) (tick : Z) (d : Draws)
  : Sim :=
  let e := engine s in
  let v := vehicle s in
  let target_temp := (85 + (engine_load e / 100) * 20)%Q in
  let target_temp :=
    if qlt 50 (speed v) then (target_temp - 5)%Q else target_temp in
  let coolant' :=
    (coolant_temp e + (target_temp - coolant_temp e) * (1 # 100))%Q in
  let oil' := (coolant' + uniform 5 15 (u_oil d))%Q in
  let intake' :=
    (ambient_temperature v + (engine_load e / 100) * 30
     + gauss 0 3 (z_intake d))%Q in
  let pressure' := ((35 # 10) + (engine_load e / 100) * (15 # 10))%Q in
  let base_voltage := if is_running e then (142 # 10)%Q else (126 # 10)%Q in
  let battery' := (base_voltage + gauss 0 (2 # 10) (z_battery d))%Q in
  let lambda_oscillation :=
    ((1 # 10) * math_sin d (inject_Z tick * (2 # 10)))%Q in
  let o2_1 :=
    ((45 # 100) + lambda_oscillation + gauss 0 (2 # 100) (z_o2_1 d))%Q in
  let o2_2 :=
    ((47 # 100) + lambda_oscillation + gauss 0 (2 # 100) (z_o2_2 d))%Q in
  let stft := gauss 0 3 (z_short_trim d) in
  let ltft := gauss 0 5 (z_long_trim d) in
  let timing' := (15 + (rpm e / 6000) * 25)%Q in
  let odometer' :=
    if qlt (1 # 10) (speed v)
    then (odometer v + (speed v / 3600) * (1 # 100))%Q
    else odometer v in
  let fuel' :=
    if is_running e
    then Py.qmax 0 (fuel_level v - (engine_load e / 100) * (1 # 10000))%Q
    else fuel_level v in
  mkSim (mkEngine (rpm e) coolant' oil' intake' (engine_load e)
                  (throttle_position e) (maf_flow e) pressure' timing'
                  (is_running e) (runtime_since_start e))
        (mkVehicle (speed v) odometer' fuel' battery'
                   (ambient_temperature v) (barometric_pressure v) (gear v)
                   (speed_limit v) (mil_status v) (dtc_count v)
                   (fuel_system_status v) o2_1 o2_2 stft ltft)
        (dtc_codes s) (simulate_dtcs s).

(** *** Scenario change and the whole iteration *)

Definition all_scenarios : list DrivingScenario :=
  [IDLE; CITY_DRIVING; HIGHWAY_DRIVING; AGGRESSIVE_DRIVING; ECO_DRIVING;
   PARKING; TRAFFIC_JAM].

(** [scenarios.remove(self.current_scenario)]: the first occurrence is
    taken out. *)
Fixpoint list_remove (x : DrivingScenario) (l : list DrivingScenario)
  : list DrivingScenario :=
  match l with
  | y :: r => if scenario_eqb y x then r else y :: list_remove x r
  | [] => []
  end.

(** [_change_driving_scenario]; [pick] is the position of the element
    [random.choices] returned in the remaining list. *)
Definition _change_driving_scenario (cur : DrivingScenario) (pick : nat)
  : DrivingScenario :=
  nth pick (list_remove cur all_scenarios) cur.

Definition run_scenario (sc : DrivingScenario) (s : Sim) (tick : Z)
  (d : Draws) : Sim :=
  match sc with
  | IDLE => _simulate_idle s d
  | CITY_DRIVING => _simulate_city_driving s tick d
  | HIGHWAY_DRIVING => _simulate_highway_driving s tick d
  | AGGRESSIVE_DRIVING => _simulate_aggressive_driving s d
  | ECO_DRIVING => _simulate_eco_driving s d
  | TRAFFIC_JAM => _simulate_traffic_jam s d
  | PARKING => _simulate_parking s d
  end.

Definition bump_runtime (s : Sim) : Sim :=
  let e := engine s in
  mkSim (mkEngine (rpm e) (coolant_temp e) (oil_temp e) (intake_air_temp e)
                  (engine_load e) (throttle_position e) (maf_flow e)
                  (fuel_pressure e) (timing_advance e) (is_running e)
                  (runtime_since_start e + (if is_running e then 1 else 0)))
        (vehicle s) (dtc_codes s) (simulate_dtcs s).

Definition _update_vehicle_state (l : Loop) (d : Draws) : Loop :=
  let current_time := now d in
  let change :=
    qlt (inject_Z (_scenario_duration l))
        (current_time - _last_scenario_change l)%Q in
  let scenario' :=
    if change
    then _change_driving_scenario (current_scenario l) (scenario_pick d)
    else current_scenario l in
  let s1 := run_scenario scenario' (sim l) (_simulation_tick l) d in
  let s2 := _update_correlated_parameters s1 (_simulation_tick l) d in
  let s3 := bump_runtime s2 in
  let s4 :=
    if simulate_dtcs s3 && qlt (r_dtc d) (1 # 10000)
    then _add_random_dtc s3 (dtc_choice d) (qlt (r_promote d) (3 # 10))
    else s3 in
  mkLoop s4 scenario' (_simulation_tick l)
         (if change then current_time else _last_scenario_change l)
         (if change then next_duration d else _scenario_duration l).

(** One iteration of [_simulation_loop]. *)
Definition loop_iteration (l : Loop) (d : Draws) : Loop :=
  let l' := _update_vehicle_state l d in
  mkLoop (sim l') (current_scenario l') (_simulation_tick l' + 1)
         (_last_scenario_change l') (_scenario_duration l').

End CanSim.

(** ** [physics_obd_sim.py] *)

Module Physics.

Local Open Scope Q_scope.

Inductive DrivingPhase :=
| CITY_1 | TRAFFIC_LIGHT_1 | CITY_2 | TRAFFIC_LIGHT_2 | HIGHWAY | PARKING.

Record PhysicsState := mkState {
  speed : Q;
  acceleration : Q;
  rpm : Q;
  throttle : Q;
  brake : Q;
  gear : Z;
  engine_temp : Q;
  fuel_level : Q;
  odometer : Q;
  mass : Q;
  drag_coefficient : Q;
  frontal_area : Q;
  max_power : Q;
  max_torque : Q
}.

Definition PhysicsState_default : PhysicsState :=
  mkState 0 0 800 0 0 1 20 75 (123456 # 10) 1500 (3 # 10) (22 # 10) 150 350.

Record PhysicsSimulator := mkSimulator {
  state : PhysicsState;
  last_update : Q;
  target_throttle : Q;
  target_speed : Q;
  phase : DrivingPhase;
  phase_start_time : Q
}.

(** [__init__] at wall-clock time [now]. *)
Definition init (now : Q) : PhysicsSimulator :=
  mkSimulator PhysicsState_default now 0 0 CITY_1 now.

(** What one iteration of [_physics_loop] reads from outside: the four
    successive readings of [time.time()] (in the loop, in [_update_phase],
    in [_update_scenario] and in [_update_rpm]) and the library function
    [math.sin]. *)
Record Env := mkEnv {
  t_loop : Q;
  t_phase : Q;
  t_scenario : Q;
  t_rpm : Q;
  math_sin : Q -> Q
}.

(** [math.pi], the double nearest to pi, as the exact rational it is. *)
Definition math_pi : Q := 884279719003555 # 281474976710656.

Definition phase_durations (p : DrivingPhase) : Q :=
  match p with
  | CITY_1 => 180
  | TRAFFIC_LIGHT_1 => 30
  | CITY_2 => 180
  | TRAFFIC_LIGHT_2 => 30
  | HIGHWAY => 300
  | PARKING => 60
  end.

(** [phases[(phases.index(p) + 1) % len(phases)]] *)
Definition next_phase (p : DrivingPhase) : DrivingPhase :=
  match p with
  | CITY_1 => TRAFFIC_LIGHT_1
  | TRAFFIC_LIGHT_1 => CITY_2
  | CITY_2 => TRAFFIC_LIGHT_2
  | TRAFFIC_LIGHT_2 => HIGHWAY
  | HIGHWAY => PARKING
  | PARKING => CITY_1
  end.

Definition qltb (a b : Q) : bool := if Qlt_le_dec a b then true else false.

Definition set_state (s : PhysicsSimulator) (st : PhysicsState)
  : PhysicsSimulator :=
  mkSimulator st (last_update s) (target_throttle s) (target_speed s)
              (phase s) (phase_start_time s).

Definition _update_phase (s : PhysicsSimulator) (e : Env) : PhysicsSimulator :=
  let current_time := t_phase e in
  let phase_elapsed := current_time - phase_start_time s in
  if qltb (phase_durations (phase s)) phase_elapsed then
    mkSimulator (state s) (last_update s) (target_throttle s) (target_speed s)
                (next_phase (phase s)) current_time
  else s.

(** The target speed the phase prescribes at [phase_time]. *)
Definition phase_target_speed (e : Env) (p : DrivingPhase) (phase_time : Q)
  : Q :=
  match p with
  | CITY_1 | CITY_2 =>
      let target := 50 + 10 * math_sin e (phase_time * (1 # 10)) in
      if (Py.py_int phase_time mod 30 <? 5)%Z then 20 else target
  | TRAFFIC_LIGHT_1 | TRAFFIC_LIGHT_2 =>
      if qltb phase_time 10 then Py.qmax 0 (50 - phase_time * 5)
      else if qltb phase_time 20 then 0
      else Py.qmin 50 ((phase_time - 20) * 5)
  | HIGHWAY =>
      if qltb phase_time 30 then 50 + (phase_time / 30) * 65
      else if qltb phase_time 270
           then 115 + 5 * math_sin e (phase_time * (5 # 100))
      else 115 - ((phase_time - 270) / 30) * 65
  | PARKING =>
      if qltb phase_time 10 then Py.qmax 0 (50 - phase_time * 5) else 0
  end.

Definition _update_scenario (s : PhysicsSimulator) (e : Env) (dt : Q)
  : PhysicsSimulator :=
  let phase_time := t_scenario e - phase_start_time s in
  let target_speed' := phase_target_speed e (phase s) phase_time in
  let st := state s in
  let speed_diff := target_speed' - speed st in
  let '(target_throttle', brake') :=
    if qltb 2 speed_diff then (Py.qmin 80 (speed_diff * 5), 0)
    else if qltb speed_diff (-2) then (0, Py.qmin 80 (- speed_diff * 5))
    else if qltb 1 (speed st) then (20 + speed st * (3 # 10), 0)
    else (0, 0) in
  let throttle_diff := target_throttle' - throttle st in
  let throttle1 := throttle st + throttle_diff * dt * 3 in
  let throttle2 := Py.qmax 0 (Py.qmin 100 throttle1) in
  mkSimulator
    (mkState (speed st) (acceleration st) (rpm st) throttle2 brake' (gear st)
             (engine_temp st) (fuel_level st) (odometer st) (mass st)
             (drag_coefficient st) (frontal_area st) (max_power st)
             (max_torque st))
    (last_update s) target_throttle' target_speed' (phase s)
    (phase_start_time s).

(** [gear_ratios.get(gear, 1.0)] *)
Definition gear_ratio (g : Z) : Q :=
  if (g =? 1)%Z then 35 # 10
  else if (g =? 2)%Z then 21 # 10
  else if (g =? 3)%Z then 14 # 10
  else if (g =? 4)%Z then 1
  else if (g =? 5)%Z then 8 # 10
  else if (g =? 6)%Z then 65 # 100
  else 1.

(** The RPM the engine is steered toward in [_update_rpm]. *)
Definition target_rpm (st : PhysicsState) : Q :=
  if qltb (speed st) (1 # 10) then 800 + throttle st * 20
  else
    let ratio := gear_ratio (gear st) in
    let wheel_rpm := (speed st * 1000 / 60) / ((65 # 100) * math_pi) in
    let target := wheel_rpm * ratio * (41 # 10) in
    let target := target + throttle st * 10 in
    Py.qmax 800 (Py.qmin 6500 target).

Definition set_rpm (st : PhysicsState) (r : Q) : PhysicsState :=
  mkState (speed st) (acceleration st) r (throttle st) (brake st) (gear st)
          (engine_temp st) (fuel_level st) (odometer st) (mass st)
          (drag_coefficient st) (frontal_area st) (max_power st)
          (max_torque st).

Definition _update_rpm (st : PhysicsState) (e : Env) (dt : Q) : PhysicsState :=
  let rpm_diff := target_rpm st - rpm st in
  let rpm1 := rpm st + rpm_diff * dt * 3 in
  let rpm2 := rpm1 + math_sin e (t_rpm e * 10) * 5 in
  set_rpm st rpm2.

Definition _update_gear (st : PhysicsState) : PhysicsState :=
  let g :=
    if qltb (speed st) 20 then 1%Z
    else if qltb (speed st) 40 then 2%Z
    else if qltb (speed st) 60 then 3%Z
    else if qltb (speed st) 80 then 4%Z
    else if qltb (speed st) 100 then 5%Z
    else 6%Z in
  mkState (speed st) (acceleration st) (rpm st) (throttle st) (brake st) g
          (engine_temp st) (fuel_level st) (odometer st) (mass st)
          (drag_coefficient st) (frontal_area st) (max_power st)
          (max_torque st).

(** The speed in m/s that [_update_physics] arrives at, before it is
    converted back to km/h. *)
Definition new_speed_ms (st : PhysicsState) (dt : Q) : Q * Q :=
  let speed_ms := speed st / (36 # 10) in
  let engine_force :=
    if qltb 0 (throttle st) then
      let rpm_normalized := rpm st / 6000 in
      let power_factor := rpm_normalized * (2 - rpm_normalized) in
      let f := (max_power st * 1000 * power_factor * throttle st / 100)
               / Py.qmax speed_ms 1 in
      Py.qmin f (max_torque st * 10)
    else 0 in
  let brake_force := brake st * 150 in
  let air_resistance :=
    (5 # 10) * (1225 # 1000) * drag_coefficient st * frontal_area st
    * speed_ms * speed_ms in
  let rolling_resistance := (15 # 1000) * mass st * (981 # 100) in
  let total_force :=
    engine_force - brake_force - air_resistance - rolling_resistance in
  let acceleration' := total_force / mass st in
  let speed_ms := speed_ms + acceleration' * dt in
  (acceleration', Py.qmax 0 speed_ms).

(** The first half of [_update_physics]: acceleration, speed and
    odometer, up to the call of [_update_rpm]. *)
Definition advance_speed (st : PhysicsState) (dt : Q) : PhysicsState :=
  let '(acceleration', speed_ms) := new_speed_ms st dt in
  let speed' := speed_ms * (36 # 10) in
  let odometer' :=
    if qltb 0 speed' then odometer st + (speed' / 3600) * dt
    else odometer st in
  mkState speed' acceleration' (rpm st) (throttle st) (brake st) (gear st)
          (engine_temp st) (fuel_level st) odometer' (mass st)
          (drag_coefficient st) (frontal_area st) (max_power st)
          (max_torque st).

Definition _update_physics (st : PhysicsState) (e : Env) (dt : Q)
  : PhysicsState :=
  _update_gear (_update_rpm (advance_speed st dt) e dt).

Definition _update_temperature (st : PhysicsState) (dt : Q) : PhysicsState :=
  let target_temp :=
    if qltb 800 (rpm st) then 85 + (throttle st / 100) * 10 else 20 in
  let temp_diff := target_temp - engine_temp st in
  let temp1 := engine_temp st + temp_diff * dt * (2 # 100) in
  mkState (speed st) (acceleration st) (rpm st) (throttle st) (brake st)
          (gear st) (Py.qmin 95 temp1) (fuel_level st) (odometer st)
          (mass st) (drag_coefficient st) (frontal_area st) (max_power st)
          (max_torque st).

(** One iteration of [_physics_loop]. *)
Definition tick (s : PhysicsSimulator) (e : Env) : PhysicsSimulator :=
  let current_time := t_loop e in
  let dt := current_time - last_update s in
  let s := mkSimulator (state s) current_time (target_throttle s)
                       (target_speed s) (phase s) (phase_start_time s) in
  let s := _update_phase s e in
  let s := _update_scenario s e dt in
  let s := set_state s (_update_physics (state s) e dt) in
  set_state s (_update_temperature (state s) dt).

(** *** OBD-II side *)

Local Open Scope Z_scope.

Definition _get_obd2_response (st : PhysicsState) (pid : Z)
  : option (list Z) :=
  if pid =? 0x0C then
    let rpm_value := Py.py_int (rpm st * 4)%Q in
    Some [Z.land (Z.shiftr rpm_value 8) 0xFF; Z.land rpm_value 0xFF]
  else if pid =? 0x0D then
    Some [Py.py_int (speed st)]
  else if pid =? 0x05 then
    Some [Py.py_int (engine_temp st + 40)%Q]
  else if pid =? 0x11 then
    Some [Py.py_int (throttle st * (255 # 100))%Q]
  else if pid =? 0x04 then
    let load := (throttle st * (7 # 10) + (rpm st / 6000) * 30)%Q in
    Some [Py.py_int (load * (255 # 100))%Q]
  else if pid =? 0x2F then
    Some [Py.py_int (fuel_level st * (255 # 100))%Q]
  else if pid =? 0x31 then
    let odometer_value := Py.py_int (odometer st * 10)%Q in
    Some [Z.land (Z.shiftr odometer_value 8) 0xFF;
          Z.land odometer_value 0xFF]
  else None.

Definition _send_obd2_response (pid : Z) (d : list Z) : list Message :=
  let response_data := [Z.of_nat (length d) + 2; 0x41; pid] ++ d in
  let response_data := pad8 response_data in
  match can_Message 0x7E8 (firstn 8 response_data) with
  | Some message => [message]
  | None => []
  end.

Definition _process_can_message (s : PhysicsSimulator) (message : Message)
  : list Message :=
  if negb (is_obd_request_id (arbitration_id message)) then [] else
  if (length (data message) <? 3)%nat then [] else
  let length_byte := nth 0 (data message) 0 in
  let mode := nth 1 (data message) 0 in
  if (mode =? 0x01) && (2 <=? length_byte) then
    let pid := nth 2 (data message) 0 in
    match _get_obd2_response (state s) pid with
    | Some (b :: bs) => _send_obd2_response pid (b :: bs)
    | Some [] => []
    | None => []
    end
  else [].

End Physics.

(** ** Vocabulary of the statements *)

(** The identifier rule for responses: [0x7E8] for a broadcast request,
    [request_id + 8] otherwise. *)
Definition response_id_rule (request_id : Z) : Z :=
  if request_id =? 0x7DF then 0x7E8 else request_id + 8.

(** The PIDs that have a branch in [_handle_current_data_request], in
    source order. *)
Definition handled_pids : list Z :=
  [0x00; 0x0C; 0x0D; 0x05; 0x04; 0x11; 0x0F; 0x10; 0x2F; 0x42; 0x46; 0x0A;
   0x0E; 0x14; 0x06; 0x07; 0x1F; 0x33; 0xA5; 0xA8].

Definition handled_pid (pid : Z) : bool := existsb (Z.eqb pid) handled_pids.

(** The PIDs that have a branch in the physics simulator's
    [_get_obd2_response]. *)
Definition physics_pids : list Z := [0x04; 0x05; 0x0C; 0x0D; 0x11; 0x2F; 0x31].

Definition physics_pid (pid : Z) : bool := existsb (Z.eqb pid) physics_pids.

(** A request frame as the listener hands it over: an OBD request
    identifier and at least three data bytes, each a byte. *)
Definition obd_request (m : Message) : bool :=
  is_obd_request_id (arbitration_id m)
  && (3 <=? length (data m))%nat
  && forallb Py.is_byte (data m).

Definition mode_of (m : Message) : Z := nth 1 (data m) 0.
Definition pid_of (m : Message) : Z := nth 2 (data m) 0.

(** The bytes [PyLong_FromString] can consume at all in base 16:
    whitespace, a sign, an underscore, the [x] of a prefix, a hex digit. *)
Definition parse16_char (c : ascii) : bool :=
  PyInt.is_space c
  || (PyInt.code c =? 43) || (PyInt.code c =? 45)
  || PyInt.is_underscore c
  || (PyInt.code c =? 120) || (PyInt.code c =? 88)
  || match PyInt.hex_digit_value c with
     | Some _ => true
     | None => false
     end.

(** The code points [int(_, 16)] can consume at all: those above, and the
    two Latin-1 spaces U+0085 and U+00A0. *)
Definition int16_char (c : ascii) : bool := parse16_char (PyInt.to_ascii c).

(** The four category letters of a trouble code, in the order of their
    two-bit codes. *)
Definition dtc_letters : list ascii := ["P"; "C"; "B"; "U"]%char.

Definition dtc_string (c0 c1 c2 c3 c4 : ascii) : string :=
  String c0 (String c1 (String c2 (String c3 (String c4 EmptyString)))).

(** Number of stored trouble codes whose status is confirmed. *)
Definition confirmed_count (s : CanSim.Sim) : Z :=
  Z.of_nat (length (filter CanSim.is_confirmed (CanSim.dtc_codes s))).

(** What the bookkeeping of [dtc_count] and [mil_status] maintains in
    every state: the counter never exceeds the number of stored codes, and
    the lamp is on exactly when the counter is positive or a stored code
    is confirmed. *)
Definition dtc_invariant (s : CanSim.Sim) : Prop :=
  0 <= CanSim.dtc_count (CanSim.vehicle s)
       <= Z.of_nat (length (CanSim.dtc_codes s))
  /\ (CanSim.mil_status (CanSim.vehicle s) = true
      <-> 0 < CanSim.dtc_count (CanSim.vehicle s) \/ 0 < confirmed_count s).

(** The PIDs of [_handle_current_data_request] whose encoder ends in
    [max(0, min(255, _))] or [max(0, min(65535, _))]. *)
Definition clamped_pids : list Z :=
  [0x05; 0x04; 0x11; 0x0F; 0x10; 0x2F; 0x42; 0x46; 0x0A; 0x0E; 0x14; 0x06;
   0x07; 0x33].

(** The float each of these encoders passes to [int], from the branches
    of [_handle_current_data_request]. *)
Definition scaled_value (s : CanSim.Sim) (pid : Z) : Q :=
  let e := CanSim.engine s in
  let v := CanSim.vehicle s in
  (if pid =? 0x05 then CanSim.coolant_temp e + 40
   else if pid =? 0x04 then CanSim.engine_load e * 255 / 100
   else if pid =? 0x11 then CanSim.throttle_position e * 255 / 100
   else if pid =? 0x0F then CanSim.intake_air_temp e + 40
   else if pid =? 0x10 then CanSim.maf_flow e * 100
   else if pid =? 0x2F then CanSim.fuel_level v * 255 / 100
   else if pid =? 0x42 then CanSim.battery_voltage v * 1000
   else if pid =? 0x46 then CanSim.ambient_temperature v + 40
   else if pid =? 0x0A then CanSim.fuel_pressure e * 100 / 3
   else if pid =? 0x0E then (CanSim.timing_advance e + 64) * 2
   else if pid =? 0x14 then CanSim.o2_sensor1_voltage v * 200
   else if pid =? 0x06 then CanSim.short_fuel_trim_bank1 v * 128 / 100 + 128
   else if pid =? 0x07 then CanSim.long_fuel_trim_bank1 v * 128 / 100 + 128
   else if pid =? 0x33 then CanSim.barometric_pressure v
   else 0)%Q.

(** The largest value such an encoder sends: 65535 for the two-byte PIDs
    [0x10] and [0x42], 255 for the others. *)
Definition clamp_limit (pid : Z) : Z :=
  if (pid =? 0x10) || (pid =? 0x42) then 65535 else 255.

(** The data bytes that carry the value [v]: two big-endian bytes for the
    two-byte PIDs, the byte and a constant [0xFF] for PID [0x14], the
    byte alone for the others. *)
Definition value_bytes (pid v : Z) : list Z :=
  if (pid =? 0x10) || (pid =? 0x42) then [v / 256; v mod 256]
  else if pid =? 0x14 then [v; 0xFF]
  else [v].

(** A clock and sine reading for one physics tick at wall-clock time
    0.47 s: [math.sin(4.7)] is -0.99992..., given here to four places; no
    other sine value is read in that tick. *)
Definition env_047 : Physics.Env :=
  Physics.mkEnv (47 # 100) (47 # 100) (47 # 100) (47 # 100)
    (fun x => if Qeq_bool x (47 # 10) then - (9999 # 10000) else 0)%Q.

(** Draws the random module can produce: [random()] lies in [0, 1), and
    the positions picked by [random.choice] / [random.choices] lie inside
    their lists. *)
Definition unit_draw (r : Q) : Prop := (0 <= r /\ r < 1)%Q.

Definition valid_draws (d : CanSim.Draws) : Prop :=
  unit_draw (CanSim.u_speed d) /\ unit_draw (CanSim.u_rpm d)
  /\ unit_draw (CanSim.u_throttle d) /\ unit_draw (CanSim.u_load d)
  /\ unit_draw (CanSim.u_maf d) /\ unit_draw (CanSim.u_oil d)
  /\ unit_draw (CanSim.r_jam d) /\ unit_draw (CanSim.r_dtc d)
  /\ unit_draw (CanSim.r_promote d)
  /\ (CanSim.limit_pick d < 3)%nat
  /\ (CanSim.scenario_pick d < 6)%nat
  /\ (CanSim.dtc_choice d < 6)%nat.

(** A sample of draws: every [random()] is 1/2, every normal draw 0. *)
Definition draws_half : CanSim.Draws :=
  CanSim.mkDraws 100 (fun _ => 0%Q) 60 1 1 (1 # 2) (1 # 2) (1 # 2) (1 # 2)
                 (1 # 2) (1 # 2) (1 # 2) 0 0 0 0 0 0 0 (1 # 2) 2 (1 # 2).

Definition loop_start (simulate : bool) (d : CanSim.InitDraw) : CanSim.Loop :=
  CanSim.mkLoop (CanSim.start (CanSim.init simulate) d) CanSim.IDLE 0 0 60.

(** [n] applications of a function. *)
Fixpoint iterate {A : Type} (n : nat) (f : A -> A) (x : A) : A :=
  match n with
  | O => x
  | S k => f (iterate k f x)
  end.

(** Every PID the supported-PID table lists, over its three windows. *)
Definition advertised_pids : list Z :=
  flat_map snd CanSim._initialize_supported_pids.

(** The listed PIDs that [_handle_current_data_request] has no branch
    for. *)
Definition advertised_unhandled : list Z :=
  [0x01; 0x0B; 0x13; 0x15; 0x21; 0x22; 0x43; 0x4D; 0x4E].

(** The codes of the stored DTCs, in order. *)
Definition codes_of (s : CanSim.Sim) : list string :=
  map CanSim.code (CanSim.dtc_codes s).

(** * Properties *)

(** ** Frames and senders *)

Section Frames.

Lemma pad8_length (l : list Z) :
  (length l <= 8)%nat -> length (pad8 l) = 8%nat.
Proof.
  intros H. unfold pad8. rewrite length_app, repeat_length. lia.
Qed.

Lemma can_Message_some (aid : Z) (d : list Z) (m : Message) :
  can_Message aid d = Some m -> m = mkMessage aid d.
Proof.
  unfold can_Message. destruct (forallb Py.is_byte d); congruence.
Qed.

Lemma can_Message_bytes (aid : Z) (d : list Z) :
  forallb Py.is_byte d = true -> can_Message aid d = Some (mkMessage aid d).
Proof.
  intros H. unfold can_Message. now rewrite H.
Qed.

(** Every frame [_send_obd_response] transmits carries the identifier the
    source computes: [0x7E8] for a broadcast request, [request_id + 8]
    otherwise. *)
Lemma send_obd_response_id (rid : Z) (payload : list Z) (m : Message) :
  In m (CanSim._send_obd_response rid payload) ->
  arbitration_id m = (if rid =? 0x7DF then 0x7E8 else rid + 8)
  /\ nth 0 (data m) 0 = Z.of_nat (length payload).
Proof.
  unfold CanSim._send_obd_response.
  match goal with
  | |- In m match ?c with _ => _ end -> _ => destruct c eqn:E
  end; [| intros []].
  intros [<- | []]. apply can_Message_some in E. subst m0. simpl.
  split; [reflexivity |].
  destruct (8 <? S (length payload))%nat; reflexivity.
Qed.

(** Every frame [_send_negative_response] transmits has identifier
    [request_id + 8] and starts with [0x7F]. *)
Lemma send_negative_response_id (rid mode : Z) (pid : option Z) (m : Message) :
  In m (CanSim._send_negative_response rid mode pid) ->
  arbitration_id m = rid + 8 /\ nth 0 (data m) 0 = 0x7F.
Proof.
  unfold CanSim._send_negative_response.
  match goal with
  | |- In m match ?c with _ => _ end -> _ => destruct c eqn:E
  end; [| intros []].
  intros [<- | []]. apply can_Message_some in E. subst m0. simpl.
  split; [reflexivity |]. destruct pid; reflexivity.
Qed.

Lemma physics_send_id (pid : Z) (d : list Z) (m : Message) :
  In m (Physics._send_obd2_response pid d) -> arbitration_id m = 0x7E8.
Proof.
  unfold Physics._send_obd2_response.
  match goal with
  | |- In m match ?c with _ => _ end -> _ => destruct c eqn:E
  end; [| intros []].
  intros [<- | []]. apply can_Message_some in E. now subst m0.
Qed.

End Frames.

(** ** Mode 0x01 dispatch *)

Section CurrentData.

Variable s : CanSim.Sim.

(** A PID reaches the final [else] of the handler exactly when it is not
    one of the twenty handled PIDs. *)
Lemma encode_not_handled (pid : Z) :
  handled_pid pid = false ->
  CanSim.encode_current_data s pid = CanSim.NotHandled.
Proof.
  unfold handled_pid, handled_pids. cbn [existsb]. intros H.
  repeat (apply orb_false_elim in H; destruct H as [?E H]).
  unfold CanSim.encode_current_data.
  repeat match goal with
         | E : (pid =? ?k) = false |- _ => rewrite E; clear E
         end.
  reflexivity.
Qed.

Lemma encode_handled (pid : Z) :
  handled_pid pid = true ->
  CanSim.encode_current_data s pid <> CanSim.NotHandled.
Proof.
  unfold handled_pid, handled_pids. cbn [existsb]. intros H.
  repeat (apply orb_prop in H; destruct H as [H | H];
          [apply Z.eqb_eq in H; subst pid;
           unfold CanSim.encode_current_data, CanSim.of_pack;
           cbn [Z.eqb Pos.eqb];
           repeat match goal with
                  | |- context [match ?x with Some _ => _ | None => _ end] =>
                      destruct x
                  end; discriminate |]).
  discriminate.
Qed.

(** The exact frame the code transmits for an unhandled PID. *)
Lemma unsupported_pid_frame (req : Message) :
  obd_request req = true ->
  mode_of req = 0x01 ->
  handled_pid (pid_of req) = false ->
  CanSim._process_can_message s req =
  (s, [mkMessage (arbitration_id req + 8)
                 [0x7F; 0x01; 0x12; pid_of req; 0; 0; 0; 0]]).
Proof.
  unfold obd_request, mode_of, pid_of. intros Hreq Hmode Hpid.
  apply andb_prop in Hreq. destruct Hreq as [Hreq Hbytes].
  apply andb_prop in Hreq. destruct Hreq as [Hid Hlen].
  apply Nat.leb_le in Hlen.
  unfold CanSim._process_can_message. rewrite Hid. simpl negb. cbv iota.
  assert (Hl : (length (data req) <? 3)%nat = false) by (apply Nat.ltb_ge; lia).
  rewrite Hl, Hmode. simpl (1 =? 1).  cbv iota.
  unfold CanSim._handle_current_data_request. rewrite Hl.
  rewrite (encode_not_handled _ Hpid).
  unfold CanSim._send_negative_response.
  assert (Hb : Py.is_byte (nth 2 (data req) 0) = true).
  { rewrite forallb_forall in Hbytes. apply Hbytes. apply nth_In. lia. }
  rewrite can_Message_bytes; [reflexivity |].
  simpl. now rewrite Hb.
Qed.

End CurrentData.

(** ** Negative response to an unsupported PID *)

(** The frame sent for PID [0xFF] on a physical request: the payload is
    not preceded by a length byte and the PID is echoed as fourth byte. *)
Lemma unsupported_pid_0xFF_frame :
  snd (CanSim._process_can_message (CanSim.init true)
         (mkMessage 0x7E0 [0x02; 0x01; 0xFF; 0; 0; 0; 0; 0]))
  = [mkMessage 0x7E8 [0x7F; 0x01; 0x12; 0xFF; 0; 0; 0; 0]]
  /\ map data (snd (CanSim._process_can_message (CanSim.init true)
                      (mkMessage 0x7E0 [0x02; 0x01; 0xFF; 0; 0; 0; 0; 0])))
     <> [[0x03; 0x7F; 0x01; 0x12; 0; 0; 0; 0]].
Proof.
  split; [reflexivity | vm_compute; discriminate].
Qed.

(** C1 (as amended).  A mode-0x01 request whose PID has no branch in the
    handler is answered by exactly one frame of 8 bytes in which the bytes
    [0x7F, 0x01, 0x12] are followed by the requested PID and then by zero
    bytes only; at most one byte precedes [0x7F]. *)
Theorem negative_response_unsupported_pid (s : CanSim.Sim) (req : Message) :
  obd_request req = true ->
  mode_of req = 0x01 ->
  handled_pid (pid_of req) = false ->
  exists m pre,
    snd (CanSim._process_can_message s req) = [m]
    /\ length (data m) = 8%nat
    /\ (length pre <= 1)%nat
    /\ data m = pre ++ [0x7F; 0x01; 0x12; pid_of req]
                    ++ repeat 0 (4 - length pre)%nat.
Proof.
  intros Hreq Hmode Hpid.
  rewrite (unsupported_pid_frame s req Hreq Hmode Hpid).
  eexists; exists []. simpl. repeat split; auto.
Qed.

Lemma negative_response_unsupported_pid_witness :
  obd_request (mkMessage 0x7DF [0x02; 0x01; 0x4F; 0; 0; 0; 0; 0]) = true
  /\ mode_of (mkMessage 0x7DF [0x02; 0x01; 0x4F; 0; 0; 0; 0; 0]) = 0x01
  /\ handled_pid (pid_of (mkMessage 0x7DF [0x02; 0x01; 0x4F; 0; 0; 0; 0; 0]))
     = false
  /\ exists m pre,
      snd (CanSim._process_can_message (CanSim.init false)
             (mkMessage 0x7DF [0x02; 0x01; 0x4F; 0; 0; 0; 0; 0])) = [m]
      /\ length (data m) = 8%nat
      /\ (length pre <= 1)%nat
      /\ data m = pre ++ [0x7F; 0x01; 0x12; 0x4F]
                      ++ repeat 0 (4 - length pre)%nat.
Proof.
  split; [reflexivity |]. split; [reflexivity |]. split; [reflexivity |].
  apply (negative_response_unsupported_pid (CanSim.init false)
           (mkMessage 0x7DF [0x02; 0x01; 0x4F; 0; 0; 0; 0; 0]));
    reflexivity.
Defined.

(** ** Response identifiers *)

(** Two transmitted frames that break the identifier rule: the negative
    response to a broadcast request goes out on [0x7E7], and the physics
    simulator answers a request on [0x7E1] on [0x7E8]. *)
Lemma response_id_rule_broken :
  snd (CanSim._process_can_message (CanSim.init true)
         (mkMessage 0x7DF [0x02; 0x01; 0xFF; 0; 0; 0; 0; 0]))
  = [mkMessage 0x7E7 [0x7F; 0x01; 0x12; 0xFF; 0; 0; 0; 0]]
  /\ response_id_rule 0x7DF = 0x7E8
  /\ Physics._process_can_message (Physics.init 0)
       (mkMessage 0x7E1 [0x02; 0x01; 0x0D; 0; 0; 0; 0; 0])
     = [mkMessage 0x7E8 [0x03; 0x41; 0x0D; 0; 0; 0; 0; 0]]
  /\ response_id_rule 0x7E1 = 0x7E9.
Proof.
  repeat split; reflexivity.
Qed.

Lemma process_frames (s : CanSim.Sim) (req m : Message) :
  In m (snd (CanSim._process_can_message s req)) ->
  (exists payload,
      In m (CanSim._send_obd_response (arbitration_id req) payload))
  \/ (exists mode pid,
         In m (CanSim._send_negative_response (arbitration_id req) mode pid)).
Proof.
  unfold CanSim._process_can_message, CanSim._handle_current_data_request,
    CanSim._handle_diagnostic_codes_request,
    CanSim._handle_clear_codes_request, CanSim._handle_vehicle_info_request.
  repeat match goal with
         | |- context [if ?c then _ else _] => destruct c
         | |- context [match ?c with CanSim.Bytes _ => _ | _ => _ end] =>
             destruct c
         end; cbn [snd In]; intros H; try contradiction; eauto.
Qed.

(** C2 (as amended).  In the CAN simulator every frame transmitted for a
    physical request (identifier other than [0x7DF]) has identifier
    [request_id + 8], and every frame transmitted for a broadcast request
    that is not a negative response (first byte [0x7F]) has identifier
    [0x7E8]; the physics simulator transmits every response on [0x7E8]. *)
Theorem response_arbitration_id
  (s : CanSim.Sim) (ps : Physics.PhysicsSimulator) (req m : Message) :
  (In m (snd (CanSim._process_can_message s req)) ->
   arbitration_id req <> 0x7DF \/ nth 0 (data m) 0 <> 0x7F ->
   arbitration_id m = response_id_rule (arbitration_id req))
  /\ (In m (Physics._process_can_message ps req) ->
      arbitration_id m = 0x7E8).
Proof.
  split.
  - intros Hin Hcase. unfold response_id_rule.
    destruct (process_frames s req m Hin) as [[payload H] | [mode [pid H]]].
    + now apply send_obd_response_id in H.
    + apply send_negative_response_id in H. destruct H as [Hid H0].
      destruct Hcase as [Hne | Hne]; [| contradiction].
      apply Z.eqb_neq in Hne. now rewrite Hne.
  - unfold Physics._process_can_message.
    repeat match goal with
           | |- context [if ?c then _ else _] => destruct c
           | |- context [match ?c with Some _ => _ | None => _ end] =>
               destruct c
           | |- context [match ?c with _ :: _ => _ | [] => _ end] =>
               destruct c
           end; try (intros []).
    apply physics_send_id.
Qed.

Lemma response_arbitration_id_witness :
  In (mkMessage 0x7EA [0x03; 0x41; 0x0D; 0; 0; 0; 0; 0])
     (snd (CanSim._process_can_message (CanSim.init true)
             (mkMessage 0x7E2 [0x02; 0x01; 0x0D; 0; 0; 0; 0; 0])))
  /\ 0x7E2 <> 0x7DF
  /\ 0x7EA = response_id_rule 0x7E2.
Proof.
  assert (Hin : In (mkMessage 0x7EA [0x03; 0x41; 0x0D; 0; 0; 0; 0; 0])
     (snd (CanSim._process_can_message (CanSim.init true)
             (mkMessage 0x7E2 [0x02; 0x01; 0x0D; 0; 0; 0; 0; 0]))))
    by (left; reflexivity).
  assert (Hne : 0x7E2 <> 0x7DF) by discriminate.
  split; [exact Hin |]. split; [exact Hne |].
  exact (proj1 (response_arbitration_id (CanSim.init true) (Physics.init 0)
                  (mkMessage 0x7E2 [0x02; 0x01; 0x0D; 0; 0; 0; 0; 0])
                  (mkMessage 0x7EA [0x03; 0x41; 0x0D; 0; 0; 0; 0; 0]))
               Hin (or_introl Hne)).
Defined.

(** ** Physics simulator: requests without a reply *)

Lemma physics_not_handled (st : Physics.PhysicsState) (pid : Z) :
  physics_pid pid = false -> Physics._get_obd2_response st pid = None.
Proof.
  unfold physics_pid, physics_pids. cbn [existsb]. intros H.
  repeat (apply orb_false_elim in H; destruct H as [?E H]).
  unfold Physics._get_obd2_response.
  repeat match goal with
         | E : (pid =? ?k) = false |- _ => rewrite E; clear E
         end.
  reflexivity.
Qed.

(** C10.  In the physics simulator a request with a valid OBD identifier
    and at least three data bytes whose mode is not [0x01], or whose PID is
    none of 0x04, 0x05, 0x0C, 0x0D, 0x11, 0x2F, 0x31, makes the simulator
    transmit nothing at all. *)
Theorem physics_silent_on_unsupported
  (ps : Physics.PhysicsSimulator) (req : Message) :
  is_obd_request_id (arbitration_id req) = true ->
  (3 <= length (data req))%nat ->
  mode_of req <> 0x01 \/ physics_pid (pid_of req) = false ->
  Physics._process_can_message ps req = [].
Proof.
  intros _ _ Hcase. unfold Physics._process_can_message.
  destruct (negb _); [reflexivity |].
  destruct (_ <? _)%nat; [reflexivity |].
  destruct Hcase as [Hmode | Hpid].
  - apply Z.eqb_neq in Hmode. unfold mode_of in Hmode. now rewrite Hmode.
  - destruct (_ && _); [| reflexivity].
    unfold pid_of in Hpid. now rewrite (physics_not_handled _ _ Hpid).
Qed.

Lemma physics_silent_on_unsupported_witness :
  is_obd_request_id 0x7DF = true
  /\ (3 <= length [0x02; 0x01; 0x10; 0; 0; 0; 0; 0])%nat
  /\ physics_pid 0x10 = false
  /\ Physics._process_can_message (Physics.init 0)
       (mkMessage 0x7DF [0x02; 0x01; 0x10; 0; 0; 0; 0; 0]) = [].
Proof.
  split; [reflexivity |]. split; [simpl; lia |]. split; [reflexivity |].
  apply (physics_silent_on_unsupported (Physics.init 0)
           (mkMessage 0x7DF [0x02; 0x01; 0x10; 0; 0; 0; 0; 0]));
    [reflexivity | simpl; lia | right; reflexivity].
Defined.

(** ** Supported-PID mask *)

Section Mask.

Variable pid_range : Z.

(** The bit a PID of the window sets: position [31 - (pid - base - 1)]. *)
Lemma mask_step_testbit (mask pid i : Z) :
  0 <= i ->
  Z.testbit (CanSim.mask_step pid_range mask pid) i =
  Z.testbit mask i
  || ((pid_range + 1 <=? pid) && (pid <=? pid_range + 32)
      && (i =? pid_range + 32 - pid)).
Proof.
  intros Hi. unfold CanSim.mask_step.
  destruct (Z.leb_spec 0 (pid - (pid_range + 1)));
    destruct (Z.ltb_spec (pid - (pid_range + 1)) 32); cbn [andb].
  - rewrite Z.lor_spec, Z.shiftl_1_l, Z.pow2_bits_eqb by lia.
    f_equal.
    destruct (Z.leb_spec (pid_range + 1) pid); [| lia].
    destruct (Z.leb_spec pid (pid_range + 32)); [| lia].
    cbn [andb].
    destruct (Z.eqb_spec (31 - (pid - (pid_range + 1))) i);
      destruct (Z.eqb_spec i (pid_range + 32 - pid)); (reflexivity || lia).
  - destruct (Z.leb_spec pid (pid_range + 32)); [lia |].
    now rewrite andb_false_r, orb_false_r.
  - destruct (Z.leb_spec (pid_range + 1) pid); [lia |].
    now rewrite orb_false_r.
  - lia.
Qed.

Lemma fold_mask_testbit (pids : list Z) (mask i : Z) :
  0 <= i ->
  Z.testbit (fold_left (CanSim.mask_step pid_range) pids mask) i =
  Z.testbit mask i
  || existsb (fun pid => (pid_range + 1 <=? pid) && (pid <=? pid_range + 32)
                         && (i =? pid_range + 32 - pid)) pids.
Proof.
  intros Hi. revert mask.
  induction pids as [| pid pids IH]; intros mask; cbn [fold_left existsb].
  - now rewrite orb_false_r.
  - rewrite IH, mask_step_testbit by assumption. now rewrite orb_assoc.
Qed.

(** For a PID of the window [[base + 1, base + 32]], its bit is set
    exactly when the PID is in the list. *)
Lemma mask_of_bit (pids : list Z) (pid : Z) :
  pid_range + 1 <= pid <= pid_range + 32 ->
  Z.testbit (CanSim.mask_of pids pid_range) (31 - (pid - pid_range - 1)) = true
  <-> In pid pids.
Proof.
  intros Hpid. unfold CanSim.mask_of.
  rewrite fold_mask_testbit by lia.
  rewrite Z.testbit_0_l, orb_false_l, existsb_exists.
  split.
  - intros [x [Hin Hx]].
    apply andb_prop in Hx. destruct Hx as [_ Hx].
    apply Z.eqb_eq in Hx. assert (x = pid) by lia. now subst.
  - intros Hin. exists pid. split; [assumption |].
    apply andb_true_intro. split.
    + apply andb_true_intro. split; apply Z.leb_le; lia.
    + apply Z.eqb_eq. lia.
Qed.

End Mask.

(** Bit 0 of the mask of window [0x00] is clear although the table has
    entries for window [0x20]. *)
Lemma mask_continuation_bit_clear :
  Z.testbit (CanSim._get_supported_pids_mask 0x00) 0 = false
  /\ CanSim.dict_get CanSim._initialize_supported_pids 0x20
     = [0x21; 0x22; 0x2F; 0x33].
Proof.
  split; reflexivity.
Qed.

(** C5 (as amended).  For each window base 0x00, 0x20, 0x40 and each PID
    of the window [[base + 1, base + 32]], bit [31 - (pid - base - 1)] of
    the returned mask is set exactly when the PID is listed for that window
    in the supported-PID table; bit 0 of every one of the three masks is
    clear, because no window lists PID [base + 32]. *)
Theorem supported_pids_mask_bits (base pid : Z) :
  In base [0x00; 0x20; 0x40] ->
  base + 1 <= pid <= base + 32 ->
  (Z.testbit (CanSim._get_supported_pids_mask base) (31 - (pid - base - 1))
   = true
   <-> In pid (CanSim.dict_get CanSim._initialize_supported_pids base))
  /\ Z.testbit (CanSim._get_supported_pids_mask base) 0 = false.
Proof.
  intros Hbase Hpid. split.
  - apply mask_of_bit. assumption.
  - cbn [In] in Hbase.
    destruct Hbase as [<- | [<- | [<- | []]]]; reflexivity.
Qed.

Lemma supported_pids_mask_bits_witness :
  In 0x20 [0x00; 0x20; 0x40]
  /\ 0x20 + 1 <= 0x2F <= 0x20 + 32
  /\ (Z.testbit (CanSim._get_supported_pids_mask 0x20) (31 - (0x2F - 0x20 - 1))
      = true
      <-> In 0x2F (CanSim.dict_get CanSim._initialize_supported_pids 0x20))
  /\ Z.testbit (CanSim._get_supported_pids_mask 0x20) 0 = false.
Proof.
  assert (Hb : In 0x20 [0x00; 0x20; 0x40]) by (right; left; reflexivity).
  assert (Hp : 0x20 + 1 <= 0x2F <= 0x20 + 32) by lia.
  split; [exact Hb |]. split; [exact Hp |].
  exact (supported_pids_mask_bits 0x20 0x2F Hb Hp).
Defined.

(** ** [int(s, 16)] *)

Section Int16.

Import PyInt.

Lemma Forall_app_intro {A} (P : A -> Prop) (l1 l2 : list A) :
  Forall P l1 -> Forall P l2 -> Forall P (l1 ++ l2).
Proof.
  intros H1 H2. apply Forall_app. now split.
Qed.

Lemma hex_digit_facts (c : ascii) (d : Z) :
  hex_digit_value c = Some d ->
  0 <= d <= 15
  /\ is_space c = false /\ is_underscore c = false
  /\ (code c =? 43) = false /\ (code c =? 45) = false
  /\ (code c =? 120) = false /\ (code c =? 88) = false.
Proof.
  unfold hex_digit_value, is_space, is_underscore.
  generalize (code c). intros n H.
  assert (Hn : (48 <= n <= 57 /\ d = n - 48)
               \/ (65 <= n <= 70 /\ d = n - 55)
               \/ (97 <= n <= 102 /\ d = n - 87)).
  { destruct ((48 <=? n) && (n <=? 57)) eqn:E1;
      [left | destruct ((65 <=? n) && (n <=? 70)) eqn:E2;
              [right; left
              | destruct ((97 <=? n) && (n <=? 102)) eqn:E3;
                [right; right | discriminate]]];
      match goal with
      | E : _ && _ = true |- _ =>
          apply andb_prop in E; destruct E as [Ea Eb];
          apply Z.leb_le in Ea; apply Z.leb_le in Eb
      end; injection H as <-; lia. }
  split; [lia |]. split.
  - apply orb_false_intro; [| apply Z.eqb_neq; lia].
    apply andb_false_intro2, Z.leb_gt. lia.
  - repeat split; apply Z.eqb_neq; lia.
Qed.

(** A hex digit is below 127: the first stage leaves it alone. *)
Lemma hex_digit_to_ascii (c : ascii) (d : Z) :
  hex_digit_value c = Some d -> to_ascii c = c.
Proof.
  unfold hex_digit_value, to_ascii. intros H.
  destruct (Z.ltb_spec (code c) 127) as [Hlt | Hge]; [reflexivity |].
  repeat match type of H with
         | (if ?b then _ else _) = _ =>
             let E := fresh "E" in
             destruct b eqn:E;
             [apply andb_prop in E; destruct E as [_ E];
              apply Z.leb_le in E; lia |]
         end.
  discriminate.
Qed.

(** Four hex digits parse to their positional value. *)
Lemma int16_four_digits (c1 c2 c3 c4 : ascii) (d1 d2 d3 d4 : Z) :
  hex_digit_value c1 = Some d1 -> hex_digit_value c2 = Some d2 ->
  hex_digit_value c3 = Some d3 -> hex_digit_value c4 = Some d4 ->
  int16 [c1; c2; c3; c4] = Some (4096 * d1 + 256 * d2 + 16 * d3 + d4).
Proof.
  intros H1 H2 H3 H4.
  destruct (hex_digit_facts _ _ H1) as (_ & Hs1 & Hu1 & Hp1 & Hm1 & _).
  destruct (hex_digit_facts _ _ H2) as (_ & _ & _ & _ & _ & Hx2 & HX2).
  unfold int16. cbn [map].
  rewrite (hex_digit_to_ascii _ _ H1), (hex_digit_to_ascii _ _ H2),
    (hex_digit_to_ascii _ _ H3), (hex_digit_to_ascii _ _ H4).
  unfold parse16. cbn [skip_spaces]. rewrite Hs1.
  unfold strip_sign. rewrite Hp1, Hm1.
  unfold strip_prefix. rewrite Hx2, HX2. cbn [orb]. rewrite andb_false_r.
  rewrite Hu1. cbn [scan_digits]. rewrite H1, H2, H3, H4.
  cbn [skip_spaces]. f_equal. lia.
Qed.

Lemma skip_spaces_split (s : list ascii) :
  exists pre, s = pre ++ skip_spaces s /\ Forall (fun c => is_space c = true) pre.
Proof.
  induction s as [| c s IH]; cbn [skip_spaces].
  - exists []. split; [reflexivity | constructor].
  - destruct (is_space c) eqn:E.
    + destruct IH as [pre [Heq Hall]]. exists (c :: pre). split.
      * cbn [app]. now rewrite <- Heq.
      * now constructor.
    + exists []. split; [reflexivity | constructor].
Qed.

Lemma space_allowed (c : ascii) : is_space c = true -> parse16_char c = true.
Proof.
  intros H. unfold parse16_char. now rewrite H.
Qed.

Lemma skip_spaces_allowed (s : list ascii) :
  Forall (fun c => parse16_char c = true) (skip_spaces s) ->
  Forall (fun c => parse16_char c = true) s.
Proof.
  intros H. destruct (skip_spaces_split s) as [pre [Heq Hall]].
  rewrite Heq. apply Forall_app_intro; [| assumption].
  eapply Forall_impl; [| exact Hall]. apply space_allowed.
Qed.

Lemma strip_sign_allowed (s s2 : list ascii) (sg : Z) :
  strip_sign s = (sg, s2) ->
  Forall (fun c => parse16_char c = true) s2 ->
  Forall (fun c => parse16_char c = true) s.
Proof.
  unfold strip_sign. destruct s as [| c r]; [now intros [= <- <-] |].
  destruct (code c =? 43) eqn:Ep; [| destruct (code c =? 45) eqn:Em];
    intros [= <- <-] H; try assumption;
    constructor; try assumption; unfold parse16_char;
    rewrite ?Ep, ?Em, ?orb_true_r; reflexivity.
Qed.

Lemma strip_prefix_allowed (s : list ascii) :
  Forall (fun c => parse16_char c = true) (strip_prefix s) ->
  Forall (fun c => parse16_char c = true) s.
Proof.
  unfold strip_prefix. destruct s as [| z [| x r]]; try (intros H; exact H).
  destruct ((code z =? 48) && ((code x =? 120) || (code x =? 88))) eqn:E;
    [| intros H; exact H].
  apply andb_prop in E. destruct E as [Ez Ex].
  assert (Hz : parse16_char z = true).
  { unfold parse16_char, hex_digit_value, is_space, is_underscore.
    apply Z.eqb_eq in Ez. rewrite Ez. reflexivity. }
  assert (Hx : parse16_char x = true).
  { unfold parse16_char. apply orb_prop in Ex. destruct Ex as [Ex | Ex];
      rewrite Ex, ?orb_true_r; reflexivity. }
  destruct r as [| u r'].
  - intros _. constructor; [assumption |]. constructor; [assumption |].
    constructor.
  - destruct (is_underscore u) eqn:Eu; intros H.
    + constructor; [assumption |]. constructor; [assumption |].
      constructor; [| assumption].
      unfold parse16_char. rewrite Eu, ?orb_true_r. reflexivity.
    + constructor; [assumption |]. constructor; assumption.
Qed.

Lemma scan_digits_allowed (s : list ascii) :
  forall prev acc ndig v n rest,
    scan_digits prev acc ndig s = Some (v, n, rest) ->
    Forall (fun c => parse16_char c = true) rest ->
    Forall (fun c => parse16_char c = true) s.
Proof.
  induction s as [| c s IH]; intros prev acc ndig v n rest; cbn [scan_digits].
  - intros _ _. constructor.
  - destruct (hex_digit_value c) as [d |] eqn:Eh.
    + intros H Hrest. constructor; [| eapply IH; eassumption].
      unfold parse16_char. rewrite Eh, ?orb_true_r. reflexivity.
    + destruct (is_underscore c) eqn:Eu.
      * destruct prev; [discriminate |].
        intros H Hrest. constructor; [| eapply IH; eassumption].
        unfold parse16_char. rewrite Eu, ?orb_true_r. reflexivity.
      * destruct prev; [discriminate |].
        intros [= _ _ <-] Hrest. exact Hrest.
Qed.

(** Whatever [PyLong_FromString] accepts consists of consumable bytes
    only. *)
Lemma parse16_allowed (s : list ascii) (n : Z) :
  parse16 s = Some n -> Forall (fun c => parse16_char c = true) s.
Proof.
  unfold parse16.
  destruct (strip_sign (skip_spaces s)) as [sg s2] eqn:Esign.
  intros H. apply skip_spaces_allowed.
  apply (strip_sign_allowed _ _ _ Esign).
  apply strip_prefix_allowed.
  destruct (strip_prefix s2) as [| c r] eqn:Ep; [constructor |].
  destruct (is_underscore c); [discriminate |].
  destruct (scan_digits false 0 0 (c :: r)) as [[[v nd] rest] |] eqn:Es;
    [| discriminate].
  apply (scan_digits_allowed _ _ _ _ _ _ _ Es).
  destruct nd; [discriminate |].
  destruct (skip_spaces rest) eqn:Er; [| discriminate].
  apply skip_spaces_allowed. rewrite Er. constructor.
Qed.

(** Whatever [int(s, 16)] accepts consists of consumable code points
    only. *)
Lemma int16_allowed (s : list ascii) (n : Z) :
  int16 s = Some n -> Forall (fun c => int16_char c = true) s.
Proof.
  unfold int16, int16_char. intros H. apply parse16_allowed in H.
  rewrite Forall_map in H. exact H.
Qed.

End Int16.

(** ** DTC encoding *)

Section EncodeDtc.

Import PyInt.

Lemma forallb_range (P : Z -> bool) (n : nat) :
  forallb P (map Z.of_nat (seq 0 n)) = true ->
  forall x, 0 <= x < Z.of_nat n -> P x = true.
Proof.
  intros H x Hx. rewrite forallb_forall in H. apply H.
  apply in_map_iff. exists (Z.to_nat x). split; [lia |].
  apply in_seq. lia.
Qed.

Lemma lor_high_low (k t : Z) :
  0 <= k <= 3 -> 0 <= t < 256 ->
  Z.lor (64 * k) (Z.land t 63) = 64 * k + t mod 64.
Proof.
  intros Hk Ht.
  assert (Hall : forall k', 0 <= k' < Z.of_nat 4 ->
            forallb (fun t' => Z.lor (64 * k') (Z.land t' 63)
                                =? 64 * k' + t' mod 64)
                    (map Z.of_nat (seq 0 256)) = true).
  { apply (forallb_range
             (fun k' => forallb (fun t' => Z.lor (64 * k') (Z.land t' 63)
                                           =? 64 * k' + t' mod 64)
                                (map Z.of_nat (seq 0 256))) 4).
    vm_compute. reflexivity. }
  apply Z.eqb_eq.
  apply (forallb_range
           (fun t' => Z.lor (64 * k) (Z.land t' 63) =? 64 * k + t' mod 64)
           256); [apply Hall |]; lia.
Qed.

Lemma number_bytes (d1 d2 d3 d4 : Z) :
  0 <= d1 <= 15 -> 0 <= d2 <= 15 -> 0 <= d3 <= 15 -> 0 <= d4 <= 15 ->
  Z.shiftr (4096 * d1 + 256 * d2 + 16 * d3 + d4) 8 = 16 * d1 + d2
  /\ Z.land (4096 * d1 + 256 * d2 + 16 * d3 + d4) 255 = 16 * d3 + d4
  /\ (16 * d1 + d2) mod 64 = 16 * (d1 mod 4) + d2.
Proof.
  intros H1 H2 H3 H4. repeat split.
  - rewrite Z.shiftr_div_pow2 by lia. change (2 ^ 8) with 256.
    symmetry. apply (Z.div_unique _ _ _ (16 * d3 + d4)); lia.
  - change 255 with (Z.ones 8). rewrite Z.land_ones by lia.
    change (2 ^ 8) with 256.
    symmetry. apply (Z.mod_unique _ _ (16 * d1 + d2)); lia.
  - symmetry. apply (Z.mod_unique _ _ (d1 / 4)); [| ].
    + left. pose proof (Z.mod_pos_bound d1 4). lia.
    + pose proof (Z.div_mod d1 4). lia.
Qed.

Lemma length_list_ascii_of_string (s : string) :
  length (list_ascii_of_string s) = String.length s.
Proof.
  induction s as [| c s IH]; cbn; [reflexivity | now rewrite IH].
Qed.

(** The first-byte constant the source picks for a category letter. *)
Lemma encode_dtc_hex (fb : Z) (c0 c1 c2 c3 c4 : ascii) (d1 d2 d3 d4 : Z) :
  (if Ascii.eqb (upper c0) "P" then 0x00
   else if Ascii.eqb (upper c0) "C" then 0x40
   else if Ascii.eqb (upper c0) "B" then 0x80
   else if Ascii.eqb (upper c0) "U" then 0xC0
   else 0x00) = 64 * fb ->
  0 <= fb <= 3 ->
  hex_digit_value c1 = Some d1 -> hex_digit_value c2 = Some d2 ->
  hex_digit_value c3 = Some d3 -> hex_digit_value c4 = Some d4 ->
  CanSim._encode_dtc (dtc_string c0 c1 c2 c3 c4)
  = [64 * fb + 16 * (d1 mod 4) + d2; 16 * d3 + d4].
Proof.
  intros Hfb Hrange H1 H2 H3 H4.
  unfold CanSim._encode_dtc, dtc_string.
  cbn [list_ascii_of_string length Nat.eqb negb].
  rewrite Hfb, (int16_four_digits _ _ _ _ _ _ _ _ H1 H2 H3 H4).
  destruct (hex_digit_facts _ _ H1) as (B1 & _).
  destruct (hex_digit_facts _ _ H2) as (B2 & _).
  destruct (hex_digit_facts _ _ H3) as (B3 & _).
  destruct (hex_digit_facts _ _ H4) as (B4 & _).
  destruct (number_bytes d1 d2 d3 d4 B1 B2 B3 B4) as (Hs & Hl & Hm).
  rewrite Hs, Hl, lor_high_low, Hm by lia.
  f_equal. lia.
Qed.

End EncodeDtc.

(** A code with a letter outside P, C, B, U is malformed, yet it does not
    encode to [0x0000]: the letter is treated like P. *)
Lemma encode_dtc_unknown_letter :
  CanSim._encode_dtc "X1234" = [0x12; 0x34]
  /\ ~ In "X"%char dtc_letters.
Proof.
  split; [reflexivity |].
  cbn [dtc_letters In]. intros [H | [H | [H | [H | []]]]]; discriminate.
Qed.

(** The two Latin-1 spaces are stripped by [int(_, 16)] like a blank: a
    code padded with U+00A0 or U+0085 is not sent as [0x0000]. *)
Lemma encode_dtc_latin1_space :
  CanSim._encode_dtc (String "P" (String (ascii_of_nat 0xA0) "123"))
  = [0x01; 0x23]
  /\ CanSim._encode_dtc (String "P" (String (ascii_of_nat 0x85) "123"))
     = [0x01; 0x23]
  /\ CanSim._encode_dtc (String "P" (String (ascii_of_nat 0x1C) "123"))
     = [0x00; 0x00]
  /\ int16_char (ascii_of_nat 0xA0) = true
  /\ int16_char (ascii_of_nat 0x85) = true
  /\ int16_char (ascii_of_nat 0x1C) = false.
Proof.
  repeat split; reflexivity.
Qed.

(** C6 (as amended).  A five-character code whose first character is one
    of P, C, B, U (in either case) and whose other four characters are hex
    digits encodes to two bytes: the two high bits are 00, 01, 10, 11 for
    P, C, B, U, the next two bits are the value of the second character
    modulo 4 (the value itself for 0-3), and the remaining twelve bits are
    the hex values of characters 3-5.  An input whose length is not 5, or
    whose last four characters contain a code point [int(_, 16)] cannot
    consume (anything but a hex digit, a sign, an underscore, the letter x
    and the spaces: tab to carriage return, the blank, U+0085 and U+00A0),
    encodes to [0x0000].  A five-character input with another first
    character and four hex digits is encoded like a P code.  Strings are
    Latin-1: every code point is below 256. *)
Theorem encode_dtc_cases
  (k : nat) (c0 c1 c2 c3 c4 c : ascii) (d1 d2 d3 d4 : Z) (s : string) :
  (nth_error dtc_letters k = Some (PyInt.upper c0) ->
   PyInt.hex_digit_value c1 = Some d1 -> PyInt.hex_digit_value c2 = Some d2 ->
   PyInt.hex_digit_value c3 = Some d3 -> PyInt.hex_digit_value c4 = Some d4 ->
   CanSim._encode_dtc (dtc_string c0 c1 c2 c3 c4)
   = [64 * Z.of_nat k + 16 * (d1 mod 4) + d2; 16 * d3 + d4]
   /\ (d1 <= 3 -> d1 mod 4 = d1))
  /\ (String.length s <> 5%nat -> CanSim._encode_dtc s = [0x00; 0x00])
  /\ (In c (tl (list_ascii_of_string s)) -> int16_char c = false ->
      CanSim._encode_dtc s = [0x00; 0x00])
  /\ (~ In (PyInt.upper c0) dtc_letters ->
      PyInt.hex_digit_value c1 = Some d1 -> PyInt.hex_digit_value c2 = Some d2 ->
      PyInt.hex_digit_value c3 = Some d3 -> PyInt.hex_digit_value c4 = Some d4 ->
      CanSim._encode_dtc (dtc_string c0 c1 c2 c3 c4)
      = [16 * (d1 mod 4) + d2; 16 * d3 + d4]).
Proof.
  split; [| split; [| split]].
  - intros Hk H1 H2 H3 H4. split.
    + apply encode_dtc_hex; try assumption.
      * unfold dtc_letters in Hk.
        destruct k as [| [| [| [| k]]]]; cbn [nth_error] in Hk;
          try (injection Hk as <-; reflexivity).
        destruct k; discriminate.
      * assert (k < 4)%nat; [| lia].
        apply (proj1 (nth_error_Some dtc_letters k)). congruence.
    + intros Hle. apply Z.mod_small.
      destruct (hex_digit_facts _ _ H1) as (B1 & _). lia.
  - intros Hlen. unfold CanSim._encode_dtc.
    rewrite <- length_list_ascii_of_string in Hlen.
    destruct (list_ascii_of_string s) as [| a t]; [reflexivity |].
    apply Nat.eqb_neq in Hlen. now rewrite Hlen.
  - intros Hin Hbad. unfold CanSim._encode_dtc.
    destruct (list_ascii_of_string s) as [| a t]; [reflexivity |].
    cbn [tl] in Hin.
    destruct (negb _); [reflexivity |].
    destruct (PyInt.int16 t) as [n |] eqn:E; [| reflexivity].
    apply int16_allowed in E. rewrite Forall_forall in E.
    specialize (E c Hin). congruence.
  - intros Hnot H1 H2 H3 H4.
    rewrite (encode_dtc_hex 0 c0 c1 c2 c3 c4 d1 d2 d3 d4);
      try assumption; [f_equal | | lia].
    cbn [dtc_letters In] in Hnot.
    repeat match goal with
           | |- context [Ascii.eqb ?a ?b] =>
               destruct (Ascii.eqb_spec a b); [exfalso; apply Hnot; auto |]
           end.
    reflexivity.
Qed.

Lemma encode_dtc_cases_witness :
  nth_error dtc_letters 3 = Some (PyInt.upper "U")
  /\ PyInt.hex_digit_value "0" = Some 0
  /\ PyInt.hex_digit_value "1" = Some 1
  /\ PyInt.hex_digit_value "A" = Some 10
  /\ PyInt.hex_digit_value "f" = Some 15
  /\ CanSim._encode_dtc (dtc_string "U" "0" "1" "A" "f") = [0xC1; 0xAF].
Proof.
  repeat (split; [reflexivity |]).
  exact (proj1 (proj1 (encode_dtc_cases 3 "U" "0" "1" "A" "f" "G"
                         0 1 10 15 "P0G00")
                 eq_refl eq_refl eq_refl eq_refl eq_refl)).
Defined.

(** ** Mode 0x03: stored trouble codes *)

Section DiagnosticCodes.

Lemma fold_confirmed (l : list CanSim.DiagnosticTroubleCode) (acc : list Z) :
  fold_left
    (fun acc dtc =>
       if CanSim.is_confirmed dtc
       then acc ++ CanSim._encode_dtc (CanSim.code dtc) else acc) l acc
  = acc ++ flat_map (fun dtc => CanSim._encode_dtc (CanSim.code dtc))
                    (filter CanSim.is_confirmed l).
Proof.
  revert acc. induction l as [| d l IH]; intros acc; cbn [fold_left filter].
  - cbn. now rewrite app_nil_r.
  - rewrite IH. destruct (CanSim.is_confirmed d); [| reflexivity].
    cbn [flat_map]. now rewrite app_assoc.
Qed.

Lemma land_byte (x : Z) : 0 <= Z.land x 255 <= 255.
Proof.
  change (Z.land x 255) with (Z.land x (Z.ones 8)).
  rewrite (Z.land_ones x 8) by lia.
  change (2 ^ 8) with 256. pose proof (Z.mod_pos_bound x 256). lia.
Qed.

Lemma lor_byte (a b : Z) :
  0 <= a <= 255 -> 0 <= b <= 255 -> 0 <= Z.lor a b <= 255.
Proof.
  intros Ha Hb.
  assert (H0 : 0 <= Z.lor a b) by (apply Z.lor_nonneg; lia).
  split; [assumption |].
  destruct (Z.eq_dec (Z.lor a b) 0) as [-> | Hne]; [lia |].
  assert (Hlt : Z.lor a b < 2 ^ 8); [| change (2 ^ 8) with 256 in Hlt; lia].
  apply Z.log2_lt_pow2; [lia |].
  rewrite Z.log2_lor by lia.
  assert (Hlog : forall x, 0 <= x <= 255 -> Z.log2 x < 8).
  { intros x Hx. destruct (Z.eq_dec x 0) as [-> | Hx0]; [reflexivity |].
    apply Z.log2_lt_pow2; [lia |]. change (2 ^ 8) with 256. lia. }
  apply Z.max_lub_lt; apply Hlog; assumption.
Qed.

(** [_encode_dtc] always returns two bytes. *)
Lemma encode_dtc_two_bytes (c : string) :
  length (CanSim._encode_dtc c) = 2%nat
  /\ forallb Py.is_byte (CanSim._encode_dtc c) = true.
Proof.
  unfold CanSim._encode_dtc.
  destruct (list_ascii_of_string c) as [| c0 t]; [split; reflexivity |].
  destruct (negb _); [split; reflexivity |].
  destruct (PyInt.int16 t) as [n |]; [| split; reflexivity].
  split; [reflexivity |].
  cbn [forallb]. unfold Py.is_byte.
  pose proof (land_byte n) as Hn.
  assert (Hm : 0 <= Z.land (Z.shiftr n 8) 63 <= 255).
  { change 63 with (Z.ones 6). rewrite (Z.land_ones _ 6) by lia.
    change (2 ^ 6) with 64.
    pose proof (Z.mod_pos_bound (Z.shiftr n 8) 64). lia. }
  match goal with
  | |- context [Z.lor ?fb _] =>
      assert (Hfb : 0 <= fb <= 255)
        by (repeat match goal with
                   | |- context [if ?b then _ else _] => destruct b
                   end; lia);
      pose proof (lor_byte fb _ Hfb Hm) as Hl
  end.
  repeat match goal with
         | |- context [?a <=? ?b] =>
             destruct (Z.leb_spec a b); [| lia]
         end.
  reflexivity.
Qed.

Lemma flat_map_encode_length (l : list CanSim.DiagnosticTroubleCode) :
  length (flat_map (fun dtc => CanSim._encode_dtc (CanSim.code dtc)) l)
  = (2 * length l)%nat.
Proof.
  induction l as [| d l IH]; [reflexivity |].
  cbn [flat_map length]. rewrite length_app, IH.
  rewrite (proj1 (encode_dtc_two_bytes _)). lia.
Qed.

Lemma flat_map_bytes (l : list CanSim.DiagnosticTroubleCode) :
  forallb Py.is_byte
    (flat_map (fun dtc => CanSim._encode_dtc (CanSim.code dtc)) l) = true.
Proof.
  induction l as [| d l IH]; [reflexivity |].
  cbn [flat_map]. rewrite forallb_app, IH.
  now rewrite (proj2 (encode_dtc_two_bytes _)).
Qed.

Lemma firstn_bytes (l : list Z) (n : nat) :
  forallb Py.is_byte l = true -> forallb Py.is_byte (firstn n l) = true.
Proof.
  revert n. induction l as [| x l IH]; intros [| n]; try reflexivity.
  cbn [forallb firstn]. intros H. apply andb_prop in H. destruct H as [Hx Hl].
  now rewrite Hx, IH.
Qed.

Lemma pad8_bytes (l : list Z) :
  forallb Py.is_byte l = true -> forallb Py.is_byte (pad8 l) = true.
Proof.
  intros H. unfold pad8. rewrite forallb_app, H.
  induction (8 - length l)%nat; [reflexivity | assumption].
Qed.

(** [_send_obd_response] transmits exactly one frame when the payload
    consists of bytes and is shorter than 256. *)
Lemma send_obd_response_frame (rid : Z) (payload : list Z) :
  forallb Py.is_byte payload = true ->
  (length payload <= 255)%nat ->
  CanSim._send_obd_response rid payload
  = [mkMessage (response_id_rule rid)
               (pad8 (firstn 8 (Z.of_nat (length payload) :: payload)))].
Proof.
  intros Hb Hl. unfold CanSim._send_obd_response, response_id_rule.
  assert (Hfull : forallb Py.is_byte (Z.of_nat (length payload) :: payload)
                  = true).
  { cbn [forallb]. rewrite Hb. unfold Py.is_byte.
    destruct (Z.leb_spec 0 (Z.of_nat (length payload))); [| lia].
    destruct (Z.leb_spec (Z.of_nat (length payload)) 255); [| lia].
    reflexivity. }
  destruct (8 <? length (Z.of_nat (length payload) :: payload))%nat eqn:E.
  - rewrite can_Message_bytes; [reflexivity |].
    now apply pad8_bytes, firstn_bytes.
  - apply Nat.ltb_ge in E. rewrite firstn_all2 by exact E.
    rewrite can_Message_bytes; [reflexivity |].
    now apply pad8_bytes.
Qed.

End DiagnosticCodes.

(** With three confirmed codes stored, the reply to a mode-0x03 request
    does not carry three groups of two bytes: the built payload has eight
    bytes, the frame has room for seven after the length byte, and the low
    byte [0x01] of the third code U0001 is not transmitted. *)
Lemma three_confirmed_low_byte_cut :
  CanSim.reachable
    (CanSim._add_random_dtc
       (CanSim.start (CanSim.init true) (CanSim.mkInitDraw true [0; 2]%nat))
       5 true)
  /\ CanSim.diagnostic_codes_payload
       (CanSim._add_random_dtc
          (CanSim.start (CanSim.init true) (CanSim.mkInitDraw true [0; 2]%nat))
          5 true)
     = [0x43; 3; 0x04; 0x20; 0x03; 0x01; 0xC0; 0x01]
  /\ snd (CanSim._process_can_message
            (CanSim._add_random_dtc
               (CanSim.start (CanSim.init true)
                             (CanSim.mkInitDraw true [0; 2]%nat))
               5 true)
            (mkMessage 0x7DF [0x01; 0x03; 0; 0; 0; 0; 0; 0]))
     = [mkMessage 0x7E8 [8; 0x43; 3; 0x04; 0x20; 0x03; 0x01; 0xC0]]
  /\ CanSim._encode_dtc "U0001" = [0xC0; 0x01].
Proof.
  split; [| repeat split; reflexivity].
  eapply CanSim.reach_step.
  - apply (CanSim.reach_start true (CanSim.mkInitDraw true [0; 2]%nat)).
    reflexivity.
  - apply CanSim.step_add_dtc; [reflexivity | simpl; lia].
Qed.

(** C7 (as amended).  For a mode-0x03 request the handler builds the
    payload [0x43, N] followed by the two-byte encodings of the confirmed
    DTCs among the first three stored ones, where [N] is the number of all
    stored DTCs with status confirmed (at most 255), and transmits one
    frame on the response identifier: the length of the payload, then the
    payload, cut to eight bytes and filled up with zero bytes.  With at
    most two groups the frame carries every group whole; with three groups
    it carries [8, 0x43, N] and the first five of the six group bytes, so
    the low byte of the third code is not transmitted. *)
Theorem diagnostic_codes_response (s : CanSim.Sim) (req : Message) :
  obd_request req = true ->
  mode_of req = 0x03 ->
  (length (filter CanSim.is_confirmed (CanSim.dtc_codes s)) <= 255)%nat ->
  let N := Z.of_nat (length (filter CanSim.is_confirmed (CanSim.dtc_codes s))) in
  let shown := filter CanSim.is_confirmed (firstn 3 (CanSim.dtc_codes s)) in
  let groups :=
    flat_map (fun dtc => CanSim._encode_dtc (CanSim.code dtc)) shown in
  let payload := [0x43; N] ++ groups in
  CanSim.diagnostic_codes_payload s = payload
  /\ (length shown <= 3)%nat
  /\ length groups = (2 * length shown)%nat
  /\ Forall (fun dtc => CanSim.status dtc = CanSim.confirmed) shown
  /\ CanSim._process_can_message s req
     = (s, [mkMessage (response_id_rule (arbitration_id req))
              (pad8 (firstn 8 (Z.of_nat (length payload) :: payload)))])
  /\ ((length shown <= 2)%nat ->
      snd (CanSim._process_can_message s req)
      = [mkMessage (response_id_rule (arbitration_id req))
           ([Z.of_nat (2 + 2 * length shown); 0x43; N] ++ groups
            ++ repeat 0 (5 - 2 * length shown)%nat)])
  /\ (length shown = 3%nat ->
      snd (CanSim._process_can_message s req)
      = [mkMessage (response_id_rule (arbitration_id req))
           ([8; 0x43; N] ++ removelast groups)]).
Proof.
  intros Hreq Hmode HN N shown groups payload.
  assert (Hpay : CanSim.diagnostic_codes_payload s = payload).
  { unfold CanSim.diagnostic_codes_payload. now rewrite fold_confirmed. }
  assert (Hshown : (length shown <= 3)%nat).
  { subst shown. etransitivity; [apply filter_length_le |].
    rewrite length_firstn. lia. }
  assert (Hgroups : length groups = (2 * length shown)%nat)
    by (subst groups; apply flat_map_encode_length).
  assert (Hlen : length payload = (2 + 2 * length shown)%nat)
    by (subst payload; cbn [app length]; lia).
  assert (Hframe : CanSim._process_can_message s req
     = (s, [mkMessage (response_id_rule (arbitration_id req))
              (pad8 (firstn 8 (Z.of_nat (length payload) :: payload)))])).
  { unfold obd_request in Hreq.
    apply andb_prop in Hreq. destruct Hreq as [Hreq _].
    apply andb_prop in Hreq. destruct Hreq as [Hid Hl].
    apply Nat.leb_le in Hl.
    unfold CanSim._process_can_message. rewrite Hid. cbn [negb].
    assert (Hl3 : (length (data req) <? 3)%nat = false)
      by (apply Nat.ltb_ge; lia).
    unfold mode_of in Hmode. rewrite Hl3, Hmode. cbn [Z.eqb Pos.eqb].
    unfold CanSim._handle_diagnostic_codes_request. rewrite Hpay.
    rewrite send_obd_response_frame; [reflexivity | | lia].
    subst payload. cbn [app forallb]. subst groups.
    rewrite flat_map_bytes, andb_true_r.
    change (Py.is_byte 67) with true. cbn [andb].
    unfold Py.is_byte. subst N.
    apply andb_true_intro. split; apply Z.leb_le; lia. }
  split; [exact Hpay |]. split; [exact Hshown |]. split; [exact Hgroups |].
  split; [| split; [exact Hframe |]].
  - subst shown. apply Forall_forall. intros d Hd.
    apply filter_In in Hd. destruct Hd as [_ Hd].
    unfold CanSim.is_confirmed in Hd.
    destruct (CanSim.status d); (reflexivity || discriminate).
  - rewrite Hframe. cbn [snd]. split.
    + intros Hk. rewrite Hlen. subst payload. cbn [app].
      rewrite firstn_all2 by (cbn [length]; lia).
      unfold pad8. cbn [length app]. rewrite Hgroups.
      replace (8 - S (S (S (2 * length shown))))%nat
        with (5 - 2 * length shown)%nat by lia.
      reflexivity.
    + intros Hk. rewrite Hlen, Hk. subst payload.
      rewrite Hk in Hgroups. clearbody groups.
      destruct groups as [| g1 [| g2 [| g3 [| g4 [| g5 [| g6 [| g7 l]]]]]]];
        try discriminate Hgroups.
      reflexivity.
Qed.

Lemma diagnostic_codes_response_witness :
  obd_request (mkMessage 0x7DF [0x01; 0x03; 0; 0; 0; 0; 0; 0]) = true
  /\ mode_of (mkMessage 0x7DF [0x01; 0x03; 0; 0; 0; 0; 0; 0]) = 0x03
  /\ (length (filter CanSim.is_confirmed
                (CanSim.dtc_codes
                   (CanSim.start (CanSim.init true)
                                 (CanSim.mkInitDraw true [1; 2]%nat))))
      <= 255)%nat
  /\ CanSim._process_can_message
       (CanSim.start (CanSim.init true) (CanSim.mkInitDraw true [1; 2]%nat))
       (mkMessage 0x7DF [0x01; 0x03; 0; 0; 0; 0; 0; 0])
     = (CanSim.start (CanSim.init true) (CanSim.mkInitDraw true [1; 2]%nat),
        [mkMessage 0x7E8 [4; 0x43; 1; 0x03; 0x01; 0; 0; 0]]).
Proof.
  assert (Hn : (length (filter CanSim.is_confirmed
                  (CanSim.dtc_codes
                     (CanSim.start (CanSim.init true)
                                   (CanSim.mkInitDraw true [1; 2]%nat))))
                <= 255)%nat) by (simpl; lia).
  split; [reflexivity |]. split; [reflexivity |]. split; [exact Hn |].
  exact (proj1 (proj2 (proj2 (proj2 (proj2
           (diagnostic_codes_response
              (CanSim.start (CanSim.init true)
                            (CanSim.mkInitDraw true [1; 2]%nat))
              (mkMessage 0x7DF [0x01; 0x03; 0; 0; 0; 0; 0; 0])
              eq_refl eq_refl Hn)))))).
Defined.

(** ** Mode 0x09: vehicle information *)

(** Every mode-0x09 request is answered by the negative response for
    sub-function [0x09]: the handler reads the sub-function from
    [data[1]], which is the mode byte, so neither the VIN branch nor the
    calibration branch can be taken. *)
Lemma vehicle_info_always_negative (s : CanSim.Sim) (req : Message) :
  obd_request req = true ->
  mode_of req = 0x09 ->
  CanSim._process_can_message s req
  = (s, [mkMessage (arbitration_id req + 8)
                   [0x7F; 0x09; 0x12; 0x09; 0; 0; 0; 0]]).
Proof.
  unfold obd_request, mode_of. intros Hreq Hmode.
  apply andb_prop in Hreq. destruct Hreq as [Hreq _].
  apply andb_prop in Hreq. destruct Hreq as [Hid Hlen].
  apply Nat.leb_le in Hlen.
  unfold CanSim._process_can_message. rewrite Hid. cbn [negb].
  assert (Hl : (length (data req) <? 3)%nat = false) by (apply Nat.ltb_ge; lia).
  rewrite Hl, Hmode. cbn [Z.eqb Pos.eqb].
  unfold CanSim._handle_vehicle_info_request.
  assert (Hl2 : (length (data req) <? 2)%nat = false)
    by (apply Nat.ltb_ge; lia).
  rewrite Hl2, Hmode. reflexivity.
Qed.

(** What the VIN branch builds when the handler is entered with
    [data[1] = 0x02]: the frame has room for four VIN characters. *)
Lemma vin_branch_frame :
  CanSim._handle_vehicle_info_request (CanSim.init true)
    (mkMessage 0x7DF [0x02; 0x02; 0; 0; 0; 0; 0; 0])
  = [mkMessage 0x7E8 [20; 0x49; 0x02; 0x01; 0x31; 0x48; 0x47; 0x42]].
Proof. reflexivity. Qed.

(** C3.  The VIN request [0x02, 0x09, 0x02, ...] on [0x7DF] is answered by
    the negative response [0x7F, 0x09, 0x12, 0x09, 0, 0, 0, 0] on [0x7E7];
    no frame with [0x49, 0x02, 0x01] and VIN characters is transmitted. *)
Theorem vin_request_reply :
  CanSim._process_can_message (CanSim.init true)
    (mkMessage 0x7DF [0x02; 0x09; 0x02; 0; 0; 0; 0; 0])
  = (CanSim.init true,
     [mkMessage 0x7E7 [0x7F; 0x09; 0x12; 0x09; 0; 0; 0; 0]]).
Proof. reflexivity. Qed.

(** ** DTC bookkeeping *)

Section Bookkeeping.

Import CanSim.

Lemma pick_length (l : list DiagnosticTroubleCode) (idx : list nat) :
  forallb (fun i => i <? length l)%nat idx = true ->
  length (pick l idx) = length idx.
Proof.
  unfold pick. induction idx as [| i idx IH]; [reflexivity |].
  cbn [forallb flat_map]. intros H. apply andb_prop in H.
  destruct H as [Hi Hrest]. apply Nat.ltb_lt in Hi.
  rewrite length_app, (IH Hrest).
  destruct (nth_error l i) eqn:E; [reflexivity |].
  apply nth_error_None in E. lia.
Qed.

Lemma confirmed_le_length (l : list DiagnosticTroubleCode) :
  (length (filter is_confirmed l) <= length l)%nat.
Proof. apply filter_length_le. Qed.

(** A request changes the simulator state only through mode 0x04. *)
Lemma process_state (s : Sim) (req : Message) :
  fst (_process_can_message s req) = s
  \/ fst (_process_can_message s req)
     = mkSim (engine s) (set_mil_count (vehicle s) false 0) []
             (simulate_dtcs s).
Proof.
  unfold _process_can_message, _handle_clear_codes_request.
  repeat match goal with
         | |- context [if ?c then _ else _] => destruct c
         end; cbn [fst]; auto.
Qed.

Lemma invariant_start (simulate : bool) (d : InitDraw) :
  valid_draw d = true ->
  let s := start (init simulate) d in
  dtc_count (vehicle s) = Z.of_nat (length (dtc_codes s))
  /\ (mil_status (vehicle s) = true <-> 0 < dtc_count (vehicle s)).
Proof.
  unfold valid_draw. intros Hd.
  apply andb_prop in Hd. destruct Hd as [Hd _].
  apply andb_prop in Hd. destruct Hd as [Hlen Hidx].
  pose proof (pick_length demo_codes (sample d) Hidx) as Hpick.
  assert (Hpos : (1 <= length (sample d))%nat).
  { apply orb_prop in Hlen. destruct Hlen as [H | H];
      apply Nat.eqb_eq in H; lia. }
  unfold start, init, _initialize_demo_dtcs.
  cbn [simulate_dtcs dtc_codes vehicle engine app].
  destruct simulate; [destruct (has_codes d) |];
    cbn [dtc_codes vehicle set_mil_count dtc_count mil_status
         VehicleState_default length Z.of_nat];
    (split; [reflexivity |]); (split; [| reflexivity || lia]);
    try discriminate; intros _; rewrite Hpick; lia.
Qed.

Lemma invariant_add (s : Sim) (choice : nat) (promote : bool) :
  dtc_invariant s -> dtc_invariant (_add_random_dtc s choice promote).
Proof.
  unfold dtc_invariant, confirmed_count, _add_random_dtc.
  intros (Hc & Hm).
  destruct (length (dtc_codes s) <? 5)%nat; [| auto].
  destruct (nth_error possible_codes choice) as [[c descr] |]; [| auto].
  destruct (negb _); [| auto].
  destruct promote;
    cbn [dtc_codes vehicle set_mil_count dtc_count mil_status];
    rewrite filter_app, !length_app; cbn [filter is_confirmed status
                                           status_eqb length].
  - split; [lia |]. split; [intros _; right; lia | reflexivity].
  - rewrite Nat.add_0_r. split; [lia | exact Hm].
Qed.

Lemma invariant_step (s s' : Sim) :
  step s s' -> dtc_invariant s -> dtc_invariant s'.
Proof.
  intros Hstep Hinv. destruct Hstep as [s e v Hmil Hcnt | s c p _ _ | s req].
  - unfold dtc_invariant, confirmed_count in *.
    cbn [dtc_codes vehicle]. now rewrite Hmil, Hcnt.
  - now apply invariant_add.
  - destruct (process_state s req) as [-> | ->]; [assumption |].
    unfold dtc_invariant, confirmed_count.
    cbn [dtc_codes vehicle set_mil_count dtc_count mil_status filter length].
    split; [lia |]. split; [discriminate | lia].
Qed.

Lemma invariant_reachable (s : Sim) : reachable s -> dtc_invariant s.
Proof.
  induction 1 as [simulate d Hd | s s' _ IH Hstep].
  - destruct (invariant_start simulate d Hd) as [Hcnt Hmil].
    unfold dtc_invariant, confirmed_count.
    set (s0 := start (init simulate) d) in *.
    pose proof (confirmed_le_length (dtc_codes s0)).
    split; [lia |]. split.
    + intros Hon. left. now apply Hmil.
    + intros [Hpos | Hpos]; apply Hmil; lia.
  - exact (invariant_step s s' Hstep IH).
Qed.

End Bookkeeping.

(** Two reachable states.  After startup with the single pending demo
    code P0171, [dtc_count] is 1 and the lamp is on although no stored
    code is confirmed.  After startup without demo codes and one tick that
    stores P0100 and confirms it, the lamp is on although [dtc_count] is
    still 0. *)
Lemma dtc_count_counts_pending :
  (CanSim.reachable
     (CanSim.start (CanSim.init true) (CanSim.mkInitDraw true [1%nat]))
   /\ CanSim.dtc_count
        (CanSim.vehicle
           (CanSim.start (CanSim.init true) (CanSim.mkInitDraw true [1%nat])))
      = 1
   /\ CanSim.mil_status
        (CanSim.vehicle
           (CanSim.start (CanSim.init true) (CanSim.mkInitDraw true [1%nat])))
      = true
   /\ confirmed_count
        (CanSim.start (CanSim.init true) (CanSim.mkInitDraw true [1%nat]))
      = 0)
  /\ (CanSim.reachable
        (CanSim._add_random_dtc
           (CanSim.start (CanSim.init true) (CanSim.mkInitDraw false [0%nat]))
           0 true)
      /\ CanSim.mil_status
           (CanSim.vehicle
              (CanSim._add_random_dtc
                 (CanSim.start (CanSim.init true)
                               (CanSim.mkInitDraw false [0%nat]))
                 0 true))
         = true
      /\ CanSim.dtc_count
           (CanSim.vehicle
              (CanSim._add_random_dtc
                 (CanSim.start (CanSim.init true)
                               (CanSim.mkInitDraw false [0%nat]))
                 0 true))
         = 0
      /\ confirmed_count
           (CanSim._add_random_dtc
              (CanSim.start (CanSim.init true)
                            (CanSim.mkInitDraw false [0%nat]))
              0 true)
         = 1).
Proof.
  split.
  - split; [| repeat split; reflexivity].
    apply (CanSim.reach_start true (CanSim.mkInitDraw true [1%nat])).
    reflexivity.
  - split; [| repeat split; reflexivity].
    eapply CanSim.reach_step.
    + apply (CanSim.reach_start true (CanSim.mkInitDraw false [0%nat])).
      reflexivity.
    + apply CanSim.step_add_dtc; [reflexivity | simpl; lia].
Qed.

(** C4 (as amended).  After startup initialisation [dtc_count] equals the
    number of stored DTCs, of any status, and [mil_status] holds exactly
    when [dtc_count > 0]; after a mode-0x04 clear the list is empty,
    [dtc_count] is 0 and [mil_status] is false; and in every reachable
    state [dtc_count] is between 0 and the number of stored DTCs and
    [mil_status] is true exactly when [dtc_count > 0] or some stored DTC
    is confirmed.  A reachable state is one the program gets to by whole
    loop iterations and whole requests, one after the other. *)
Theorem dtc_bookkeeping
  (s : CanSim.Sim) (simulate : bool) (d : CanSim.InitDraw) (req : Message) :
  (CanSim.reachable s -> dtc_invariant s)
  /\ (CanSim.valid_draw d = true ->
      let s0 := CanSim.start (CanSim.init simulate) d in
      CanSim.dtc_count (CanSim.vehicle s0)
      = Z.of_nat (length (CanSim.dtc_codes s0))
      /\ (CanSim.mil_status (CanSim.vehicle s0) = true
          <-> 0 < CanSim.dtc_count (CanSim.vehicle s0)))
  /\ (obd_request req = true -> mode_of req = 0x04 ->
      let s1 := fst (CanSim._process_can_message s req) in
      CanSim.dtc_codes s1 = []
      /\ CanSim.dtc_count (CanSim.vehicle s1) = 0
      /\ CanSim.mil_status (CanSim.vehicle s1) = false
      /\ confirmed_count s1 = 0).
Proof.
  split; [apply invariant_reachable |].
  split; [apply invariant_start |].
  unfold obd_request, mode_of. intros Hreq Hmode.
  apply andb_prop in Hreq. destruct Hreq as [Hreq _].
  apply andb_prop in Hreq. destruct Hreq as [Hid Hlen].
  apply Nat.leb_le in Hlen.
  unfold CanSim._process_can_message. rewrite Hid. cbn [negb].
  assert (Hl : (length (data req) <? 3)%nat = false) by (apply Nat.ltb_ge; lia).
  rewrite Hl, Hmode. cbn [Z.eqb Pos.eqb].
  repeat split.
Qed.

Lemma dtc_bookkeeping_witness :
  CanSim.reachable
    (CanSim._add_random_dtc
       (CanSim.start (CanSim.init true) (CanSim.mkInitDraw true [0; 1]%nat))
       5 true)
  /\ dtc_invariant
       (CanSim._add_random_dtc
          (CanSim.start (CanSim.init true)
                        (CanSim.mkInitDraw true [0; 1]%nat))
          5 true).
Proof.
  assert (Hr : CanSim.reachable
    (CanSim._add_random_dtc
       (CanSim.start (CanSim.init true) (CanSim.mkInitDraw true [0; 1]%nat))
       5 true)).
  { eapply CanSim.reach_step.
    - apply (CanSim.reach_start true (CanSim.mkInitDraw true [0; 1]%nat)).
      reflexivity.
    - apply CanSim.step_add_dtc; [reflexivity | simpl; lia]. }
  split; [exact Hr |].
  exact (proj1 (dtc_bookkeeping _ true (CanSim.mkInitDraw true [0%nat])
                  (mkMessage 0x7DF [0x01; 0x04; 0; 0; 0; 0; 0; 0])) Hr).
Defined.

(** ** Range of the PID encoders *)

Section Encoders.

Lemma clamp255_range (v : Z) : 0 <= CanSim.clamp255 v <= 255.
Proof.
  unfold CanSim.clamp255, Py.py_max, Py.py_min.
  destruct (Z.ltb_spec v 255);
    match goal with |- context [?a >? ?b] => destruct (Z.gtb_spec a b) end;
    lia.
Qed.

Lemma clamp65535_range (v : Z) : 0 <= CanSim.clamp65535 v <= 65535.
Proof.
  unfold CanSim.clamp65535, Py.py_max, Py.py_min.
  destruct (Z.ltb_spec v 65535);
    match goal with |- context [?a >? ?b] => destruct (Z.gtb_spec a b) end;
    lia.
Qed.

Lemma is_byte_range (b : Z) : 0 <= b <= 255 -> Py.is_byte b = true.
Proof.
  intros H. unfold Py.is_byte.
  destruct (Z.leb_spec 0 b); [| lia]. destruct (Z.leb_spec b 255); [| lia].
  reflexivity.
Qed.

Lemma clamp255_byte (v : Z) : Py.is_byte (CanSim.clamp255 v) = true.
Proof. apply is_byte_range, clamp255_range. Qed.

(** The two bytes [(v >> 8) & 0xFF] and [v & 0xFF] hold [v] modulo
    65536, for every integer [v]. *)
Lemma two_bytes_mod (v : Z) :
  0 <= Z.land (Z.shiftr v 8) 255 <= 255
  /\ 0 <= Z.land v 255 <= 255
  /\ 256 * Z.land (Z.shiftr v 8) 255 + Z.land v 255 = v mod 65536.
Proof.
  split; [apply land_byte |]. split; [apply land_byte |].
  change 255 with (Z.ones 8).
  rewrite !(Z.land_ones _ 8), Z.shiftr_div_pow2 by lia.
  change (2 ^ 8) with 256.
  pose proof (Z.div_mod v 256). pose proof (Z.mod_pos_bound v 256).
  pose proof (Z.div_mod (v / 256) 256).
  pose proof (Z.mod_pos_bound (v / 256) 256).
  apply (Z.mod_unique _ _ (v / 256 / 256)); lia.
Qed.

Lemma struct_pack_H_in_range (v : Z) :
  0 <= v <= 65535 ->
  Py.struct_pack_H v = Some [Z.land (Z.shiftr v 8) 255; Z.land v 255]
  /\ 256 * Z.land (Z.shiftr v 8) 255 + Z.land v 255 = v.
Proof.
  intros H. unfold Py.struct_pack_H.
  destruct (Z.leb_spec 0 v); [| lia]. destruct (Z.leb_spec v 65535); [| lia].
  split; [reflexivity |].
  rewrite (proj2 (proj2 (two_bytes_mod v))). apply Z.mod_small. lia.
Qed.

Lemma two_bytes_are_bytes (v : Z) :
  forallb Py.is_byte [Z.land (Z.shiftr v 8) 255; Z.land v 255] = true.
Proof.
  cbn [forallb]. now rewrite !is_byte_range by apply land_byte.
Qed.

(** [int(x)] of a float between 0 and an integer bound stays within
    that bound. *)
Lemma py_int_range (x : Q) (n : Z) :
  (0 <= x)%Q -> (x <= inject_Z n)%Q -> 0 <= Py.py_int x <= n.
Proof.
  destruct x as [a b]. unfold Qle, Py.py_int. cbn [Qnum Qden inject_Z].
  intros H0 Hn. rewrite Z.mul_1_r in H0.
  rewrite Z.quot_div_nonneg by lia.
  split; [apply Z.div_pos; lia |].
  apply Z.div_le_upper_bound; lia.
Qed.

(** For an engine speed in the documented range 0-7000 the scaled value
    [int(rpm * 4)] fits the two bytes. *)
Lemma rpm_documented_range (s : CanSim.Sim) :
  (0 <= CanSim.rpm (CanSim.engine s) <= 7000)%Q ->
  0 <= Py.py_int (CanSim.rpm (CanSim.engine s) * 4)%Q <= 65535.
Proof.
  intros H.
  assert (Hr : 0 <= Py.py_int (CanSim.rpm (CanSim.engine s) * 4)%Q <= 28000).
  { apply py_int_range; [lra |].
    change (inject_Z 28000) with (28000 # 1)%Q. lra. }
  lia.
Qed.

(** [int(x)] is the floor of a non-negative float. *)
Lemma py_int_floor (x : Q) :
  (0 <= x)%Q ->
  (inject_Z (Py.py_int x) <= x)%Q /\ (x < inject_Z (Py.py_int x) + 1)%Q.
Proof.
  destruct x as [a b]. unfold Qle, Qlt, Py.py_int.
  cbn [Qnum Qden inject_Z Qplus]. intros H0. rewrite Z.mul_1_r in H0.
  rewrite Z.quot_div_nonneg by lia.
  pose proof (Z.div_mod a (Zpos b)) as Hdm.
  pose proof (Z.mod_pos_bound a (Zpos b)) as Hmb.
  split; cbn [Qnum Qden]; nia.
Qed.

(** [int(x)] of a float that is not positive. *)
Lemma py_int_nonpositive (x : Q) : (x <= 0)%Q -> Py.py_int x <= 0.
Proof.
  destruct x as [n dn]. unfold Qle, Py.py_int. cbn [Qnum Qden].
  intros H. rewrite Z.mul_1_r in H.
  replace n with (- (- n)) by lia.
  rewrite Z.quot_opp_l by lia.
  assert (0 <= Z.quot (- n) (Z.pos dn)) by (apply Z.quot_pos; lia).
  lia.
Qed.

(** [int(x)] of a float at or above a non-negative integer. *)
Lemma py_int_at_least (x : Q) (a : Z) :
  0 <= a -> (inject_Z a <= x)%Q -> a <= Py.py_int x.
Proof.
  destruct x as [n dn]. unfold Qle, Py.py_int. cbn [Qnum Qden inject_Z].
  intros Ha H. rewrite Z.mul_1_r in H.
  rewrite Z.quot_div_nonneg by nia.
  apply Z.div_le_lower_bound; lia.
Qed.

(** [int(x)] lies less than one away from [x], on either side of
    zero. *)
Lemma py_int_near (x : Q) :
  (x - 1 < inject_Z (Py.py_int x))%Q /\ (inject_Z (Py.py_int x) < x + 1)%Q.
Proof.
  destruct x as [n d]. unfold Qlt, Qminus, Qplus, Qopp, Py.py_int.
  cbn [Qnum Qden inject_Z].
  pose proof (Z.quot_rem' n (Z.pos d)) as Hqr.
  pose proof (Z.rem_bound_abs n (Z.pos d)) as Hr.
  assert (Hd : Z.abs (Z.pos d) = Z.pos d) by reflexivity.
  rewrite Hd in Hr. specialize (Hr ltac:(lia)).
  rewrite Pos.mul_1_r.
  split; nia.
Qed.

(** What [max(0, min(L, int(x)))] is in terms of [x]: 0 at and below 0,
    [L] at and above [L], and in between an integer less than one away
    from [x]. *)
Lemma clamp_of_scaled (L : Z) (x : Q) :
  0 <= L ->
  0 <= Py.py_max 0 (Py.py_min L (Py.py_int x)) <= L
  /\ ((x <= 0)%Q -> Py.py_max 0 (Py.py_min L (Py.py_int x)) = 0)
  /\ ((inject_Z L <= x)%Q -> Py.py_max 0 (Py.py_min L (Py.py_int x)) = L)
  /\ ((0 <= x <= inject_Z L)%Q ->
      (x - 1 < inject_Z (Py.py_max 0 (Py.py_min L (Py.py_int x))) < x + 1)%Q).
Proof.
  intros HL.
  assert (Hcases : forall w,
             (w <= 0 -> Py.py_max 0 (Py.py_min L w) = 0)
             /\ (0 <= w <= L -> Py.py_max 0 (Py.py_min L w) = w)
             /\ (L <= w -> Py.py_max 0 (Py.py_min L w) = L)).
  { intros w. unfold Py.py_max, Py.py_min.
    destruct (Z.ltb_spec w L);
      match goal with |- context [?a >? ?b] => destruct (Z.gtb_spec a b) end;
      repeat split; intros; lia. }
  destruct (Hcases (Py.py_int x)) as (Hlow & Hmid & Hhigh).
  split; [| split; [| split]].
  - destruct (Z.le_gt_cases (Py.py_int x) 0) as [H0 | H0];
      [rewrite (Hlow H0); lia |].
    destruct (Z.le_gt_cases L (Py.py_int x)) as [H1 | H1];
      [rewrite (Hhigh H1); lia |].
    rewrite Hmid; lia.
  - intros Hx. apply Hlow, py_int_nonpositive, Hx.
  - intros Hx. apply Hhigh. now apply py_int_at_least.
  - intros [Hx0 HxL]. rewrite Hmid by (now apply py_int_range).
    apply py_int_near.
Qed.

(** The two bytes of [struct.pack('>H', v)] are the quotient and the
    remainder of [v] by 256. *)
Lemma pack_H_bytes (v : Z) :
  0 <= v <= 65535 ->
  Py.struct_pack_H v = Some [v / 256; v mod 256]
  /\ forallb Py.is_byte [v / 256; v mod 256] = true.
Proof.
  intros Hv. rewrite (proj1 (struct_pack_H_in_range v Hv)).
  assert (Hhi : Z.land (Z.shiftr v 8) 255 = v / 256).
  { change 255 with (Z.ones 8).
    rewrite (Z.land_ones _ 8), Z.shiftr_div_pow2 by lia.
    change (2 ^ 8) with 256. apply Z.mod_small.
    split; [apply Z.div_pos; lia | apply Z.div_lt_upper_bound; lia]. }
  assert (Hlo : Z.land v 255 = v mod 256).
  { change 255 with (Z.ones 8). now rewrite (Z.land_ones _ 8) by lia. }
  rewrite <- Hhi, <- Hlo. split; [reflexivity | apply two_bytes_are_bytes].
Qed.

(** The encoders that end in a clamp, in terms of the scaled value. *)
Lemma clamped_values (s : CanSim.Sim) (pid : Z) :
  In pid clamped_pids ->
  exists v,
    CanSim.encode_current_data s pid = CanSim.Bytes (value_bytes pid v)
    /\ forallb Py.is_byte (value_bytes pid v) = true
    /\ 0 <= v <= clamp_limit pid
    /\ ((scaled_value s pid <= 0)%Q -> v = 0)
    /\ ((inject_Z (clamp_limit pid) <= scaled_value s pid)%Q ->
        v = clamp_limit pid)
    /\ ((0 <= scaled_value s pid <= inject_Z (clamp_limit pid))%Q ->
        (scaled_value s pid - 1 < inject_Z v < scaled_value s pid + 1)%Q).
Proof.
  unfold clamped_pids. cbn [In]. intros H.
  repeat (destruct H as [<- | H];
    [ match goal with
      | |- exists v, CanSim.encode_current_data s ?p = _ /\ _ =>
          exists (Py.py_max 0 (Py.py_min (clamp_limit p)
                                 (Py.py_int (scaled_value s p))))
      end;
      unfold CanSim.encode_current_data, scaled_value, clamp_limit,
        value_bytes, CanSim.clamp255, CanSim.clamp65535;
      cbn [Z.eqb Pos.eqb orb];
      match goal with
      | |- context [Py.py_max 0 (Py.py_min ?L (Py.py_int ?x))] =>
          pose proof (clamp_of_scaled L x ltac:(lia)) as (Hr & H0 & HL & Hm)
      end;
      (split;
       [ first [ reflexivity
               | rewrite (proj1 (pack_H_bytes _ Hr)); reflexivity ] |]);
      (split;
       [ first [ exact (proj2 (pack_H_bytes _ Hr))
               | cbn [forallb]; rewrite is_byte_range by exact Hr;
                 reflexivity ] |]);
      (split; [exact Hr |]); (split; [exact H0 |]);
      (split; [exact HL | exact Hm])
    |]).
  contradiction.
Qed.

End Encoders.

(** At its default state the physics simulator answers PID [0x31] with
    the bytes [0xE2, 0x40]: the scaled odometer 123456 exceeds 65535 and is
    reduced modulo 65536 to 57920. *)
Lemma odometer_encoder_wraps :
  Physics._get_obd2_response Physics.PhysicsState_default 0x31
  = Some [0xE2; 0x40]
  /\ Py.py_int (Physics.odometer Physics.PhysicsState_default * 10)%Q = 123456
  /\ 256 * 0xE2 + 0x40 = 123456 - 65536.
Proof.
  repeat split.
Qed.

(** C8 (as amended).  In the CAN simulator the encoders of PIDs 0x04,
    0x05, 0x06, 0x07, 0x0A, 0x0E, 0x0F, 0x10, 0x11, 0x14, 0x2F, 0x33, 0x42
    and 0x46 clamp: the value sent lies in [0, 255] ([0, 65535] for the
    two-byte PIDs 0x10 and 0x42), it is 0 when the scaled value is at or
    below 0, it is the upper limit when the scaled value is at or above
    that limit, and in between it is an integer less than one away from
    the scaled value.  Its RPM encoder (PID 0x0C) yields the two
    big-endian bytes of [int(rpm * 4)] whenever that value lies in
    [0, 65535], and it has no encoder for PID 0x31.  In the physics
    simulator the RPM and 0x31 encoders yield, for every state, two bytes
    in [0, 255] that hold modulo 65536 the integer [int(rpm * 4)] and an
    integer less than one away from [odometer * 10]: out-of-range values
    wrap. *)
Theorem pid_encoders_range
  (s : CanSim.Sim) (st : Physics.PhysicsState) (pid : Z) :
  (In pid clamped_pids ->
   exists v,
     CanSim.encode_current_data s pid = CanSim.Bytes (value_bytes pid v)
     /\ forallb Py.is_byte (value_bytes pid v) = true
     /\ 0 <= v <= clamp_limit pid
     /\ ((scaled_value s pid <= 0)%Q -> v = 0)
     /\ ((inject_Z (clamp_limit pid) <= scaled_value s pid)%Q ->
         v = clamp_limit pid)
     /\ ((0 <= scaled_value s pid <= inject_Z (clamp_limit pid))%Q ->
         (scaled_value s pid - 1 < inject_Z v < scaled_value s pid + 1)%Q))
  /\ (0 <= Py.py_int (CanSim.rpm (CanSim.engine s) * 4)%Q <= 65535 ->
      exists a b,
        CanSim.encode_current_data s 0x0C = CanSim.Bytes [a; b]
        /\ 0 <= a <= 255 /\ 0 <= b <= 255
        /\ 256 * a + b = Py.py_int (CanSim.rpm (CanSim.engine s) * 4)%Q)
  /\ CanSim.encode_current_data s 0x31 = CanSim.NotHandled
  /\ (exists a b,
         Physics._get_obd2_response st 0x0C = Some [a; b]
         /\ 0 <= a <= 255 /\ 0 <= b <= 255
         /\ 256 * a + b = Py.py_int (Physics.rpm st * 4)%Q mod 65536)
  /\ (exists w a b,
         Physics._get_obd2_response st 0x31 = Some [a; b]
         /\ 0 <= a <= 255 /\ 0 <= b <= 255
         /\ 256 * a + b = w mod 65536
         /\ (Physics.odometer st * 10 - 1 < inject_Z w
             < Physics.odometer st * 10 + 1)%Q).
Proof.
  split; [apply clamped_values |].
  split; [| split; [reflexivity | split]].
  - intros Hr. unfold CanSim.encode_current_data. cbn [Z.eqb Pos.eqb].
    destruct (struct_pack_H_in_range _ Hr) as [Hp Hv]. rewrite Hp.
    do 2 eexists. split; [reflexivity |].
    split; [apply land_byte |]. split; [apply land_byte | exact Hv].
  - do 2 eexists. split; [reflexivity |]. apply two_bytes_mod.
  - exists (Py.py_int (Physics.odometer st * 10)%Q).
    do 2 eexists. split; [reflexivity |].
    destruct (two_bytes_mod (Py.py_int (Physics.odometer st * 10)%Q))
      as (Ha & Hb & Hv).
    split; [exact Ha |]. split; [exact Hb |]. split; [exact Hv |].
    apply py_int_near.
Qed.

Lemma pid_encoders_range_witness :
  In 0x10 clamped_pids
  /\ exists v,
      CanSim.encode_current_data (CanSim.init true) 0x10
      = CanSim.Bytes (value_bytes 0x10 v)
      /\ forallb Py.is_byte (value_bytes 0x10 v) = true
      /\ 0 <= v <= clamp_limit 0x10
      /\ ((scaled_value (CanSim.init true) 0x10 <= 0)%Q -> v = 0)
      /\ ((inject_Z (clamp_limit 0x10) <= scaled_value (CanSim.init true) 0x10)%Q
          -> v = clamp_limit 0x10)
      /\ ((0 <= scaled_value (CanSim.init true) 0x10
           <= inject_Z (clamp_limit 0x10))%Q ->
          (scaled_value (CanSim.init true) 0x10 - 1 < inject_Z v
           < scaled_value (CanSim.init true) 0x10 + 1)%Q).
Proof.
  assert (Hin : In 0x10 clamped_pids) by (unfold clamped_pids; cbn; tauto).
  split; [exact Hin |].
  exact (proj1 (pid_encoders_range (CanSim.init true)
                  Physics.PhysicsState_default 0x10) Hin).
Defined.

(** ** Physics tick: speed and RPM *)

Section PhysicsTick.

Import Physics.
Local Open Scope Q_scope.

Lemma qmax_bounds (a b : Q) : a <= Py.qmax a b /\ b <= Py.qmax a b.
Proof.
  unfold Py.qmax. destruct (Qlt_le_dec a b); split; lra.
Qed.

Lemma qmin_bounds (a b : Q) : Py.qmin a b <= a /\ Py.qmin a b <= b.
Proof.
  unfold Py.qmin. destruct (Qlt_le_dec b a); split; lra.
Qed.

(** [max(lo, min(hi, x))] lies in [[lo, hi]]. *)
Lemma clamp_bounds (lo hi x : Q) :
  lo <= hi -> lo <= Py.qmax lo (Py.qmin hi x) <= hi.
Proof.
  intros H. unfold Py.qmax, Py.qmin.
  destruct (Qlt_le_dec x hi); destruct (Qlt_le_dec lo _); split; lra.
Qed.

Lemma update_phase_state (s : PhysicsSimulator) (e : Env) :
  state (_update_phase s e) = state s.
Proof.
  unfold _update_phase. destruct (qltb _ _); reflexivity.
Qed.

Lemma update_scenario_state (s : PhysicsSimulator) (e : Env) (dt : Q) :
  let st' := state (_update_scenario s e dt) in
  rpm st' = rpm (state s)
  /\ speed st' = speed (state s)
  /\ 0 <= throttle st' <= 100.
Proof.
  unfold _update_scenario.
  repeat match goal with
         | |- context [if qltb ?a ?b then _ else _] => destruct (qltb a b)
         end;
    cbn [state rpm speed throttle];
    (split; [reflexivity |]); (split; [reflexivity |]);
    apply clamp_bounds; lra.
Qed.

Lemma advance_speed_fields (st : PhysicsState) (dt : Q) :
  0 <= speed (advance_speed st dt)
  /\ rpm (advance_speed st dt) = rpm st
  /\ throttle (advance_speed st dt) = throttle st.
Proof.
  unfold advance_speed, new_speed_ms. cbn [speed rpm throttle].
  split; [| split; reflexivity].
  match goal with
  | |- 0 <= Py.qmax 0 ?x * _ => pose proof (proj1 (qmax_bounds 0 x))
  end.
  lra.
Qed.

Lemma target_rpm_bounds (st : PhysicsState) :
  0 <= throttle st <= 100 -> 800 <= target_rpm st <= 6500.
Proof.
  intros H. unfold target_rpm. destruct (qltb _ _).
  - lra.
  - apply clamp_bounds. lra.
Qed.

Lemma update_physics_fields (st : PhysicsState) (e : Env) (dt : Q) :
  speed (_update_physics st e dt) = speed (advance_speed st dt)
  /\ rpm (_update_physics st e dt)
     = rpm st + (target_rpm (advance_speed st dt) - rpm st) * dt * 3
       + math_sin e (t_rpm e * 10) * 5.
Proof.
  unfold _update_physics, _update_gear, _update_rpm, set_rpm.
  cbn [speed rpm].
  rewrite (proj1 (proj2 (advance_speed_fields st dt))).
  split; reflexivity.
Qed.

Lemma update_temperature_fields (st : PhysicsState) (dt : Q) :
  speed (_update_temperature st dt) = speed st
  /\ rpm (_update_temperature st dt) = rpm st.
Proof.
  split; reflexivity.
Qed.

(** Speed and engine speed after one iteration of the loop. *)
Lemma tick_fields (s : PhysicsSimulator) (e : Env) :
  0 <= speed (state (tick s e))
  /\ exists target : Q,
      800 <= target <= 6500
      /\ rpm (state (tick s e))
         = rpm (state s)
           + (target - rpm (state s)) * (t_loop e - last_update s) * 3
           + math_sin e (t_rpm e * 10) * 5.
Proof.
  unfold tick.
  set (dt := t_loop e - last_update s).
  set (s0 := mkSimulator _ _ _ _ _ _).
  set (s1 := _update_phase s0 e).
  set (s2 := _update_scenario s1 e dt).
  unfold set_state. cbn [state].
  destruct (update_temperature_fields
              (_update_physics (state s2) e dt) dt) as [-> ->].
  destruct (update_scenario_state s1 e dt) as (Hrpm & _ & Hthr).
  fold s2 in Hrpm, Hthr.
  destruct (update_physics_fields (state s2) e dt) as [-> ->].
  destruct (advance_speed_fields (state s2) dt) as (Hpos & _ & Hth').
  split; [exact Hpos |].
  exists (target_rpm (advance_speed (state s2) dt)).
  split.
  - apply target_rpm_bounds. rewrite Hth'. exact Hthr.
  - rewrite Hrpm. subst s1. rewrite update_phase_state. reflexivity.
Qed.

End PhysicsTick.

(** The first tick after start-up, taken at a moment when
    [math.sin(time.time() * 10)] is close to -1: the engine speed drops
    to 796.4405 r/min, below 800. *)
Lemma rpm_below_idle_after_tick :
  (Physics.rpm (Physics.state (Physics.tick (Physics.init (46 # 100)) env_047))
   == 7964405 # 10000)%Q
  /\ (Physics.rpm
        (Physics.state (Physics.tick (Physics.init (46 # 100)) env_047))
      < 800)%Q.
Proof.
  split; vm_compute; reflexivity.
Qed.

(** C9 (as amended).  Under the physics strategy, after every tick the
    vehicle speed is non-negative, and the engine speed is the previous
    engine speed moved toward a target by the fraction [3 * dt], plus a
    jitter of at most 5 r/min in either direction; the target lies in
    [800, 6500], the engine speed itself need not.  The vehicle mass is
    taken to be non-zero, as the division by it requires. *)
Theorem physics_tick_bounds (s : Physics.PhysicsSimulator) (e : Physics.Env) :
  (forall x, -1 <= Physics.math_sin e x <= 1)%Q ->
  ~ (Physics.mass (Physics.state s) == 0)%Q ->
  let s' := Physics.tick s e in
  let dt := (Physics.t_loop e - Physics.last_update s)%Q in
  let r := Physics.rpm (Physics.state s) in
  (0 <= Physics.speed (Physics.state s'))%Q
  /\ exists target : Q,
      (800 <= target <= 6500)%Q
      /\ (r + (target - r) * dt * 3 - 5 <= Physics.rpm (Physics.state s'))%Q
      /\ (Physics.rpm (Physics.state s') <= r + (target - r) * dt * 3 + 5)%Q.
Proof.
  intros Hsin _ s' dt r.
  destruct (tick_fields s e) as [Hspeed Hrpm].
  fold dt in Hspeed, Hrpm. fold s' in Hspeed, Hrpm. fold r in Hrpm.
  destruct Hrpm as [target [Htarget Hrpm]].
  split; [exact Hspeed |].
  exists target. split; [exact Htarget |].
  specialize (Hsin (Physics.t_rpm e * 10)%Q).
  rewrite Hrpm. clear Hrpm.
  set (j := Physics.math_sin e (Physics.t_rpm e * 10)%Q) in *.
  clearbody j.
  set (blend := ((target - r) * dt * 3)%Q). clearbody blend.
  split; lra.
Qed.

Lemma physics_tick_bounds_witness :
  (forall x, -1 <= Physics.math_sin env_047 x <= 1)%Q
  /\ ~ (Physics.mass (Physics.state (Physics.init (46 # 100))) == 0)%Q
  /\ (0 <= Physics.speed
             (Physics.state (Physics.tick (Physics.init (46 # 100)) env_047)))%Q.
Proof.
  assert (Hsin : (forall x, -1 <= Physics.math_sin env_047 x <= 1)%Q).
  { intros x. unfold env_047. cbn [Physics.math_sin].
    destruct (Qeq_bool x (47 # 10)); split; vm_compute; discriminate. }
  assert (Hmass : ~ (Physics.mass (Physics.state (Physics.init (46 # 100)))
                     == 0)%Q) by (vm_compute; discriminate).
  split; [exact Hsin |]. split; [exact Hmass |].
  exact (proj1 (physics_tick_bounds (Physics.init (46 # 100)) env_047
                  Hsin Hmass)).
Defined.

(** * Further properties of the CAN simulator *)

(** ** Shape of transmitted frames *)

Section FrameShape.

Lemma pad8_firstn8 (l : list Z) :
  length (pad8 (firstn 8 l)) = 8%nat.
Proof.
  apply pad8_length. rewrite length_firstn. lia.
Qed.

Lemma can_Message_checked (aid : Z) (d : list Z) (m : Message) :
  can_Message aid d = Some m -> forallb Py.is_byte (data m) = true.
Proof.
  unfold can_Message. destruct (forallb Py.is_byte d) eqn:E; [| discriminate].
  intros [= <-]. exact E.
Qed.

Lemma send_obd_response_shape (rid : Z) (payload : list Z) (m : Message) :
  In m (CanSim._send_obd_response rid payload) ->
  length (data m) = 8%nat /\ forallb Py.is_byte (data m) = true.
Proof.
  unfold CanSim._send_obd_response.
  match goal with
  | |- In m match ?c with _ => _ end -> _ => destruct c eqn:E
  end; [| intros []].
  intros [<- | []]. split; [| exact (can_Message_checked _ _ _ E)].
  apply can_Message_some in E. subst m0. cbn [data].
  destruct (8 <? _)%nat eqn:Hlen.
  - apply pad8_firstn8.
  - apply pad8_length. apply Nat.ltb_ge in Hlen. exact Hlen.
Qed.

Lemma send_negative_response_shape (rid mode : Z) (pid : option Z)
  (m : Message) :
  In m (CanSim._send_negative_response rid mode pid) ->
  length (data m) = 8%nat /\ forallb Py.is_byte (data m) = true.
Proof.
  unfold CanSim._send_negative_response.
  match goal with
  | |- In m match ?c with _ => _ end -> _ => destruct c eqn:E
  end; [| intros []].
  intros [<- | []]. split; [| exact (can_Message_checked _ _ _ E)].
  apply can_Message_some in E. subst m0. cbn [data].
  destruct pid; reflexivity.
Qed.

Lemma send_obd_response_count (rid : Z) (payload : list Z) :
  (length (CanSim._send_obd_response rid payload) <= 1)%nat.
Proof.
  unfold CanSim._send_obd_response. destruct (can_Message _ _); cbn; lia.
Qed.

Lemma send_negative_response_count (rid mode : Z) (pid : option Z) :
  (length (CanSim._send_negative_response rid mode pid) <= 1)%nat.
Proof.
  unfold CanSim._send_negative_response. destruct (can_Message _ _); cbn; lia.
Qed.

End FrameShape.

(** X1.  Whatever the request and the simulator state, the CAN simulator
    transmits at most one frame for it, and a transmitted frame has exactly
    eight data bytes, each in [0, 255]. *)
Theorem process_frame_shape (s : CanSim.Sim) (req : Message) :
  (length (snd (CanSim._process_can_message s req)) <= 1)%nat
  /\ forall m, In m (snd (CanSim._process_can_message s req)) ->
               length (data m) = 8%nat
               /\ forallb Py.is_byte (data m) = true.
Proof.
  split.
  - unfold CanSim._process_can_message, CanSim._handle_current_data_request,
      CanSim._handle_diagnostic_codes_request,
      CanSim._handle_clear_codes_request,
      CanSim._handle_vehicle_info_request.
    repeat match goal with
           | |- context [if ?c then _ else _] => destruct c
           | |- context [match ?c with CanSim.Bytes _ => _ | _ => _ end] =>
               destruct c
           end; cbn [snd length];
      first [ apply send_obd_response_count
            | apply send_negative_response_count
            | lia ].
  - intros m Hin.
    destruct (process_frames s req m Hin) as [[payload H] | [mode [pid H]]].
    + exact (send_obd_response_shape _ _ _ H).
    + exact (send_negative_response_shape _ _ _ _ H).
Qed.

Lemma process_frame_shape_witness :
  In (mkMessage 0x7E8 [3; 0x41; 0x0D; 0; 0; 0; 0; 0])
     (snd (CanSim._process_can_message (CanSim.init true)
             (mkMessage 0x7DF [0x02; 0x01; 0x0D; 0; 0; 0; 0; 0])))
  /\ length (data (mkMessage 0x7E8 [3; 0x41; 0x0D; 0; 0; 0; 0; 0])) = 8%nat
  /\ forallb Py.is_byte (data (mkMessage 0x7E8 [3; 0x41; 0x0D; 0; 0; 0; 0; 0]))
     = true.
Proof.
  assert (H : In (mkMessage 0x7E8 [3; 0x41; 0x0D; 0; 0; 0; 0; 0])
     (snd (CanSim._process_can_message (CanSim.init true)
             (mkMessage 0x7DF [0x02; 0x01; 0x0D; 0; 0; 0; 0; 0]))))
    by (left; reflexivity).
  split; [exact H |].
  exact (proj2 (process_frame_shape (CanSim.init true)
                  (mkMessage 0x7DF [0x02; 0x01; 0x0D; 0; 0; 0; 0; 0])) _ H).
Defined.

(** X3.  A request whose mode is none of 0x01, 0x03, 0x04, 0x09 is
    answered by exactly one frame [0x7F, mode, 0x12, 0, 0, 0, 0, 0] on
    [request_id + 8], and the state is unchanged. *)
Theorem unsupported_mode_reply (s : CanSim.Sim) (req : Message) :
  obd_request req = true ->
  ~ In (mode_of req) [0x01; 0x03; 0x04; 0x09] ->
  CanSim._process_can_message s req
  = (s, [mkMessage (arbitration_id req + 8)
                   [0x7F; mode_of req; 0x12; 0; 0; 0; 0; 0]]).
Proof.
  unfold obd_request, mode_of. intros Hreq Hmode.
  apply andb_prop in Hreq. destruct Hreq as [Hreq Hbytes].
  apply andb_prop in Hreq. destruct Hreq as [Hid Hlen].
  apply Nat.leb_le in Hlen.
  unfold CanSim._process_can_message. rewrite Hid. cbn [negb].
  assert (Hl : (length (data req) <? 3)%nat = false) by (apply Nat.ltb_ge; lia).
  rewrite Hl. cbn [In] in Hmode.
  repeat match goal with
         | |- context [nth 1 (data req) 0 =? ?k] =>
             destruct (Z.eqb_spec (nth 1 (data req) 0) k);
             [exfalso; apply Hmode; auto |]
         end.
  unfold CanSim._send_negative_response.
  assert (Hb : Py.is_byte (nth 1 (data req) 0) = true).
  { rewrite forallb_forall in Hbytes. apply Hbytes. apply nth_In. lia. }
  rewrite can_Message_bytes; [reflexivity |].
  cbn. now rewrite Hb.
Qed.

Lemma unsupported_mode_reply_witness :
  obd_request (mkMessage 0x7E3 [0x02; 0x02; 0x0C; 0; 0; 0; 0; 0]) = true
  /\ ~ In (mode_of (mkMessage 0x7E3 [0x02; 0x02; 0x0C; 0; 0; 0; 0; 0]))
          [0x01; 0x03; 0x04; 0x09]
  /\ CanSim._process_can_message (CanSim.init true)
       (mkMessage 0x7E3 [0x02; 0x02; 0x0C; 0; 0; 0; 0; 0])
     = (CanSim.init true,
        [mkMessage 0x7EB [0x7F; 0x02; 0x12; 0; 0; 0; 0; 0]]).
Proof.
  assert (Hm : ~ In (mode_of (mkMessage 0x7E3 [0x02; 0x02; 0x0C; 0; 0; 0; 0; 0]))
                    [0x01; 0x03; 0x04; 0x09]).
  { vm_compute. intros [H | [H | [H | [H | []]]]]; discriminate. }
  split; [reflexivity |]. split; [exact Hm |].
  exact (unsupported_mode_reply (CanSim.init true)
           (mkMessage 0x7E3 [0x02; 0x02; 0x0C; 0; 0; 0; 0; 0]) eq_refl Hm).
Defined.

(** ** Positive responses of mode 0x01 *)

Section PositiveReply.

Lemma request_parts (req : Message) :
  obd_request req = true ->
  is_obd_request_id (arbitration_id req) = true
  /\ (length (data req) <? 3)%nat = false
  /\ Py.is_byte (mode_of req) = true
  /\ Py.is_byte (pid_of req) = true.
Proof.
  unfold obd_request, mode_of, pid_of. intros Hreq.
  apply andb_prop in Hreq. destruct Hreq as [Hreq Hbytes].
  apply andb_prop in Hreq. destruct Hreq as [Hid Hlen].
  apply Nat.leb_le in Hlen. rewrite forallb_forall in Hbytes.
  split; [exact Hid |]. split; [apply Nat.ltb_ge; lia |].
  split; apply Hbytes; apply nth_In; lia.
Qed.

(** The frame for a PID whose encoder yields the bytes [bs]. *)
Lemma current_data_reply (s : CanSim.Sim) (req : Message) (bs : list Z) :
  obd_request req = true ->
  mode_of req = 0x01 ->
  CanSim.encode_current_data s (pid_of req) = CanSim.Bytes bs ->
  forallb Py.is_byte bs = true ->
  (length bs <= 5)%nat ->
  CanSim._process_can_message s req
  = (s, [mkMessage (response_id_rule (arbitration_id req))
           (Z.of_nat (length bs) + 2 :: 0x41 :: pid_of req
              :: bs ++ repeat 0 (5 - length bs)%nat)]).
Proof.
  intros Hreq Hmode Henc Hbs Hlen.
  destruct (request_parts req Hreq) as (Hid & Hl & _ & Hpid).
  unfold CanSim._process_can_message. rewrite Hid. cbn [negb].
  unfold mode_of in Hmode. rewrite Hl, Hmode. cbn [Z.eqb Pos.eqb].
  unfold CanSim._handle_current_data_request. rewrite Hl.
  unfold pid_of in *. rewrite Henc.
  rewrite send_obd_response_frame.
  - cbn [app length].
    rewrite firstn_all2 by (cbn [length]; lia).
    unfold pad8. cbn [app length].
    replace (8 - S (S (S (length bs))))%nat with (5 - length bs)%nat by lia.
    replace (Z.of_nat (S (S (length bs)))) with (Z.of_nat (length bs) + 2)
      by lia.
    reflexivity.
  - cbn [app forallb]. now rewrite Hpid, Hbs.
  - cbn [app length]. lia.
Qed.

End PositiveReply.

(** X4.  Engine speed over the wire.  For an engine speed between 0 and
    16383 r/min, a mode-0x01 request for PID 0x0C is answered by exactly
    one frame [4, 0x41, 0x0C, A, B, 0, 0, 0] on the response identifier,
    and decoding it as (256 A + B) / 4 gives the engine speed rounded down
    to a quarter: the decoded value is at most the engine speed and less
    than a quarter below it. *)
Theorem rpm_reply_round_trip (s : CanSim.Sim) (req : Message) :
  obd_request req = true ->
  mode_of req = 0x01 ->
  pid_of req = 0x0C ->
  (0 <= CanSim.rpm (CanSim.engine s) <= 16383)%Q ->
  exists A B,
    CanSim._process_can_message s req
    = (s, [mkMessage (response_id_rule (arbitration_id req))
                     [4; 0x41; 0x0C; A; B; 0; 0; 0]])
    /\ 0 <= A <= 255 /\ 0 <= B <= 255
    /\ (inject_Z (256 * A + B) / 4 <= CanSim.rpm (CanSim.engine s))%Q
    /\ (CanSim.rpm (CanSim.engine s) < inject_Z (256 * A + B) / 4 + (1 # 4))%Q.
Proof.
  intros Hreq Hmode Hpid Hrpm.
  set (v := Py.py_int (CanSim.rpm (CanSim.engine s) * 4)%Q).
  assert (Hv : 0 <= v <= 65535).
  { assert (0 <= v <= 65532); [| lia].
    apply py_int_range; [lra |].
    change (inject_Z 65532) with (65532 # 1)%Q. lra. }
  destruct (struct_pack_H_in_range v Hv) as [Hpack Hval].
  exists (Z.land (Z.shiftr v 8) 255), (Z.land v 255).
  split; [| split; [apply land_byte | split; [apply land_byte |]]].
  - rewrite (current_data_reply s req
               [Z.land (Z.shiftr v 8) 255; Z.land v 255] Hreq Hmode).
    + rewrite Hpid. reflexivity.
    + rewrite Hpid. unfold CanSim.encode_current_data. cbn [Z.eqb Pos.eqb].
      fold v. now rewrite Hpack.
    + apply two_bytes_are_bytes.
    + cbn. lia.
  - rewrite Hval.
    destruct (py_int_floor (CanSim.rpm (CanSim.engine s) * 4)%Q) as [Hlo Hhi];
      [lra |].
    fold v in Hlo, Hhi.
    set (q := inject_Z v) in *. clearbody q.
    set (r := CanSim.rpm (CanSim.engine s)) in *. clearbody r.
    unfold Qdiv. change (/ 4)%Q with (1 # 4)%Q.
    split; lra.
Qed.

Lemma rpm_reply_round_trip_witness :
  obd_request (mkMessage 0x7DF [0x02; 0x01; 0x0C; 0; 0; 0; 0; 0]) = true
  /\ (0 <= CanSim.rpm (CanSim.engine (CanSim.init true)) <= 16383)%Q
  /\ exists A B,
      CanSim._process_can_message (CanSim.init true)
        (mkMessage 0x7DF [0x02; 0x01; 0x0C; 0; 0; 0; 0; 0])
      = (CanSim.init true, [mkMessage 0x7E8 [4; 0x41; 0x0C; A; B; 0; 0; 0]])
      /\ 0 <= A <= 255 /\ 0 <= B <= 255
      /\ (inject_Z (256 * A + B) / 4
          <= CanSim.rpm (CanSim.engine (CanSim.init true)))%Q
      /\ (CanSim.rpm (CanSim.engine (CanSim.init true))
          < inject_Z (256 * A + B) / 4 + (1 # 4))%Q.
Proof.
  assert (Hr : (0 <= CanSim.rpm (CanSim.engine (CanSim.init true))
                <= 16383)%Q) by (split; vm_compute; discriminate).
  split; [reflexivity |]. split; [exact Hr |].
  exact (rpm_reply_round_trip (CanSim.init true)
           (mkMessage 0x7DF [0x02; 0x01; 0x0C; 0; 0; 0; 0; 0])
           eq_refl eq_refl eq_refl Hr).
Defined.

(** X5.  Vehicle speed is sent unclamped.  A request for PID 0x0D is
    answered by [3, 0x41, 0x0D, int(speed), 0, 0, 0, 0] when [int(speed)]
    is a byte; when it is not (a speed of 256 km/h or more, or of -1 km/h
    or less) the frame cannot be built and nothing at all is transmitted,
    not even a negative response. *)
Theorem speed_reply_or_silence (s : CanSim.Sim) (req : Message) :
  obd_request req = true ->
  mode_of req = 0x01 ->
  pid_of req = 0x0D ->
  let v := Py.py_int (CanSim.speed (CanSim.vehicle s)) in
  CanSim._process_can_message s req
  = (s, if Py.is_byte v
        then [mkMessage (response_id_rule (arbitration_id req))
                        [3; 0x41; 0x0D; v; 0; 0; 0; 0]]
        else []).
Proof.
  intros Hreq Hmode Hpid v.
  destruct (Py.is_byte v) eqn:Hb.
  - rewrite (current_data_reply s req [v] Hreq Hmode).
    + rewrite Hpid. reflexivity.
    + rewrite Hpid. reflexivity.
    + cbn. now rewrite Hb.
    + cbn. lia.
  - destruct (request_parts req Hreq) as (Hid & Hl & _ & _).
    unfold CanSim._process_can_message. rewrite Hid. cbn [negb].
    unfold mode_of in Hmode. rewrite Hl, Hmode. cbn [Z.eqb Pos.eqb].
    unfold CanSim._handle_current_data_request. rewrite Hl.
    unfold pid_of in Hpid. rewrite Hpid.
    unfold CanSim.encode_current_data. cbn [Z.eqb Pos.eqb].
    unfold CanSim._send_obd_response, can_Message.
    cbn [app length Nat.ltb Nat.leb pad8 forallb].
    fold v. rewrite Hb. cbn [andb]. rewrite !andb_false_r. reflexivity.
Qed.

Lemma speed_reply_or_silence_witness :
  obd_request (mkMessage 0x7E0 [0x02; 0x01; 0x0D; 0; 0; 0; 0; 0]) = true
  /\ CanSim._process_can_message
       (CanSim.mkSim CanSim.EngineState_default
          (CanSim.set_motion CanSim.VehicleState_default 300 6 130) [] true)
       (mkMessage 0x7E0 [0x02; 0x01; 0x0D; 0; 0; 0; 0; 0])
     = (CanSim.mkSim CanSim.EngineState_default
          (CanSim.set_motion CanSim.VehicleState_default 300 6 130) [] true,
        []).
Proof.
  split; [reflexivity |].
  exact (speed_reply_or_silence
           (CanSim.mkSim CanSim.EngineState_default
              (CanSim.set_motion CanSim.VehicleState_default 300 6 130)
              [] true)
           (mkMessage 0x7E0 [0x02; 0x01; 0x0D; 0; 0; 0; 0; 0])
           eq_refl eq_refl eq_refl).
Defined.

(** ** Supported-PID mask on the wire *)

Section MaskWire.

Lemma lor_bound32 (a b : Z) :
  0 <= a < 2 ^ 32 -> 0 <= b < 2 ^ 32 -> 0 <= Z.lor a b < 2 ^ 32.
Proof.
  intros Ha Hb.
  assert (H0 : 0 <= Z.lor a b) by (apply Z.lor_nonneg; lia).
  split; [assumption |].
  destruct (Z.eq_dec (Z.lor a b) 0) as [-> | Hne]; [reflexivity |].
  apply Z.log2_lt_pow2; [lia |].
  rewrite Z.log2_lor by lia.
  assert (Hlog : forall x, 0 <= x < 2 ^ 32 -> Z.log2 x < 32).
  { intros x Hx. destruct (Z.eq_dec x 0) as [-> | Hx0]; [reflexivity |].
    apply Z.log2_lt_pow2; lia. }
  apply Z.max_lub_lt; apply Hlog; assumption.
Qed.

Lemma mask_step_bound (base mask pid : Z) :
  0 <= mask < 2 ^ 32 -> 0 <= CanSim.mask_step base mask pid < 2 ^ 32.
Proof.
  intros Hm. unfold CanSim.mask_step.
  destruct (Z.leb_spec 0 (pid - (base + 1)));
    destruct (Z.ltb_spec (pid - (base + 1)) 32); cbn [andb]; try assumption.
  apply lor_bound32; [assumption |].
  rewrite Z.shiftl_1_l. split; [apply Z.pow_nonneg; lia |].
  apply Z.pow_lt_mono_r; lia.
Qed.

Lemma fold_mask_bound (base : Z) (pids : list Z) (mask : Z) :
  0 <= mask < 2 ^ 32 ->
  0 <= fold_left (CanSim.mask_step base) pids mask < 2 ^ 32.
Proof.
  revert mask. induction pids as [| pid pids IH]; intros mask Hm.
  - exact Hm.
  - cbn [fold_left]. apply IH, mask_step_bound, Hm.
Qed.

Lemma pack_I_value (v : Z) :
  0 <= v < 2 ^ 32 ->
  exists b3 b2 b1 b0,
    Py.struct_pack_I v = Some [b3; b2; b1; b0]
    /\ forallb Py.is_byte [b3; b2; b1; b0] = true
    /\ 16777216 * b3 + 65536 * b2 + 256 * b1 + b0 = v.
Proof.
  intros Hv. change (2 ^ 32) with 4294967296 in Hv.
  unfold Py.struct_pack_I.
  destruct (Z.leb_spec 0 v); [| lia].
  destruct (Z.leb_spec v 4294967295); [| lia]. cbn [andb].
  do 4 eexists. split; [reflexivity |]. split.
  - cbn [forallb]. now rewrite !is_byte_range by apply land_byte.
  - change 255 with (Z.ones 8).
    rewrite !(Z.land_ones _ 8), !Z.shiftr_div_pow2 by lia.
    change (2 ^ 8) with 256. change (2 ^ 16) with 65536.
    change (2 ^ 24) with 16777216.
    pose proof (Z.div_mod v 256). pose proof (Z.mod_pos_bound v 256).
    pose proof (Z.div_mod (v / 256) 256).
    pose proof (Z.mod_pos_bound (v / 256) 256).
    pose proof (Z.div_mod (v / 256 / 256) 256).
    pose proof (Z.mod_pos_bound (v / 256 / 256) 256).
    assert (E16 : v / 65536 = v / 256 / 256)
      by (rewrite Z.div_div by lia; reflexivity).
    assert (E24 : v / 16777216 = v / 256 / 256 / 256)
      by (rewrite !Z.div_div by lia; reflexivity).
    rewrite E16, E24.
    assert (Hsmall : v / 256 / 256 / 256 < 256).
    { rewrite !Z.div_div by lia. apply Z.div_lt_upper_bound; lia. }
    assert (Hpos : 0 <= v / 256 / 256 / 256).
    { rewrite !Z.div_div by lia. apply Z.div_pos; lia. }
    rewrite (Z.mod_small (v / 256 / 256 / 256)) by lia.
    pose proof (Z.div_mod (v / 256 / 256) 256). lia.
Qed.

End MaskWire.

(** X6.  For every list of PIDs and every window base the computed mask
    is a 32-bit value, and a bit is set only for a PID of the list that
    lies in the window [[base + 1, base + 32]]: PIDs outside the window are
    skipped, and a window that the table lacks has mask 0. *)
Theorem mask_is_32_bit (pids : list Z) (base i : Z) :
  0 <= CanSim.mask_of pids base < 2 ^ 32
  /\ (0 <= i -> Z.testbit (CanSim.mask_of pids base) i = true ->
      0 <= i < 32 /\ In (base + 32 - i) pids)
  /\ (CanSim.dict_get CanSim._initialize_supported_pids base = [] ->
      CanSim._get_supported_pids_mask base = 0).
Proof.
  split; [| split].
  - unfold CanSim.mask_of. apply fold_mask_bound. split; [lia | reflexivity].
  - intros Hi Hbit. unfold CanSim.mask_of in Hbit.
    rewrite fold_mask_testbit, Z.testbit_0_l, orb_false_l in Hbit by exact Hi.
    apply existsb_exists in Hbit. destruct Hbit as [pid [Hin Hp]].
    apply andb_prop in Hp. destruct Hp as [Hp Heq].
    apply andb_prop in Hp. destruct Hp as [Hlo Hhi].
    apply Z.leb_le in Hlo. apply Z.leb_le in Hhi. apply Z.eqb_eq in Heq.
    split; [lia |]. replace (base + 32 - i) with pid by lia. exact Hin.
  - intros Hnil. unfold CanSim._get_supported_pids_mask. now rewrite Hnil.
Qed.

Lemma mask_is_32_bit_witness :
  0 <= 24
  /\ Z.testbit (CanSim.mask_of [0x28; 0x05; 0x99] 0x20) 24 = true
  /\ 0 <= 24 < 32 /\ In (0x20 + 32 - 24) [0x28; 0x05; 0x99].
Proof.
  assert (H0 : 0 <= 24) by lia.
  split; [exact H0 |]. split; [reflexivity |].
  exact (proj1 (proj2 (mask_is_32_bit [0x28; 0x05; 0x99] 0x20 24))
               H0 eq_refl).
Defined.

(** X7.  The reply to PID 0x00.  In every state a mode-0x01 request for
    PID 0x00 is answered by one frame [6, 0x41, 0x00, b3, b2, b1, b0, 0],
    and reading the four bytes as a big-endian number gives back the
    table: for each PID from 1 to 32, bit [32 - pid] of that number is set
    exactly when the PID is listed for window 0x00. *)
Theorem supported_pids_reply (s : CanSim.Sim) (req : Message) (pid : Z) :
  obd_request req = true ->
  mode_of req = 0x01 ->
  pid_of req = 0x00 ->
  exists b3 b2 b1 b0,
    CanSim._process_can_message s req
    = (s, [mkMessage (response_id_rule (arbitration_id req))
                     [6; 0x41; 0x00; b3; b2; b1; b0; 0]])
    /\ (1 <= pid <= 32 ->
        (Z.testbit (16777216 * b3 + 65536 * b2 + 256 * b1 + b0) (32 - pid)
         = true
         <-> In pid (CanSim.dict_get CanSim._initialize_supported_pids 0x00))).
Proof.
  intros Hreq Hmode Hpid.
  assert (Hb : 0 <= CanSim._get_supported_pids_mask 0 < 2 ^ 32).
  { unfold CanSim._get_supported_pids_mask, CanSim.mask_of.
    apply fold_mask_bound. split; [lia | reflexivity]. }
  destruct (pack_I_value _ Hb) as (b3 & b2 & b1 & b0 & Hpack & Hbytes & Hval).
  exists b3, b2, b1, b0. split.
  - rewrite (current_data_reply s req [b3; b2; b1; b0] Hreq Hmode).
    + rewrite Hpid. reflexivity.
    + rewrite Hpid. unfold CanSim.encode_current_data. cbn [Z.eqb].
      now rewrite Hpack.
    + exact Hbytes.
    + cbn. lia.
  - intros Hp. rewrite Hval.
    replace (32 - pid) with (31 - (pid - 0 - 1)) by lia.
    apply mask_of_bit. lia.
Qed.

Lemma supported_pids_reply_witness :
  obd_request (mkMessage 0x7DF [0x02; 0x01; 0x00; 0; 0; 0; 0; 0]) = true
  /\ exists b3 b2 b1 b0,
      CanSim._process_can_message (CanSim.init true)
        (mkMessage 0x7DF [0x02; 0x01; 0x00; 0; 0; 0; 0; 0])
      = (CanSim.init true,
         [mkMessage 0x7E8 [6; 0x41; 0x00; b3; b2; b1; b0; 0]])
      /\ (1 <= 0x0C <= 32 ->
          (Z.testbit (16777216 * b3 + 65536 * b2 + 256 * b1 + b0) (32 - 0x0C)
           = true
           <-> In 0x0C
                  (CanSim.dict_get CanSim._initialize_supported_pids 0x00))).
Proof.
  split; [reflexivity |].
  exact (supported_pids_reply (CanSim.init true)
           (mkMessage 0x7DF [0x02; 0x01; 0x00; 0; 0; 0; 0; 0]) 0x0C
           eq_refl eq_refl eq_refl).
Defined.

(** ** Advertised and answered PIDs *)

Lemma advertised_split (p : Z) :
  In p advertised_pids ->
  (In p advertised_unhandled /\ handled_pid p = false)
  \/ (~ In p advertised_unhandled /\ handled_pid p = true).
Proof.
  unfold advertised_pids, advertised_unhandled.
  cbn [flat_map snd CanSim._initialize_supported_pids app In].
  intros H.
  repeat (destruct H as [<- | H];
          [first
             [ left; split; [tauto | reflexivity]
             | right; split; [| reflexivity];
               intros Hc;
               repeat (destruct Hc as [Hc | Hc]; [discriminate |]);
               contradiction ] |]).
  contradiction.
Qed.

(** X8.  The supported-PID table and the request handler disagree on
    nine PIDs.  A PID listed in the table has no encoder exactly when it is
    one of 0x01, 0x0B, 0x13, 0x15, 0x21, 0x22, 0x43, 0x4D, 0x4E, and a
    request for one of these is answered, in every state, by the negative
    response [0x7F, 0x01, 0x12, pid, 0, 0, 0, 0]. *)
Theorem advertised_but_unanswered (s : CanSim.Sim) (req : Message) :
  In (pid_of req) advertised_pids ->
  (CanSim.encode_current_data s (pid_of req) = CanSim.NotHandled
   <-> In (pid_of req) advertised_unhandled)
  /\ (obd_request req = true -> mode_of req = 0x01 ->
      In (pid_of req) advertised_unhandled ->
      CanSim._process_can_message s req
      = (s, [mkMessage (arbitration_id req + 8)
                       [0x7F; 0x01; 0x12; pid_of req; 0; 0; 0; 0]])).
Proof.
  intros Hadv.
  destruct (advertised_split _ Hadv) as [[Hin Hun] | [Hnin Hh]].
  - split.
    + split; [intros _; exact Hin |].
      intros _. apply encode_not_handled. exact Hun.
    + intros Hreq Hmode _. apply unsupported_pid_frame; assumption.
  - split.
    + split; [| intros Hc; contradiction].
      intros Henc. exfalso. exact (encode_handled s _ Hh Henc).
    + intros _ _ Hc. contradiction.
Qed.

Lemma advertised_but_unanswered_witness :
  In (pid_of (mkMessage 0x7E0 [0x02; 0x01; 0x21; 0; 0; 0; 0; 0]))
     advertised_pids
  /\ obd_request (mkMessage 0x7E0 [0x02; 0x01; 0x21; 0; 0; 0; 0; 0]) = true
  /\ CanSim._process_can_message (CanSim.init true)
       (mkMessage 0x7E0 [0x02; 0x01; 0x21; 0; 0; 0; 0; 0])
     = (CanSim.init true,
        [mkMessage 0x7E8 [0x7F; 0x01; 0x12; 0x21; 0; 0; 0; 0]]).
Proof.
  assert (Ha : In (pid_of (mkMessage 0x7E0 [0x02; 0x01; 0x21; 0; 0; 0; 0; 0]))
                  advertised_pids) by (vm_compute; tauto).
  assert (Hu : In (pid_of (mkMessage 0x7E0 [0x02; 0x01; 0x21; 0; 0; 0; 0; 0]))
                  advertised_unhandled) by (vm_compute; tauto).
  split; [exact Ha |]. split; [reflexivity |].
  exact (proj2 (advertised_but_unanswered (CanSim.init true)
                  (mkMessage 0x7E0 [0x02; 0x01; 0x21; 0; 0; 0; 0; 0]) Ha)
               eq_refl eq_refl Hu).
Defined.

(** ** DTC encoding: distinct codes, distinct bytes *)

(** X9.  On codes with a letter P, C, B or U (either case), a second
    character 0-3 and three further hex digits the encoder is injective up
    to letter case: two such codes have the same two bytes exactly when
    they have the same letter and the same digit values. *)
Theorem encode_dtc_injective
  (k k' : nat) (c0 c1 c2 c3 c4 c0' c1' c2' c3' c4' : ascii)
  (d1 d2 d3 d4 d1' d2' d3' d4' : Z) :
  nth_error dtc_letters k = Some (PyInt.upper c0) ->
  nth_error dtc_letters k' = Some (PyInt.upper c0') ->
  PyInt.hex_digit_value c1 = Some d1 -> PyInt.hex_digit_value c2 = Some d2 ->
  PyInt.hex_digit_value c3 = Some d3 -> PyInt.hex_digit_value c4 = Some d4 ->
  PyInt.hex_digit_value c1' = Some d1' -> PyInt.hex_digit_value c2' = Some d2' ->
  PyInt.hex_digit_value c3' = Some d3' -> PyInt.hex_digit_value c4' = Some d4' ->
  d1 <= 3 -> d1' <= 3 ->
  (CanSim._encode_dtc (dtc_string c0 c1 c2 c3 c4)
   = CanSim._encode_dtc (dtc_string c0' c1' c2' c3' c4')
   <-> k = k' /\ d1 = d1' /\ d2 = d2' /\ d3 = d3' /\ d4 = d4').
Proof.
  intros Hk Hk' H1 H2 H3 H4 H1' H2' H3' H4' Hd Hd'.
  assert (Hfb : forall (j : nat) (c : ascii),
             nth_error dtc_letters j = Some (PyInt.upper c) ->
             (if Ascii.eqb (PyInt.upper c) "P" then 0x00
              else if Ascii.eqb (PyInt.upper c) "C" then 0x40
              else if Ascii.eqb (PyInt.upper c) "B" then 0x80
              else if Ascii.eqb (PyInt.upper c) "U" then 0xC0
              else 0x00) = 64 * Z.of_nat j /\ (j < 4)%nat).
  { intros j c Hj. split.
    - unfold dtc_letters in Hj.
      destruct j as [| [| [| [| j]]]]; cbn [nth_error] in Hj;
        try (injection Hj as <-; reflexivity).
      destruct j; discriminate.
    - apply (proj1 (nth_error_Some dtc_letters j)). congruence. }
  destruct (Hfb k c0 Hk) as [Ek Lk]. destruct (Hfb k' c0' Hk') as [Ek' Lk'].
  rewrite (encode_dtc_hex (Z.of_nat k) c0 c1 c2 c3 c4 d1 d2 d3 d4)
    by (assumption || lia).
  rewrite (encode_dtc_hex (Z.of_nat k') c0' c1' c2' c3' c4' d1' d2' d3' d4')
    by (assumption || lia).
  destruct (hex_digit_facts _ _ H1) as (B1 & _).
  destruct (hex_digit_facts _ _ H2) as (B2 & _).
  destruct (hex_digit_facts _ _ H3) as (B3 & _).
  destruct (hex_digit_facts _ _ H4) as (B4 & _).
  destruct (hex_digit_facts _ _ H1') as (B1' & _).
  destruct (hex_digit_facts _ _ H2') as (B2' & _).
  destruct (hex_digit_facts _ _ H3') as (B3' & _).
  destruct (hex_digit_facts _ _ H4') as (B4' & _).
  rewrite (Z.mod_small d1 4), (Z.mod_small d1' 4) by lia.
  split.
  - intros Heq.
    pose proof (f_equal (fun l => nth 0 l 0) Heq) as Ha.
    pose proof (f_equal (fun l => nth 1 l 0) Heq) as Hb.
    cbn [nth] in Ha, Hb.
    assert (Z.of_nat k = Z.of_nat k') by lia.
    repeat split; lia.
  - intros (-> & -> & -> & -> & ->). reflexivity.
Qed.

Lemma encode_dtc_injective_witness :
  nth_error dtc_letters 0 = Some (PyInt.upper "p")
  /\ nth_error dtc_letters 0 = Some (PyInt.upper "P")
  /\ (CanSim._encode_dtc (dtc_string "p" "0" "4" "2" "a")
      = CanSim._encode_dtc (dtc_string "P" "0" "4" "2" "A")
      <-> 0%nat = 0%nat /\ 0 = 0 /\ 4 = 4 /\ 2 = 2 /\ 10 = 10).
Proof.
  split; [reflexivity |]. split; [reflexivity |].
  apply (encode_dtc_injective 0 0 "p" "0" "4" "2" "a" "P" "0" "4" "2" "A"
           0 4 2 10 0 4 2 10); (reflexivity || lia).
Defined.

(** ** Mode 0x03 and 0x04 on the wire *)

Section DtcWire.

Lemma encode_dtc_pair (c : string) :
  exists a b, CanSim._encode_dtc c = [a; b]
              /\ Py.is_byte a = true /\ Py.is_byte b = true.
Proof.
  destruct (encode_dtc_two_bytes c) as [Hlen Hb].
  destruct (CanSim._encode_dtc c) as [| a [| b [| x l]]]; try discriminate.
  exists a, b. cbn [forallb] in Hb.
  apply andb_prop in Hb. destruct Hb as [Ha Hb].
  apply andb_prop in Hb. destruct Hb as [Hb _]. auto.
Qed.

Lemma dtc_request_reply (s : CanSim.Sim) (req : Message) :
  obd_request req = true ->
  mode_of req = 0x03 ->
  CanSim._process_can_message s req
  = (s, CanSim._send_obd_response (arbitration_id req)
          (CanSim.diagnostic_codes_payload s)).
Proof.
  intros Hreq Hmode.
  destruct (request_parts req Hreq) as (Hid & Hl & _ & _).
  unfold CanSim._process_can_message. rewrite Hid. cbn [negb].
  unfold mode_of in Hmode. rewrite Hl, Hmode. reflexivity.
Qed.

End DtcWire.

(** X10.  When the first three stored DTCs are all confirmed, the
    mode-0x03 reply announces eight payload bytes but carries seven: the
    frame is [8, 0x43, N, a1, a2, b1, b2, c1], and the low byte [c2] of the
    third code is cut off by the eight-byte frame. *)
Theorem three_dtcs_truncated
  (s : CanSim.Sim) (req : Message)
  (x y z : CanSim.DiagnosticTroubleCode)
  (rest : list CanSim.DiagnosticTroubleCode) :
  obd_request req = true ->
  mode_of req = 0x03 ->
  CanSim.dtc_codes s = x :: y :: z :: rest ->
  CanSim.status x = CanSim.confirmed ->
  CanSim.status y = CanSim.confirmed ->
  CanSim.status z = CanSim.confirmed ->
  (length rest <= 250)%nat ->
  exists a1 a2 b1 b2 c1 c2,
    CanSim._encode_dtc (CanSim.code x) = [a1; a2]
    /\ CanSim._encode_dtc (CanSim.code y) = [b1; b2]
    /\ CanSim._encode_dtc (CanSim.code z) = [c1; c2]
    /\ CanSim._process_can_message s req
       = (s, [mkMessage (response_id_rule (arbitration_id req))
                [8; 0x43;
                 Z.of_nat (length (filter CanSim.is_confirmed
                                          (CanSim.dtc_codes s)));
                 a1; a2; b1; b2; c1]]).
Proof.
  intros Hreq Hmode Hcodes Hx Hy Hz Hrest.
  destruct (encode_dtc_pair (CanSim.code x)) as (a1 & a2 & Ea & Ba1 & Ba2).
  destruct (encode_dtc_pair (CanSim.code y)) as (b1 & b2 & Eb & Bb1 & Bb2).
  destruct (encode_dtc_pair (CanSim.code z)) as (c1 & c2 & Ec & Bc1 & Bc2).
  exists a1, a2, b1, b2, c1, c2.
  split; [exact Ea |]. split; [exact Eb |]. split; [exact Ec |].
  rewrite (dtc_request_reply s req Hreq Hmode).
  set (N := Z.of_nat (length (filter CanSim.is_confirmed (CanSim.dtc_codes s)))).
  assert (Hpay : CanSim.diagnostic_codes_payload s
                 = [0x43; N; a1; a2; b1; b2; c1; c2]).
  { unfold CanSim.diagnostic_codes_payload. fold N. rewrite Hcodes.
    cbn [firstn fold_left]. unfold CanSim.is_confirmed.
    rewrite Hx, Hy, Hz. cbn [CanSim.status_eqb].
    rewrite Ea, Eb, Ec. reflexivity. }
  assert (HN : Py.is_byte N = true).
  { apply is_byte_range. subst N.
    pose proof (filter_length_le CanSim.is_confirmed (CanSim.dtc_codes s)).
    rewrite Hcodes in H at 2. cbn [length] in H. lia. }
  rewrite Hpay, send_obd_response_frame.
  - reflexivity.
  - cbn [forallb]. now rewrite HN, Ba1, Ba2, Bb1, Bb2, Bc1, Bc2.
  - cbn. lia.
Qed.

Lemma three_dtcs_truncated_witness :
  obd_request (mkMessage 0x7DF [0x01; 0x03; 0; 0; 0; 0; 0; 0]) = true
  /\ exists a1 a2 b1 b2 c1 c2,
      CanSim._encode_dtc "P0420" = [a1; a2]
      /\ CanSim._encode_dtc "P0301" = [b1; b2]
      /\ CanSim._encode_dtc "U0001" = [c1; c2]
      /\ CanSim._process_can_message
           (CanSim._add_random_dtc
              (CanSim.start (CanSim.init true)
                            (CanSim.mkInitDraw true [0; 2]%nat)) 5 true)
           (mkMessage 0x7DF [0x01; 0x03; 0; 0; 0; 0; 0; 0])
         = (CanSim._add_random_dtc
              (CanSim.start (CanSim.init true)
                            (CanSim.mkInitDraw true [0; 2]%nat)) 5 true,
            [mkMessage 0x7E8 [8; 0x43; 3; a1; a2; b1; b2; c1]]).
Proof.
  split; [reflexivity |].
  exact (three_dtcs_truncated
           (CanSim._add_random_dtc
              (CanSim.start (CanSim.init true)
                            (CanSim.mkInitDraw true [0; 2]%nat)) 5 true)
           (mkMessage 0x7DF [0x01; 0x03; 0; 0; 0; 0; 0; 0])
           _ _ _ [] eq_refl eq_refl eq_refl eq_refl eq_refl eq_refl
           (Nat.le_0_l 250)).
Defined.

(** X11.  Clearing and reading back.  A mode-0x04 request is answered by
    [1, 0x44, 0, 0, 0, 0, 0, 0] whatever was stored; afterwards a
    mode-0x03 request is answered by [2, 0x43, 0, 0, 0, 0, 0, 0], and a
    second clear leaves the state as the first one made it. *)
Theorem clear_then_read (s : CanSim.Sim) (clear read : Message) :
  obd_request clear = true -> mode_of clear = 0x04 ->
  obd_request read = true -> mode_of read = 0x03 ->
  let s1 := fst (CanSim._process_can_message s clear) in
  snd (CanSim._process_can_message s clear)
  = [mkMessage (response_id_rule (arbitration_id clear))
               [1; 0x44; 0; 0; 0; 0; 0; 0]]
  /\ CanSim._process_can_message s1 read
     = (s1, [mkMessage (response_id_rule (arbitration_id read))
                       [2; 0x43; 0; 0; 0; 0; 0; 0]])
  /\ fst (CanSim._process_can_message s1 clear) = s1.
Proof.
  intros Hc Hmc Hr Hmr.
  destruct (request_parts clear Hc) as (Hid & Hl & _ & _).
  assert (Hproc : forall s0,
             CanSim._process_can_message s0 clear
             = CanSim._handle_clear_codes_request s0 clear).
  { intros s0. unfold CanSim._process_can_message. rewrite Hid. cbn [negb].
    unfold mode_of in Hmc. rewrite Hl, Hmc. reflexivity. }
  cbv zeta. rewrite !Hproc.
  unfold CanSim._handle_clear_codes_request. cbn [fst snd].
  split; [reflexivity |]. split.
  - rewrite (dtc_request_reply _ read Hr Hmr). reflexivity.
  - reflexivity.
Qed.

Lemma clear_then_read_witness :
  obd_request (mkMessage 0x7E0 [0x01; 0x04; 0; 0; 0; 0; 0; 0]) = true
  /\ obd_request (mkMessage 0x7DF [0x01; 0x03; 0; 0; 0; 0; 0; 0]) = true
  /\ snd (CanSim._process_can_message
            (CanSim.start (CanSim.init true)
                          (CanSim.mkInitDraw true [0; 2]%nat))
            (mkMessage 0x7E0 [0x01; 0x04; 0; 0; 0; 0; 0; 0]))
     = [mkMessage 0x7E8 [1; 0x44; 0; 0; 0; 0; 0; 0]].
Proof.
  split; [reflexivity |]. split; [reflexivity |].
  exact (proj1 (clear_then_read
                  (CanSim.start (CanSim.init true)
                                (CanSim.mkInitDraw true [0; 2]%nat))
                  (mkMessage 0x7E0 [0x01; 0x04; 0; 0; 0; 0; 0; 0])
                  (mkMessage 0x7DF [0x01; 0x03; 0; 0; 0; 0; 0; 0])
                  eq_refl eq_refl eq_refl eq_refl)).
Defined.

(** * The simulation loop of the CAN simulator *)

Section GearModel.

Import CanSim.
Local Open Scope Q_scope.

Lemma qlt_true (a b : Q) : qlt a b = true -> a < b.
Proof. unfold qlt. destruct (Qlt_le_dec a b); [auto | discriminate]. Qed.

Lemma qlt_false (a b : Q) : qlt a b = false -> b <= a.
Proof. unfold qlt. destruct (Qlt_le_dec a b); [discriminate | auto]. Qed.

Lemma auto_gear_range (v : Q) : (1 <= auto_gear v <= 6)%Z.
Proof.
  unfold auto_gear.
  repeat match goal with
         | |- context [if ?c then _ else _] => destruct c
         end; lia.
Qed.

Lemma auto_gear_monotone (v w : Q) :
  v <= w -> (auto_gear v <= auto_gear w)%Z.
Proof.
  intros H. unfold auto_gear.
  repeat match goal with
         | |- context [qlt ?a ?b] =>
             let E := fresh "E" in
             destruct (qlt a b) eqn:E;
             [apply qlt_true in E | apply qlt_false in E]
         end; try lia; exfalso; lra.
Qed.

Lemma calculate_rpm_bounds (v : Q) (g : option Z) :
  800 <= snd (_calculate_rpm_for_speed v g) <= 7000.
Proof.
  unfold _calculate_rpm_for_speed.
  destruct (negb (qlt 0 v)); cbn [snd]; [lra |].
  apply clamp_bounds. lra.
Qed.

End GearModel.

(** X12.  The gear model.  For every speed the engine speed returned by
    [_calculate_rpm_for_speed] lies in [800, 7000].  Without a gear
    argument the stored gear is 0 exactly when the speed is not positive
    and otherwise between 1 and 6, and a higher speed never selects a lower
    gear.  With a gear argument a non-positive speed still stores gear 0
    and returns 800. *)
Theorem gear_model (v w : Q) (g : option Z) :
  (800 <= snd (CanSim._calculate_rpm_for_speed v g) <= 7000)%Q
  /\ 0 <= fst (CanSim._calculate_rpm_for_speed v None) <= 6
  /\ (fst (CanSim._calculate_rpm_for_speed v None) = 0 <-> (v <= 0)%Q)
  /\ ((v <= 0)%Q ->
      fst (CanSim._calculate_rpm_for_speed v g) = 0
      /\ snd (CanSim._calculate_rpm_for_speed v g) = 800%Q)
  /\ ((v <= w)%Q ->
      fst (CanSim._calculate_rpm_for_speed v None)
      <= fst (CanSim._calculate_rpm_for_speed w None)).
Proof.
  split; [apply calculate_rpm_bounds |].
  pose proof (auto_gear_range v) as Hv.
  pose proof (auto_gear_range w) as Hw.
  unfold CanSim._calculate_rpm_for_speed.
  destruct (CanSim.qlt 0 v) eqn:Ev;
    [apply qlt_true in Ev | apply qlt_false in Ev]; cbn [negb fst snd].
  - split; [lia |]. split; [split; [lia | lra] |].
    split; [intros Hc; exfalso; lra |].
    intros Hvw.
    destruct (CanSim.qlt 0 w) eqn:Ew;
      [apply qlt_true in Ew | apply qlt_false in Ew]; cbn [negb fst].
    + now apply auto_gear_monotone.
    + exfalso. lra.
  - split; [lia |]. split; [split; [intros _; exact Ev | reflexivity] |].
    split; [intros _; split; reflexivity |].
    intros _.
    destruct (CanSim.qlt 0 w); cbn [negb fst]; lia.
Qed.

Lemma gear_model_witness :
  (45 <= 95)%Q
  /\ fst (CanSim._calculate_rpm_for_speed 45 None)
     <= fst (CanSim._calculate_rpm_for_speed 95 None).
Proof.
  assert (H : (45 <= 95)%Q) by (vm_compute; discriminate).
  split; [exact H |].
  exact (proj2 (proj2 (proj2 (proj2 (gear_model 45 95 None)))) H).
Defined.

Section Scenarios.

Import CanSim.
Local Open Scope Q_scope.

Lemma uniform_bounds (a b r : Q) :
  a <= b -> unit_draw r -> a <= uniform a b r <= b.
Proof.
  unfold unit_draw, uniform. intros Hab [H0 H1].
  assert (0 <= (b - a) * r) by (apply Qmult_le_0_compat; lra).
  assert (0 <= (b - a) * (1 - r)) by (apply Qmult_le_0_compat; lra).
  lra.
Qed.

(** What a scenario leaves alone: the DTC bookkeeping, the odometer, the
    fuel level and the engine's running flag and run time. *)
Lemma scenario_frame (sc : DrivingScenario) (s : Sim) (tick : Z) (d : Draws) :
  let s' := run_scenario sc s tick d in
  dtc_codes s' = dtc_codes s
  /\ simulate_dtcs s' = simulate_dtcs s
  /\ mil_status (vehicle s') = mil_status (vehicle s)
  /\ dtc_count (vehicle s') = dtc_count (vehicle s)
  /\ odometer (vehicle s') = odometer (vehicle s)
  /\ fuel_level (vehicle s') = fuel_level (vehicle s)
  /\ is_running (engine s') = is_running (engine s)
  /\ runtime_since_start (engine s') = runtime_since_start (engine s).
Proof.
  destruct sc; cbn [run_scenario];
    unfold _simulate_idle, _simulate_city_driving, _simulate_highway_driving,
      _simulate_aggressive_driving, _simulate_eco_driving,
      _simulate_traffic_jam, _simulate_parking, _simulate_idle;
    repeat match goal with
           | |- context [let '(_, _) := ?p in _] => destruct p
           | |- context [if ?c then _ else _] => destruct c eqn:?
           end;
    cbn; repeat split; (reflexivity || assumption).
Qed.

Lemma scenario_ranges (sc : DrivingScenario) (s : Sim) (tick : Z) (d : Draws) :
  valid_draws d ->
  let e := engine (run_scenario sc s tick d) in
  0 <= throttle_position e <= 100
  /\ 0 <= engine_load e <= 95
  /\ 0 <= maf_flow e <= 50.
Proof.
  intros (Hs & Hr & Ht & Hl & Hm & _).
  assert (U : forall a b r, a <= b -> unit_draw r -> a <= uniform a b r <= b)
    by exact uniform_bounds.
  pose proof (U 15 25 _ ltac:(lra) Hl). pose proof (U 2 4 _ ltac:(lra) Hm).
  pose proof (U 20 60 _ ltac:(lra) Ht). pose proof (U 30 70 _ ltac:(lra) Hl).
  pose proof (U 8 25 _ ltac:(lra) Hm). pose proof (U 40 70 _ ltac:(lra) Ht).
  pose proof (U 40 80 _ ltac:(lra) Hl). pose proof (U 15 35 _ ltac:(lra) Hm).
  pose proof (U 70 100 _ ltac:(lra) Ht). pose proof (U 70 95 _ ltac:(lra) Hl).
  pose proof (U 25 50 _ ltac:(lra) Hm). pose proof (U 10 40 _ ltac:(lra) Ht).
  pose proof (U 20 50 _ ltac:(lra) Hl). pose proof (U 5 20 _ ltac:(lra) Hm).
  pose proof (U 10 30 _ ltac:(lra) Ht). pose proof (U 25 45 _ ltac:(lra) Hl).
  pose proof (U 5 15 _ ltac:(lra) Hm).
  clear U.
  destruct sc; cbn [run_scenario];
    unfold _simulate_idle, _simulate_city_driving, _simulate_highway_driving,
      _simulate_aggressive_driving, _simulate_eco_driving,
      _simulate_traffic_jam, _simulate_parking, _simulate_idle;
    repeat match goal with
           | |- context [let '(_, _) := ?p in _] => destruct p
           | |- context [if ?c then _ else _] => destruct c
           end;
    cbn [engine set_drive throttle_position engine_load maf_flow];
    repeat split; lra.
Qed.

End Scenarios.

(** X13.  In every driving scenario, with draws the random module can
    produce, the throttle position ends in [0, 100] percent, the engine load
    in [0, 95] percent and the air flow in [0, 50] g/s; the scenario never
    touches the stored trouble codes, the lamp, the odometer or the fuel
    level. *)
Theorem scenario_outputs
  (sc : CanSim.DrivingScenario) (s : CanSim.Sim) (tick : Z) (d : CanSim.Draws) :
  valid_draws d ->
  let s' := CanSim.run_scenario sc s tick d in
  (0 <= CanSim.throttle_position (CanSim.engine s') <= 100)%Q
  /\ (0 <= CanSim.engine_load (CanSim.engine s') <= 95)%Q
  /\ (0 <= CanSim.maf_flow (CanSim.engine s') <= 50)%Q
  /\ CanSim.dtc_codes s' = CanSim.dtc_codes s
  /\ CanSim.mil_status (CanSim.vehicle s') = CanSim.mil_status (CanSim.vehicle s)
  /\ CanSim.odometer (CanSim.vehicle s') = CanSim.odometer (CanSim.vehicle s)
  /\ CanSim.fuel_level (CanSim.vehicle s')
     = CanSim.fuel_level (CanSim.vehicle s).
Proof.
  intros Hd s'.
  destruct (scenario_ranges sc s tick d Hd) as (Ht & Hl & Hm).
  destruct (scenario_frame sc s tick d) as (Hc & _ & Hmil & _ & Ho & Hf & _).
  split; [exact Ht |]. split; [exact Hl |]. split; [exact Hm |].
  split; [exact Hc |]. split; [exact Hmil |]. split; [exact Ho | exact Hf].
Qed.

Lemma draws_half_valid : valid_draws draws_half.
Proof.
  unfold valid_draws, unit_draw, draws_half. cbn.
  repeat split; try lia; vm_compute; (reflexivity || discriminate).
Qed.

Lemma scenario_outputs_witness :
  valid_draws draws_half
  /\ (0 <= CanSim.engine_load
             (CanSim.engine
                (CanSim.run_scenario CanSim.CITY_DRIVING (CanSim.init true)
                                     7 draws_half)) <= 95)%Q.
Proof.
  split; [exact draws_half_valid |].
  exact (proj1 (proj2 (scenario_outputs CanSim.CITY_DRIVING (CanSim.init true)
                         7 draws_half draws_half_valid))).
Defined.

Section LoopIteration.

Import CanSim.
Local Open Scope Q_scope.

(** What the correlated update leaves alone. *)
Lemma correlated_frame (s : Sim) (tick : Z) (d : Draws) :
  let s' := _update_correlated_parameters s tick d in
  dtc_codes s' = dtc_codes s
  /\ simulate_dtcs s' = simulate_dtcs s
  /\ mil_status (vehicle s') = mil_status (vehicle s)
  /\ dtc_count (vehicle s') = dtc_count (vehicle s)
  /\ is_running (engine s') = is_running (engine s)
  /\ runtime_since_start (engine s') = runtime_since_start (engine s)
  /\ engine_load (engine s') = engine_load (engine s)
  /\ fuel_pressure (engine s')
     = (35 # 10) + (engine_load (engine s) / 100) * (15 # 10).
Proof.
  cbn. repeat split; reflexivity.
Qed.

Lemma correlated_odometer_fuel (s : Sim) (tick : Z) (d : Draws) :
  let s' := _update_correlated_parameters s tick d in
  odometer (vehicle s) <= odometer (vehicle s')
  /\ (0 <= engine_load (engine s) -> 0 <= fuel_level (vehicle s) ->
      0 <= fuel_level (vehicle s') <= fuel_level (vehicle s)).
Proof.
  unfold _update_correlated_parameters. cbn [vehicle odometer fuel_level].
  split.
  - destruct (qlt (1 # 10) (speed (vehicle s))) eqn:E; [| lra].
    apply qlt_true in E.
    assert (0 <= speed (vehicle s) / 3600 * (1 # 100)).
    { unfold Qdiv. apply Qmult_le_0_compat; [| lra].
      apply Qmult_le_0_compat; [lra |]. vm_compute. discriminate. }
    lra.
  - intros Hl Hf. destruct (is_running (engine s)); [| lra].
    assert (0 <= engine_load (engine s) / 100 * (1 # 10000)).
    { unfold Qdiv. apply Qmult_le_0_compat; [| lra].
      apply Qmult_le_0_compat; [lra |]. vm_compute. discriminate. }
    unfold Py.qmax.
    destruct (Qlt_le_dec 0 _); split; lra.
Qed.

Lemma add_dtc_frame (s : Sim) (choice : nat) (promote : bool) :
  let s' := _add_random_dtc s choice promote in
  engine s' = engine s
  /\ odometer (vehicle s') = odometer (vehicle s)
  /\ fuel_level (vehicle s') = fuel_level (vehicle s).
Proof.
  unfold _add_random_dtc.
  repeat match goal with
         | |- context [if ?c then _ else _] => destruct c
         | |- context [match ?c with Some _ => _ | None => _ end] =>
             destruct c as [[? ?] |]
         end; cbn; repeat split; reflexivity.
Qed.

(** The simulator after one call of [_update_vehicle_state], in terms of
    the intermediate states. *)
Lemma update_vehicle_state_sim (l : Loop) (d : Draws) :
  exists sc,
    let s1 := run_scenario sc (sim l) (_simulation_tick l) d in
    let s2 := _update_correlated_parameters s1 (_simulation_tick l) d in
    let s3 := bump_runtime s2 in
    sim (loop_iteration l d) = s3
    \/ (simulate_dtcs s3 = true
        /\ sim (loop_iteration l d)
           = _add_random_dtc s3 (dtc_choice d) (qlt (r_promote d) (3 # 10))).
Proof.
  unfold loop_iteration, _update_vehicle_state. cbn [sim].
  match goal with
  | |- context [run_scenario ?sc _ _ _] => exists sc
  end.
  cbv zeta.
  match goal with
  | |- context [if ?c then _ else _] => destruct c eqn:E
  end; [right | left; reflexivity].
  apply andb_prop in E. destruct E as [E _]. split; [exact E | reflexivity].
Qed.

End LoopIteration.

(** X14.  Over one iteration of the simulation loop the odometer never
    decreases; and with draws the random module can produce and a
    non-negative fuel level, the fuel level never increases and never
    falls below 0. *)
Theorem odometer_and_fuel_monotone (l : CanSim.Loop) (d : CanSim.Draws) :
  let v := CanSim.vehicle (CanSim.sim l) in
  let v' := CanSim.vehicle (CanSim.sim (CanSim.loop_iteration l d)) in
  (CanSim.odometer v <= CanSim.odometer v')%Q
  /\ (valid_draws d -> (0 <= CanSim.fuel_level v)%Q ->
      (0 <= CanSim.fuel_level v' <= CanSim.fuel_level v)%Q).
Proof.
  cbv zeta.
  destruct (update_vehicle_state_sim l d) as [sc H]. cbv zeta in H.
  set (s1 := CanSim.run_scenario sc (CanSim.sim l)
                                 (CanSim._simulation_tick l) d) in *.
  set (s2 := CanSim._update_correlated_parameters s1
                                 (CanSim._simulation_tick l) d) in *.
  destruct (scenario_frame sc (CanSim.sim l) (CanSim._simulation_tick l) d)
    as (_ & _ & _ & _ & Ho & Hf & _).
  fold s1 in Ho, Hf.
  destruct (correlated_odometer_fuel s1 (CanSim._simulation_tick l) d)
    as [Hodo Hfuel].
  fold s2 in Hodo, Hfuel.
  assert (Hv : CanSim.odometer
                 (CanSim.vehicle (CanSim.sim (CanSim.loop_iteration l d)))
               = CanSim.odometer (CanSim.vehicle s2)
               /\ CanSim.fuel_level
                    (CanSim.vehicle (CanSim.sim (CanSim.loop_iteration l d)))
                  = CanSim.fuel_level (CanSim.vehicle s2)).
  { destruct H as [-> | [_ ->]].
    - split; reflexivity.
    - destruct (add_dtc_frame (CanSim.bump_runtime s2) (CanSim.dtc_choice d)
                  (CanSim.qlt (CanSim.r_promote d) (3 # 10)))
        as (_ & -> & ->).
      split; reflexivity. }
  destruct Hv as [-> ->]. rewrite <- Ho, <- Hf. split; [exact Hodo |].
  intros Hd Hpos. apply Hfuel.
  - exact (proj1 (proj1 (proj2 (scenario_ranges sc (CanSim.sim l)
                                  (CanSim._simulation_tick l) d Hd)))).
  - exact Hpos.
Qed.

Lemma odometer_and_fuel_monotone_witness :
  valid_draws draws_half
  /\ (0 <= CanSim.fuel_level
             (CanSim.vehicle
                (CanSim.sim (loop_start true (CanSim.mkInitDraw false [0%nat])))))%Q
  /\ (0 <= CanSim.fuel_level
             (CanSim.vehicle
                (CanSim.sim
                   (CanSim.loop_iteration
                      (loop_start true (CanSim.mkInitDraw false [0%nat]))
                      draws_half)))
      <= CanSim.fuel_level
           (CanSim.vehicle
              (CanSim.sim
                 (loop_start true (CanSim.mkInitDraw false [0%nat])))))%Q.
Proof.
  assert (Hf : (0 <= CanSim.fuel_level
             (CanSim.vehicle
                (CanSim.sim
                   (loop_start true (CanSim.mkInitDraw false [0%nat])))))%Q)
    by (vm_compute; discriminate).
  split; [exact draws_half_valid |]. split; [exact Hf |].
  exact (proj2 (odometer_and_fuel_monotone
                  (loop_start true (CanSim.mkInitDraw false [0%nat]))
                  draws_half) draws_half_valid Hf).
Defined.

(** X15.  A scenario change never keeps the current scenario: whichever
    of the six remaining positions is drawn, the new scenario is one of
    the seven scenarios and differs from the current one. *)
Theorem scenario_change_differs (cur : CanSim.DrivingScenario) (pick : nat) :
  (pick < 6)%nat ->
  CanSim._change_driving_scenario cur pick <> cur
  /\ In (CanSim._change_driving_scenario cur pick) CanSim.all_scenarios.
Proof.
  intros Hp.
  destruct pick as [| [| [| [| [| [| p]]]]]]; [| | | | | | lia];
    destruct cur; (split; [discriminate | cbn; tauto]).
Qed.

Lemma scenario_change_differs_witness :
  (4 < 6)%nat
  /\ CanSim._change_driving_scenario CanSim.ECO_DRIVING 4
     <> CanSim.ECO_DRIVING.
Proof.
  assert (H : (4 < 6)%nat) by lia.
  split; [exact H |].
  exact (proj1 (scenario_change_differs CanSim.ECO_DRIVING 4 H)).
Defined.

(** X16.  The simulation loop keeps the simulator within the reachable
    states: one iteration, with draws the random module can produce, leads
    from a reachable state to a reachable state, so the bookkeeping
    invariant of [dtc_count] and [mil_status] holds after it. *)
Theorem loop_iteration_reachable (l : CanSim.Loop) (d : CanSim.Draws) :
  valid_draws d ->
  CanSim.reachable (CanSim.sim l) ->
  CanSim.reachable (CanSim.sim (CanSim.loop_iteration l d))
  /\ dtc_invariant (CanSim.sim (CanSim.loop_iteration l d)).
Proof.
  intros Hd Hr.
  assert (Hreach : CanSim.reachable (CanSim.sim (CanSim.loop_iteration l d))).
  { destruct (update_vehicle_state_sim l d) as [sc H]. cbv zeta in H.
    set (s1 := CanSim.run_scenario sc (CanSim.sim l)
                                   (CanSim._simulation_tick l) d) in *.
    set (s2 := CanSim._update_correlated_parameters s1
                                   (CanSim._simulation_tick l) d) in *.
    destruct (scenario_frame sc (CanSim.sim l) (CanSim._simulation_tick l) d)
      as (Hc1 & Hs1 & Hm1 & Hn1 & _).
    fold s1 in Hc1, Hs1, Hm1, Hn1.
    destruct (correlated_frame s1 (CanSim._simulation_tick l) d)
      as (Hc2 & Hs2 & Hm2 & Hn2 & _).
    fold s2 in Hc2, Hs2, Hm2, Hn2.
    assert (H3 : CanSim.reachable (CanSim.bump_runtime s2)).
    { apply (CanSim.reach_step (CanSim.sim l)); [exact Hr |].
      unfold CanSim.bump_runtime. rewrite Hc2, Hc1, Hs2, Hs1.
      apply CanSim.step_scalars; congruence. }
    destruct H as [-> | [Hsim ->]]; [exact H3 |].
    apply (CanSim.reach_step (CanSim.bump_runtime s2)); [exact H3 |].
    apply CanSim.step_add_dtc; [exact Hsim |].
    destruct Hd as (_ & _ & _ & _ & _ & _ & _ & _ & _ & _ & _ & Hch).
    exact Hch. }
  split; [exact Hreach | exact (invariant_reachable _ Hreach)].
Qed.

Lemma loop_iteration_reachable_witness :
  valid_draws draws_half
  /\ CanSim.reachable
       (CanSim.sim (loop_start true (CanSim.mkInitDraw true [0; 1]%nat)))
  /\ dtc_invariant
       (CanSim.sim
          (CanSim.loop_iteration
             (loop_start true (CanSim.mkInitDraw true [0; 1]%nat))
             draws_half)).
Proof.
  assert (Hr : CanSim.reachable
       (CanSim.sim (loop_start true (CanSim.mkInitDraw true [0; 1]%nat)))).
  { apply (CanSim.reach_start true (CanSim.mkInitDraw true [0; 1]%nat)).
    reflexivity. }
  split; [exact draws_half_valid |]. split; [exact Hr |].
  exact (proj2 (loop_iteration_reachable
                  (loop_start true (CanSim.mkInitDraw true [0; 1]%nat))
                  draws_half draws_half_valid Hr)).
Defined.

Section LoopEngine.

Import CanSim.

(** The engine after one iteration, in terms of the scenario's result. *)
Lemma loop_iteration_engine (l : Loop) (d : Draws) :
  exists sc,
    let s1 := run_scenario sc (sim l) (_simulation_tick l) d in
    let e' := engine (sim (loop_iteration l d)) in
    is_running e' = is_running (engine (sim l))
    /\ runtime_since_start e'
       = runtime_since_start (engine (sim l))
         + (if is_running (engine (sim l)) then 1 else 0)
    /\ engine_load e' = engine_load (engine s1)
    /\ fuel_pressure e'
       = ((35 # 10) + (engine_load (engine s1) / 100) * (15 # 10))%Q.
Proof.
  destruct (update_vehicle_state_sim l d) as [sc H]. exists sc.
  cbv zeta in *.
  set (s1 := run_scenario sc (sim l) (_simulation_tick l) d) in *.
  set (s2 := _update_correlated_parameters s1 (_simulation_tick l) d) in *.
  destruct (scenario_frame sc (sim l) (_simulation_tick l) d)
    as (_ & _ & _ & _ & _ & _ & Hrun & Htime).
  fold s1 in Hrun, Htime.
  destruct (correlated_frame s1 (_simulation_tick l) d)
    as (_ & _ & _ & _ & Hrun2 & Htime2 & Hload & Hpress).
  fold s2 in Hrun2, Htime2, Hload, Hpress.
  assert (He : engine (sim (loop_iteration l d)) = engine (bump_runtime s2)).
  { destruct H as [-> | [_ ->]]; [reflexivity |].
    exact (proj1 (add_dtc_frame _ _ _)). }
  rewrite He. unfold bump_runtime.
  cbn [engine is_running runtime_since_start engine_load fuel_pressure].
  rewrite Hrun2, Hrun, Htime2, Htime.
  repeat split; assumption.
Qed.

End LoopEngine.

(** X17.  The run-time counter.  One iteration of the loop adds exactly 1
    to [runtime_since_start] when the engine is running and nothing
    otherwise, and never changes the running flag; the encoder of PID 0x1F
    saturates: for a non-negative run time its two bytes hold
    [min(65535, runtime)]. *)
Theorem runtime_counter (l : CanSim.Loop) (d : CanSim.Draws) (s : CanSim.Sim) :
  let e := CanSim.engine (CanSim.sim l) in
  let e' := CanSim.engine (CanSim.sim (CanSim.loop_iteration l d)) in
  CanSim.is_running e' = CanSim.is_running e
  /\ CanSim.runtime_since_start e'
     = CanSim.runtime_since_start e + (if CanSim.is_running e then 1 else 0)
  /\ (0 <= CanSim.runtime_since_start (CanSim.engine s) ->
      exists A B,
        CanSim.encode_current_data s 0x1F = CanSim.Bytes [A; B]
        /\ 0 <= A <= 255 /\ 0 <= B <= 255
        /\ 256 * A + B
           = Z.min 65535 (CanSim.runtime_since_start (CanSim.engine s))).
Proof.
  cbv zeta.
  destruct (loop_iteration_engine l d) as [sc (Hrun & Htime & _)].
  split; [exact Hrun |]. split; [exact Htime |].
  intros Hpos.
  set (v := Py.py_min 65535 (CanSim.runtime_since_start (CanSim.engine s))).
  assert (Hv : v = Z.min 65535 (CanSim.runtime_since_start (CanSim.engine s))).
  { unfold v, Py.py_min.
    destruct (Z.ltb_spec (CanSim.runtime_since_start (CanSim.engine s)) 65535);
      lia. }
  assert (Hr : 0 <= v <= 65535) by lia.
  destruct (struct_pack_H_in_range v Hr) as [Hpack Hval].
  exists (Z.land (Z.shiftr v 8) 255), (Z.land v 255).
  split; [| split; [apply land_byte | split; [apply land_byte | lia]]].
  unfold CanSim.encode_current_data. cbn [Z.eqb Pos.eqb].
  fold v. now rewrite Hpack.
Qed.

Lemma runtime_counter_witness :
  0 <= CanSim.runtime_since_start
         (CanSim.engine
            (CanSim.sim
               (iterate 3 (fun l => CanSim.loop_iteration l draws_half)
                        (loop_start true (CanSim.mkInitDraw false [0%nat])))))
  /\ exists A B,
      CanSim.encode_current_data
        (CanSim.sim
           (iterate 3 (fun l => CanSim.loop_iteration l draws_half)
                    (loop_start true (CanSim.mkInitDraw false [0%nat]))))
        0x1F = CanSim.Bytes [A; B]
      /\ 0 <= A <= 255 /\ 0 <= B <= 255
      /\ 256 * A + B = Z.min 65535 3.
Proof.
  assert (H : 0 <= CanSim.runtime_since_start
         (CanSim.engine
            (CanSim.sim
               (iterate 3 (fun l => CanSim.loop_iteration l draws_half)
                        (loop_start true (CanSim.mkInitDraw false [0%nat]))))))
    by (vm_compute; discriminate).
  split; [exact H |].
  exact (proj2 (proj2 (runtime_counter
                         (loop_start true (CanSim.mkInitDraw false [0%nat]))
                         draws_half _)) H).
Defined.

Section PressureByte.

(** [int(x)] of a float between two non-negative integer bounds. *)
Lemma py_int_between (x : Q) (a b : Z) :
  0 <= a -> (inject_Z a <= x)%Q -> (x < inject_Z (b + 1))%Q ->
  a <= Py.py_int x <= b.
Proof.
  destruct x as [n dn]. unfold Qle, Qlt, Py.py_int.
  cbn [Qnum Qden inject_Z]. intros Ha Hlo Hhi.
  rewrite Z.mul_1_r in Hlo, Hhi.
  rewrite Z.quot_div_nonneg by nia.
  split.
  - apply Z.div_le_lower_bound; lia.
  - assert (n / Z.pos dn < b + 1); [| lia].
    apply Z.div_lt_upper_bound; lia.
Qed.

End PressureByte.

(** X18.  Fuel pressure as a client sees it.  After any iteration of the
    loop with draws the random module can produce, the fuel pressure is
    between 3.5 and 4.925 bar and the byte sent for PID 0x0A lies between
    116 and 164; the clamp of that encoder is never reached. *)
Theorem fuel_pressure_byte (l : CanSim.Loop) (d : CanSim.Draws) :
  valid_draws d ->
  let s' := CanSim.sim (CanSim.loop_iteration l d) in
  ((35 # 10) <= CanSim.fuel_pressure (CanSim.engine s') <= (4925 # 1000))%Q
  /\ exists A,
      CanSim.encode_current_data s' 0x0A = CanSim.Bytes [A]
      /\ A = Py.py_int (CanSim.fuel_pressure (CanSim.engine s') * 100 / 3)%Q
      /\ 116 <= A <= 164.
Proof.
  intros Hd. cbv zeta.
  destruct (loop_iteration_engine l d) as [sc (_ & _ & _ & Hp)].
  cbv zeta in Hp.
  destruct (scenario_ranges sc (CanSim.sim l) (CanSim._simulation_tick l) d Hd)
    as (_ & Hload & _).
  cbv zeta in Hload.
  set (load := CanSim.engine_load _) in *. clearbody load.
  set (p := CanSim.fuel_pressure _) in *.
  assert (Hrange : ((35 # 10) <= p <= (4925 # 1000))%Q).
  { rewrite Hp. unfold Qdiv. change (/ 100)%Q with (1 # 100)%Q.
    split; lra. }
  split; [exact Hrange |].
  assert (Hint : 116 <= Py.py_int (p * 100 / 3)%Q <= 164).
  { apply py_int_between; [lia | |];
      unfold Qdiv; change (/ 3)%Q with (1 # 3)%Q.
    - change (inject_Z 116) with (116 # 1)%Q. lra.
    - change (inject_Z (164 + 1)) with (165 # 1)%Q. lra. }
  exists (Py.py_int (p * 100 / 3)%Q).
  split; [| split; [reflexivity | exact Hint]].
  unfold CanSim.encode_current_data. cbn [Z.eqb Pos.eqb]. fold p.
  do 2 f_equal.
  unfold CanSim.clamp255, Py.py_max, Py.py_min.
  destruct (Z.ltb_spec (Py.py_int (p * 100 / 3)%Q) 255); [| lia].
  match goal with |- context [?a >? ?b] => destruct (Z.gtb_spec a b) end; lia.
Qed.

Lemma fuel_pressure_byte_witness :
  valid_draws draws_half
  /\ exists A,
      CanSim.encode_current_data
        (CanSim.sim
           (CanSim.loop_iteration
              (loop_start true (CanSim.mkInitDraw false [0%nat])) draws_half))
        0x0A = CanSim.Bytes [A]
      /\ A = Py.py_int
               (CanSim.fuel_pressure
                  (CanSim.engine
                     (CanSim.sim
                        (CanSim.loop_iteration
                           (loop_start true (CanSim.mkInitDraw false [0%nat]))
                           draws_half))) * 100 / 3)%Q
      /\ 116 <= A <= 164.
Proof.
  split; [exact draws_half_valid |].
  exact (proj2 (fuel_pressure_byte
                  (loop_start true (CanSim.mkInitDraw false [0%nat]))
                  draws_half draws_half_valid)).
Defined.

(** * Further properties of the physics simulator *)

(** X19.  The driving cycle.  The six phases follow each other in a
    cycle of length exactly six.  [_update_phase] moves to the next phase,
    and restarts the phase clock, only when more than the phase's duration
    has elapsed; otherwise it changes nothing; the vehicle state is never
    touched. *)
Theorem phase_cycle
  (p : Physics.DrivingPhase) (n : nat)
  (s : Physics.PhysicsSimulator) (e : Physics.Env) :
  iterate 6 Physics.next_phase p = p
  /\ ((0 < n < 6)%nat -> iterate n Physics.next_phase p <> p)
  /\ Physics.state (Physics._update_phase s e) = Physics.state s
  /\ ((Physics.t_phase e - Physics.phase_start_time s
       <= Physics.phase_durations (Physics.phase s))%Q ->
      Physics._update_phase s e = s)
  /\ ((Physics.phase_durations (Physics.phase s)
       < Physics.t_phase e - Physics.phase_start_time s)%Q ->
      Physics.phase (Physics._update_phase s e)
      = Physics.next_phase (Physics.phase s)
      /\ Physics.phase_start_time (Physics._update_phase s e)
         = Physics.t_phase e).
Proof.
  split; [destruct p; reflexivity |].
  split.
  - intros Hn.
    destruct n as [| [| [| [| [| [| n]]]]]]; try lia;
      destruct p; discriminate.
  - split; [apply update_phase_state |].
    unfold Physics._update_phase, Physics.qltb.
    destruct (Qlt_le_dec _ _) as [Hlt | Hle]; split.
    + intros Hc. exfalso. lra.
    + intros _. split; reflexivity.
    + intros _. reflexivity.
    + intros Hc. exfalso. lra.
Qed.

Lemma phase_cycle_witness :
  (0 < 4 < 6)%nat
  /\ iterate 4 Physics.next_phase Physics.HIGHWAY <> Physics.HIGHWAY.
Proof.
  assert (H : (0 < 4 < 6)%nat) by lia.
  split; [exact H |].
  exact (proj1 (proj2 (phase_cycle Physics.HIGHWAY 4 (Physics.init 0)
                         env_047)) H).
Defined.

Section Controller.

Import Physics.
Local Open Scope Q_scope.

Lemma pqltb_true (a b : Q) : qltb a b = true -> a < b.
Proof. unfold qltb. destruct (Qlt_le_dec a b); [auto | discriminate]. Qed.

Lemma pqltb_false (a b : Q) : qltb a b = false -> b <= a.
Proof. unfold qltb. destruct (Qlt_le_dec a b); [discriminate | auto]. Qed.

Lemma qmin_cases (a b : Q) : Py.qmin a b = a \/ Py.qmin a b = b.
Proof. unfold Py.qmin. destruct (Qlt_le_dec b a); auto. Qed.

Lemma qmax_cases (a b : Q) : Py.qmax a b = a \/ Py.qmax a b = b.
Proof. unfold Py.qmax. destruct (Qlt_le_dec a b); auto. Qed.

End Controller.

(** X20.  The speed controller never accelerates and brakes at once.
    After [_update_scenario] the commanded throttle is 0 or the brake is 0;
    the brake lies in [0, 80], the commanded throttle is non-negative and
    the throttle position lies in [0, 100]. *)
Theorem throttle_brake_exclusive
  (s : Physics.PhysicsSimulator) (e : Physics.Env) (dt : Q) :
  let s' := Physics._update_scenario s e dt in
  (Physics.target_throttle s' = 0%Q \/ Physics.brake (Physics.state s') = 0%Q)
  /\ (0 <= Physics.brake (Physics.state s') <= 80)%Q
  /\ (0 <= Physics.target_throttle s')%Q
  /\ (0 <= Physics.throttle (Physics.state s') <= 100)%Q.
Proof.
  cbv zeta.
  split; [| split; [| split;
    [| exact (proj2 (proj2 (update_scenario_state s e dt)))]]];
    unfold Physics._update_scenario;
    repeat match goal with
           | |- context [if Physics.qltb ?a ?b then _ else _] =>
               let E := fresh "E" in
               destruct (Physics.qltb a b) eqn:E;
               [apply pqltb_true in E | apply pqltb_false in E]
           end;
    cbn [Physics.state Physics.brake Physics.target_throttle];
    try (left; reflexivity); try (right; reflexivity);
    try match goal with
        | |- context [Py.qmin ?a ?b] =>
            let Hq := fresh "Hq" in
            pose proof (qmin_bounds a b);
            destruct (qmin_cases a b) as [Hq | Hq]; rewrite Hq in *
        end;
    try split; lra.
Qed.

(** X21.  Target speeds of the driving cycle.  Within the first 300
    seconds of a phase, and with a sine between -1 and 1, the target speed
    of every phase lies between 0 and 120 km/h. *)
Theorem target_speed_range
  (e : Physics.Env) (p : Physics.DrivingPhase) (phase_time : Q) :
  (forall x, -1 <= Physics.math_sin e x <= 1)%Q ->
  (0 <= phase_time <= 300)%Q ->
  (0 <= Physics.phase_target_speed e p phase_time <= 120)%Q.
Proof.
  intros Hsin Ht.
  pose proof (Hsin (phase_time * (1 # 10))%Q) as H1.
  pose proof (Hsin (phase_time * (5 # 100))%Q) as H2.
  destruct p; cbn [Physics.phase_target_speed];
    repeat match goal with
           | |- context [if Physics.qltb ?a ?b then _ else _] =>
               let E := fresh "E" in
               destruct (Physics.qltb a b) eqn:E;
               [apply pqltb_true in E | apply pqltb_false in E]
           | |- context [if ?c then _ else _] => destruct c
           end;
    try match goal with
        | |- context [Py.qmax ?a ?b] =>
            let Hq := fresh "Hq" in
            pose proof (qmax_bounds a b);
            destruct (qmax_cases a b) as [Hq | Hq]; rewrite Hq in *
        | |- context [Py.qmin ?a ?b] =>
            let Hq := fresh "Hq" in
            pose proof (qmin_bounds a b);
            destruct (qmin_cases a b) as [Hq | Hq]; rewrite Hq in *
        end;
    unfold Qdiv; try change (/ 30)%Q with (1 # 30)%Q;
    split; lra.
Qed.

Lemma target_speed_range_witness :
  (forall x, -1 <= Physics.math_sin env_047 x <= 1)%Q
  /\ (0 <= 285 <= 300)%Q
  /\ (0 <= Physics.phase_target_speed env_047 Physics.HIGHWAY 285 <= 120)%Q.
Proof.
  assert (Hsin : (forall x, -1 <= Physics.math_sin env_047 x <= 1)%Q).
  { intros x. unfold env_047. cbn [Physics.math_sin].
    destruct (Qeq_bool x (47 # 10)); split; vm_compute; discriminate. }
  assert (Ht : (0 <= 285 <= 300)%Q) by (split; vm_compute; discriminate).
  split; [exact Hsin |]. split; [exact Ht |].
  exact (target_speed_range env_047 Physics.HIGHWAY 285 Hsin Ht).
Defined.

Section TickFrame.

Import Physics.
Local Open Scope Q_scope.

Lemma tick_state (s : PhysicsSimulator) (e : Env) :
  exists st,
    let dt := t_loop e - last_update s in
    state (tick s e)
    = _update_temperature (_update_gear (_update_rpm (advance_speed st dt) e dt))
                          dt
    /\ odometer st = odometer (state s)
    /\ fuel_level st = fuel_level (state s)
    /\ mass st = mass (state s).
Proof.
  unfold tick.
  match goal with
  | |- context [_update_scenario ?s1 e ?dt] =>
      exists (state (_update_scenario s1 e dt))
  end.
  cbv zeta. split; [reflexivity |].
  unfold _update_scenario.
  repeat match goal with
         | |- context [if qltb ?a ?b then _ else _] => destruct (qltb a b)
         end; cbn [state odometer fuel_level mass];
    rewrite update_phase_state; repeat split; reflexivity.
Qed.

Lemma advance_speed_odometer (st : PhysicsState) (dt : Q) :
  0 <= dt -> odometer st <= odometer (advance_speed st dt).
Proof.
  intros Hdt. unfold advance_speed.
  destruct (new_speed_ms st dt) as [a v]. cbn [odometer].
  destruct (qltb 0 (v * (36 # 10))) eqn:E; [| lra].
  apply pqltb_true in E.
  assert (0 <= v * (36 # 10) / 3600 * dt).
  { apply Qmult_le_0_compat; [| exact Hdt].
    unfold Qdiv. apply Qmult_le_0_compat; [lra |]. vm_compute. discriminate. }
  lra.
Qed.

End TickFrame.

(** X22.  What a physics tick keeps.  After every tick the gear is
    between 1 and 6 and the engine temperature is at most 95 degrees; the
    fuel level is never changed by the physics loop; and when the clock
    has not gone backwards the odometer does not decrease. *)
Theorem physics_tick_frame (s : Physics.PhysicsSimulator) (e : Physics.Env) :
  let s' := Physics.tick s e in
  1 <= Physics.gear (Physics.state s') <= 6
  /\ (Physics.engine_temp (Physics.state s') <= 95)%Q
  /\ Physics.fuel_level (Physics.state s')
     = Physics.fuel_level (Physics.state s)
  /\ Physics.last_update s' = Physics.t_loop e
  /\ ((Physics.last_update s <= Physics.t_loop e)%Q ->
      (Physics.odometer (Physics.state s)
       <= Physics.odometer (Physics.state s'))%Q).
Proof.
  cbv zeta.
  destruct (tick_state s e) as [st (Hst & Hodo & Hfuel & _)].
  cbv zeta in Hst. rewrite Hst.
  split; [| split; [| split; [| split]]].
  - unfold Physics._update_temperature, Physics._update_gear.
    cbn [Physics.gear].
    repeat match goal with
           | |- context [if ?c then _ else _] => destruct c
           end; lia.
  - unfold Physics._update_temperature. cbn [Physics.engine_temp].
    apply qmin_bounds.
  - rewrite <- Hfuel. unfold Physics.advance_speed.
    destruct (Physics.new_speed_ms st _). reflexivity.
  - unfold Physics.tick, Physics.set_state, Physics._update_scenario,
      Physics._update_phase.
    repeat match goal with
           | |- context [if ?c then _ else _] => destruct c
           end; reflexivity.
  - intros Hdt. rewrite <- Hodo.
    unfold Physics._update_temperature, Physics._update_gear,
      Physics._update_rpm, Physics.set_rpm. cbn [Physics.odometer].
    apply advance_speed_odometer. lra.
Qed.

Lemma physics_tick_frame_witness :
  (Physics.last_update (Physics.init (46 # 100)) <= Physics.t_loop env_047)%Q
  /\ (Physics.odometer (Physics.state (Physics.init (46 # 100)))
      <= Physics.odometer
           (Physics.state (Physics.tick (Physics.init (46 # 100)) env_047)))%Q.
Proof.
  assert (H : (Physics.last_update (Physics.init (46 # 100))
               <= Physics.t_loop env_047)%Q) by (vm_compute; discriminate).
  split; [exact H |].
  exact (proj2 (proj2 (proj2 (proj2 (physics_tick_frame
                                       (Physics.init (46 # 100)) env_047))))
               H).
Defined.

Section PhysicsReply.

Lemma pad8_min_length (l : list Z) : (8 <= length (pad8 l))%nat.
Proof.
  unfold pad8. rewrite length_app, repeat_length. lia.
Qed.

Lemma zeros_bytes (n : nat) : forallb Py.is_byte (repeat 0 n) = true.
Proof.
  induction n as [| n IH]; [reflexivity |].
  cbn [repeat forallb]. now rewrite IH.
Qed.

Lemma physics_send_shape (pid : Z) (d : list Z) (m : Message) :
  In m (Physics._send_obd2_response pid d) ->
  length (data m) = 8%nat
  /\ forallb Py.is_byte (data m) = true
  /\ nth 0 (data m) 0 = Z.of_nat (length d) + 2
  /\ nth 1 (data m) 0 = 0x41
  /\ nth 2 (data m) 0 = pid.
Proof.
  unfold Physics._send_obd2_response.
  match goal with
  | |- In m match ?c with _ => _ end -> _ => destruct c eqn:E
  end; [| intros []].
  intros [<- | []]. split; [| split; [exact (can_Message_checked _ _ _ E) |]].
  - apply can_Message_some in E. subst m0. cbn [data].
    rewrite length_firstn. pose proof (pad8_min_length
      ([Z.of_nat (length d) + 2; 65; pid] ++ d)). lia.
  - apply can_Message_some in E. subst m0. cbn [data].
    unfold pad8. cbn [app firstn nth]. repeat split.
Qed.

(** The reply of the physics simulator for a PID whose encoder yields the
    bytes [bs]. *)
Lemma physics_reply (ps : Physics.PhysicsSimulator) (req : Message)
  (b : Z) (bs : list Z) :
  obd_request req = true ->
  mode_of req = 0x01 ->
  2 <= nth 0 (data req) 0 ->
  Physics._get_obd2_response (Physics.state ps) (pid_of req) = Some (b :: bs) ->
  (length bs <= 1)%nat ->
  Physics._process_can_message ps req
  = if forallb Py.is_byte (b :: bs)
    then [mkMessage 0x7E8
            (Z.of_nat (length (b :: bs)) + 2 :: 0x41 :: pid_of req
               :: (b :: bs) ++ repeat 0 (5 - length (b :: bs))%nat)]
    else [].
Proof.
  intros Hreq Hmode Hpci Hget Hlen.
  destruct (request_parts req Hreq) as (Hid & Hl & _ & Hpid).
  unfold Physics._process_can_message. rewrite Hid. cbn [negb].
  unfold mode_of in Hmode. rewrite Hl, Hmode. cbn [Z.eqb Pos.eqb andb].
  destruct (Z.leb_spec 2 (nth 0 (data req) 0)); [| lia].
  unfold pid_of in *. rewrite Hget.
  unfold Physics._send_obd2_response, can_Message.
  assert (Hdata : firstn 8 (pad8 ([Z.of_nat (length (b :: bs)) + 2; 65;
                                   nth 2 (data req) 0] ++ b :: bs))
                  = Z.of_nat (length (b :: bs)) + 2 :: 65
                    :: nth 2 (data req) 0
                    :: (b :: bs) ++ repeat 0 (5 - length (b :: bs))%nat).
  { destruct bs as [| b2 [| b3 bs]]; cbn in Hlen; try lia; reflexivity. }
  rewrite Hdata.
  assert (Hlenbyte : Py.is_byte (Z.of_nat (length (b :: bs)) + 2) = true).
  { apply is_byte_range. cbn [length]. lia. }
  assert (Hall : forallb Py.is_byte
                   (Z.of_nat (length (b :: bs)) + 2 :: 65
                      :: nth 2 (data req) 0
                      :: (b :: bs) ++ repeat 0 (5 - length (b :: bs))%nat)
                 = forallb Py.is_byte (b :: bs)).
  { change (forallb Py.is_byte
              (Z.of_nat (length (b :: bs)) + 2 :: 65 :: nth 2 (data req) 0
                 :: (b :: bs) ++ repeat 0 (5 - length (b :: bs))%nat))
      with (Py.is_byte (Z.of_nat (length (b :: bs)) + 2)
            && (Py.is_byte 65
                && (Py.is_byte (nth 2 (data req) 0)
                    && forallb Py.is_byte
                         ((b :: bs) ++ repeat 0 (5 - length (b :: bs))%nat)))).
    rewrite Hlenbyte, Hpid, forallb_app, zeros_bytes, andb_true_r.
    reflexivity. }
  rewrite Hall.
  destruct (forallb Py.is_byte (b :: bs)); reflexivity.
Qed.

End PhysicsReply.

(** X23.  Replies of the physics simulator.  It transmits at most one
    frame per request, and only for a mode-0x01 request whose length byte
    is at least 2 and whose PID is one of its seven PIDs; a transmitted
    frame has eight data bytes, [0x41] as second and the requested PID as
    third byte. *)
Theorem physics_reply_shape
  (ps : Physics.PhysicsSimulator) (req m : Message) :
  (length (Physics._process_can_message ps req) <= 1)%nat
  /\ (In m (Physics._process_can_message ps req) ->
      length (data m) = 8%nat
      /\ forallb Py.is_byte (data m) = true
      /\ nth 1 (data m) 0 = 0x41
      /\ nth 2 (data m) 0 = pid_of req
      /\ mode_of req = 0x01
      /\ 2 <= nth 0 (data req) 0
      /\ physics_pid (pid_of req) = true).
Proof.
  unfold Physics._process_can_message, mode_of, pid_of.
  destruct (negb _); [split; [cbn; lia | intros []] |].
  destruct (_ <? _)%nat; [split; [cbn; lia | intros []] |].
  destruct (Z.eqb_spec (nth 1 (data req) 0) 1) as [Hm | Hm];
    [| split; [cbn; lia | intros []]].
  destruct (Z.leb_spec 2 (nth 0 (data req) 0)) as [Hp | Hp];
    [| split; [cbn; lia | intros []]].
  cbn [andb].
  destruct (Physics._get_obd2_response (Physics.state ps)
              (nth 2 (data req) 0)) as [[| b bs] |] eqn:Hget;
    try (split; [cbn; lia | intros []]).
  split.
  - unfold Physics._send_obd2_response. destruct (can_Message _ _); cbn; lia.
  - intros Hin.
    destruct (physics_send_shape _ _ _ Hin) as (H8 & Hb & _ & H41 & Hpid).
    repeat (split; [assumption |]).
    destruct (physics_pid (nth 2 (data req) 0)) eqn:E; [reflexivity |].
    rewrite (physics_not_handled _ _ E) in Hget. discriminate.
Qed.

Lemma physics_reply_shape_witness :
  In (mkMessage 0x7E8 [3; 0x41; 0x0D; 0; 0; 0; 0; 0])
     (Physics._process_can_message (Physics.init 0)
        (mkMessage 0x7DF [0x02; 0x01; 0x0D; 0; 0; 0; 0; 0]))
  /\ physics_pid
       (pid_of (mkMessage 0x7DF [0x02; 0x01; 0x0D; 0; 0; 0; 0; 0])) = true.
Proof.
  assert (H : In (mkMessage 0x7E8 [3; 0x41; 0x0D; 0; 0; 0; 0; 0])
     (Physics._process_can_message (Physics.init 0)
        (mkMessage 0x7DF [0x02; 0x01; 0x0D; 0; 0; 0; 0; 0])))
    by (left; reflexivity).
  split; [exact H |].
  exact (proj2 (proj2 (proj2 (proj2 (proj2 (proj2
           (proj2 (physics_reply_shape (Physics.init 0)
                     (mkMessage 0x7DF [0x02; 0x01; 0x0D; 0; 0; 0; 0; 0])
                     (mkMessage 0x7E8 [3; 0x41; 0x0D; 0; 0; 0; 0; 0])) H))))))).
Defined.

(** X24.  In the physics simulator a well-formed request for the engine
    speed (PID 0x0C) is always answered, by [4, 0x41, 0x0C, A, B, 0, 0, 0]
    on [0x7E8] with [256 A + B = int(rpm * 4) mod 65536]; a request for the
    vehicle speed (PID 0x0D) is answered by
    [3, 0x41, 0x0D, int(speed), 0, 0, 0, 0] when [int(speed)] is a byte and
    not at all otherwise. *)
Theorem physics_rpm_and_speed_reply
  (ps : Physics.PhysicsSimulator) (req : Message) :
  obd_request req = true ->
  mode_of req = 0x01 ->
  2 <= nth 0 (data req) 0 ->
  (pid_of req = 0x0C ->
   exists A B,
     Physics._process_can_message ps req
     = [mkMessage 0x7E8 [4; 0x41; 0x0C; A; B; 0; 0; 0]]
     /\ 256 * A + B
        = Py.py_int (Physics.rpm (Physics.state ps) * 4)%Q mod 65536)
  /\ (pid_of req = 0x0D ->
      Physics._process_can_message ps req
      = if Py.is_byte (Py.py_int (Physics.speed (Physics.state ps)))
        then [mkMessage 0x7E8
                [3; 0x41; 0x0D;
                 Py.py_int (Physics.speed (Physics.state ps)); 0; 0; 0; 0]]
        else []).
Proof.
  intros Hreq Hmode Hpci. split; intros Hpid.
  - set (v := Py.py_int (Physics.rpm (Physics.state ps) * 4)%Q).
    exists (Z.land (Z.shiftr v 8) 255), (Z.land v 255).
    split; [| exact (proj2 (proj2 (two_bytes_mod v)))].
    rewrite (physics_reply ps req (Z.land (Z.shiftr v 8) 255) [Z.land v 255]
               Hreq Hmode Hpci).
    + rewrite two_bytes_are_bytes, Hpid. reflexivity.
    + rewrite Hpid. reflexivity.
    + cbn. lia.
  - rewrite (physics_reply ps req
               (Py.py_int (Physics.speed (Physics.state ps))) []
               Hreq Hmode Hpci).
    + cbn [forallb]. rewrite andb_true_r, Hpid. reflexivity.
    + rewrite Hpid. reflexivity.
    + cbn. lia.
Qed.

Lemma physics_rpm_and_speed_reply_witness :
  obd_request (mkMessage 0x7E0 [0x02; 0x01; 0x0C; 0; 0; 0; 0; 0]) = true
  /\ 2 <= nth 0 (data (mkMessage 0x7E0 [0x02; 0x01; 0x0C; 0; 0; 0; 0; 0])) 0
  /\ exists A B,
      Physics._process_can_message (Physics.init 0)
        (mkMessage 0x7E0 [0x02; 0x01; 0x0C; 0; 0; 0; 0; 0])
      = [mkMessage 0x7E8 [4; 0x41; 0x0C; A; B; 0; 0; 0]]
      /\ 256 * A + B
         = Py.py_int (Physics.rpm (Physics.state (Physics.init 0)) * 4)%Q
           mod 65536.
Proof.
  assert (Hp : 2 <= nth 0 (data (mkMessage 0x7E0
                                   [0x02; 0x01; 0x0C; 0; 0; 0; 0; 0])) 0)
    by (cbn; lia).
  split; [reflexivity |]. split; [exact Hp |].
  exact (proj1 (physics_rpm_and_speed_reply (Physics.init 0)
                  (mkMessage 0x7E0 [0x02; 0x01; 0x0C; 0; 0; 0; 0; 0])
                  eq_refl eq_refl Hp) eq_refl).
Defined.

(** * Stored trouble codes in reachable states *)

Section StoredCodes.

Import CanSim.

Lemma existsb_code_false (c : string) (l : list DiagnosticTroubleCode) :
  existsb (fun dtc => String.eqb (code dtc) c) l = false ->
  ~ In c (map code l).
Proof.
  intros H Hin. apply in_map_iff in Hin. destruct Hin as [x [Hx Hin]].
  assert (Ht : existsb (fun dtc => String.eqb (code dtc) c) l = true).
  { apply existsb_exists. exists x. split; [exact Hin |].
    rewrite Hx. apply String.eqb_refl. }
  congruence.
Qed.

Lemma NoDup_snoc (l : list string) (c : string) :
  NoDup l -> ~ In c l -> NoDup (l ++ [c]).
Proof.
  intros Hl Hc. induction Hl as [| x l Hx Hl IH]; cbn [app].
  - constructor; [intros [] | constructor].
  - constructor.
    + intros Hin. apply in_app_or in Hin. destruct Hin as [Hin | [-> | []]].
      * contradiction.
      * apply Hc. left. reflexivity.
    + apply IH. intros Hin. apply Hc. right. exact Hin.
Qed.

Lemma start_codes (simulate : bool) (d : InitDraw) :
  valid_draw d = true ->
  (length (dtc_codes (start (init simulate) d)) <= 2)%nat
  /\ NoDup (codes_of (start (init simulate) d)).
Proof.
  unfold valid_draw. intros Hd.
  apply andb_prop in Hd. destruct Hd as [Hd Hdist].
  apply andb_prop in Hd. destruct Hd as [Hlen Hidx].
  unfold codes_of, start, init, _initialize_demo_dtcs. cbn [simulate_dtcs].
  destruct simulate; [| split; [cbn; lia | constructor]].
  destruct (has_codes d); [| split; [cbn; lia | constructor]].
  cbn [dtc_codes app].
  destruct (sample d) as [| i [| j [| k r]]]; try discriminate.
  - destruct i as [| [| [| i]]]; try discriminate;
      (split; [cbn; lia |]); cbn;
      repeat constructor; cbn; intuition discriminate.
  - destruct i as [| [| [| i]]]; try discriminate;
      destruct j as [| [| [| j]]]; try discriminate;
      (split; [cbn; lia |]); cbn;
      repeat constructor; cbn; intuition discriminate.
Qed.

Lemma add_dtc_codes (s : Sim) (choice : nat) (promote : bool) :
  (length (dtc_codes s) <= 5)%nat -> NoDup (codes_of s) ->
  (length (dtc_codes (_add_random_dtc s choice promote)) <= 5)%nat
  /\ NoDup (codes_of (_add_random_dtc s choice promote)).
Proof.
  intros Hlen Hnd. unfold _add_random_dtc.
  destruct (length (dtc_codes s) <? 5)%nat eqn:E; [| auto].
  apply Nat.ltb_lt in E.
  destruct (nth_error possible_codes choice) as [[c descr] |]; [| auto].
  destruct (existsb _ (dtc_codes s)) eqn:Ex; cbn [negb]; [auto |].
  apply existsb_code_false in Ex.
  destruct promote; unfold codes_of; cbn [dtc_codes];
    rewrite length_app, map_app; cbn [length map code];
    (split; [lia | apply NoDup_snoc; assumption]).
Qed.

Lemma stored_codes_invariant (s : Sim) :
  reachable s ->
  (length (dtc_codes s) <= 5)%nat /\ NoDup (codes_of s).
Proof.
  induction 1 as [simulate d Hd | s s' _ [Hlen Hnd] Hstep].
  - destruct (start_codes simulate d Hd) as [Hl Hn]. split; [lia | exact Hn].
  - destruct Hstep as [s e v _ _ | s c p _ _ | s req].
    + split; assumption.
    + apply add_dtc_codes; assumption.
    + destruct (process_state s req) as [-> | ->]; [split; assumption |].
      unfold codes_of. cbn. split; [lia | constructor].
Qed.

End StoredCodes.

(** X25.  Stored codes stay few and distinct.  In every reachable state
    at most five DTCs are stored and no code is stored twice; so a
    mode-0x03 request is always answered by exactly one frame, whose count
    byte is the number of confirmed DTCs and is at most 5. *)
Theorem stored_codes_bounded (s : CanSim.Sim) (req : Message) :
  CanSim.reachable s ->
  (length (CanSim.dtc_codes s) <= 5)%nat
  /\ NoDup (codes_of s)
  /\ (obd_request req = true -> mode_of req = 0x03 ->
      exists frame,
        CanSim._process_can_message s req = (s, [frame])
        /\ arbitration_id frame = response_id_rule (arbitration_id req)
        /\ nth 1 (data frame) 0 = 0x43
        /\ nth 2 (data frame) 0 = confirmed_count s
        /\ 0 <= confirmed_count s <= 5).
Proof.
  intros Hr. destruct (stored_codes_invariant s Hr) as [Hlen Hnd].
  split; [exact Hlen |]. split; [exact Hnd |].
  intros Hreq Hmode.
  assert (HN : 0 <= confirmed_count s <= 5).
  { unfold confirmed_count.
    pose proof (filter_length_le CanSim.is_confirmed (CanSim.dtc_codes s)).
    lia. }
  rewrite (dtc_request_reply s req Hreq Hmode).
  unfold CanSim.diagnostic_codes_payload. rewrite fold_confirmed.
  fold (confirmed_count s).
  set (groups := flat_map _ _).
  assert (Hg : (length groups <= 6)%nat).
  { subst groups. rewrite flat_map_encode_length.
    pose proof (filter_length_le CanSim.is_confirmed
                  (firstn 3 (CanSim.dtc_codes s))) as Hf.
    rewrite length_firstn in Hf. lia. }
  rewrite send_obd_response_frame.
  - eexists. split; [reflexivity |]. cbn [arbitration_id data app].
    split; [reflexivity |]. split; [reflexivity |].
    split; [reflexivity | exact HN].
  - cbn [app forallb]. subst groups. rewrite flat_map_bytes.
    rewrite (is_byte_range (confirmed_count s)) by lia. reflexivity.
  - cbn [app length]. lia.
Qed.

Lemma stored_codes_bounded_witness :
  CanSim.reachable
    (CanSim.start (CanSim.init true) (CanSim.mkInitDraw true [2; 0]%nat))
  /\ NoDup (codes_of (CanSim.start (CanSim.init true)
                                   (CanSim.mkInitDraw true [2; 0]%nat))).
Proof.
  assert (Hr : CanSim.reachable
    (CanSim.start (CanSim.init true) (CanSim.mkInitDraw true [2; 0]%nat))).
  { apply (CanSim.reach_start true (CanSim.mkInitDraw true [2; 0]%nat)).
    reflexivity. }
  split; [exact Hr |].
  exact (proj1 (proj2 (stored_codes_bounded _
                         (mkMessage 0x7DF [0x01; 0x03; 0; 0; 0; 0; 0; 0])
                         Hr))).
Defined.

(** * Temperature on the wire, and scenario speeds *)

(** X26.  Coolant temperature over the wire.  A request for PID 0x05 is
    always answered by one frame [3, 0x41, 0x05, A, 0, 0, 0, 0].  For a
    temperature from -40 to 215 degrees, decoding [A - 40] gives a whole
    number of degrees less than one degree away from the temperature; at
    215 degrees and above the byte saturates at 255 and at -40 degrees and
    below at 0. *)
Theorem coolant_reply (s : CanSim.Sim) (req : Message) :
  obd_request req = true ->
  mode_of req = 0x01 ->
  pid_of req = 0x05 ->
  let T := CanSim.coolant_temp (CanSim.engine s) in
  exists A,
    CanSim._process_can_message s req
    = (s, [mkMessage (response_id_rule (arbitration_id req))
                     [3; 0x41; 0x05; A; 0; 0; 0; 0]])
    /\ 0 <= A <= 255
    /\ ((-40 <= T <= 215)%Q ->
        (T - 1 < inject_Z A - 40)%Q /\ (inject_Z A - 40 < T + 1)%Q)
    /\ ((215 <= T)%Q -> A = 255)
    /\ ((T <= -40)%Q -> A = 0).
Proof.
  intros Hreq Hmode Hpid T.
  exists (CanSim.clamp255 (Py.py_int (T + 40)%Q)).
  destruct (clamp_of_scaled 255 (T + 40)%Q ltac:(lia))
    as (Hr & Hlow & Hhigh & Hmid).
  change (Py.py_max 0 (Py.py_min 255 (Py.py_int (T + 40)%Q)))
    with (CanSim.clamp255 (Py.py_int (T + 40)%Q)) in *.
  change (inject_Z 255) with (255 # 1)%Q in *.
  split; [| split; [exact Hr | split; [| split]]].
  - rewrite (current_data_reply s req
               [CanSim.clamp255 (Py.py_int (T + 40)%Q)] Hreq Hmode).
    + rewrite Hpid. reflexivity.
    + rewrite Hpid. reflexivity.
    + cbn [forallb]. now rewrite clamp255_byte.
    + cbn. lia.
  - intros [Hlo Hhi].
    destruct Hmid as [H1 H2]; [split; lra |].
    set (q := inject_Z _) in *. clearbody q. split; lra.
  - intros Hhot. apply Hhigh. lra.
  - intros Hcold. apply Hlow. lra.
Qed.

Lemma coolant_reply_witness :
  obd_request (mkMessage 0x7DF [0x02; 0x01; 0x05; 0; 0; 0; 0; 0]) = true
  /\ exists A,
      CanSim._process_can_message (CanSim.init true)
        (mkMessage 0x7DF [0x02; 0x01; 0x05; 0; 0; 0; 0; 0])
      = (CanSim.init true, [mkMessage 0x7E8 [3; 0x41; 0x05; A; 0; 0; 0; 0]])
      /\ 0 <= A <= 255
      /\ ((-40 <= 90 <= 215)%Q ->
          (90 - 1 < inject_Z A - 40)%Q /\ (inject_Z A - 40 < 90 + 1)%Q)
      /\ ((215 <= 90)%Q -> A = 255)
      /\ ((90 <= -40)%Q -> A = 0).
Proof.
  split; [reflexivity |].
  exact (coolant_reply (CanSim.init true)
           (mkMessage 0x7DF [0x02; 0x01; 0x05; 0; 0; 0; 0; 0])
           eq_refl eq_refl eq_refl).
Defined.

Section ScenarioSpeeds.

Import CanSim.
Local Open Scope Q_scope.

Lemma eco_fields (s : Sim) (d : Draws) :
  let v := uniform 50 90 (u_speed d) in
  speed (vehicle (_simulate_eco_driving s d)) = v
  /\ rpm (engine (_simulate_eco_driving s d))
     = Py.qmin 2500 (snd (_calculate_rpm_for_speed v None))
  /\ gear (vehicle (_simulate_eco_driving s d))
     = fst (_calculate_rpm_for_speed v None).
Proof.
  cbv zeta. unfold _simulate_eco_driving.
  destruct (_calculate_rpm_for_speed _ None). cbn. repeat split.
Qed.

Lemma city_fields (s : Sim) (tick : Z) (d : Draws) :
  exists v,
    0 <= v
    /\ speed (vehicle (_simulate_city_driving s tick d)) = v
    /\ rpm (engine (_simulate_city_driving s tick d))
       = snd (_calculate_rpm_for_speed v None)
    /\ gear (vehicle (_simulate_city_driving s tick d))
       = fst (_calculate_rpm_for_speed v None).
Proof.
  unfold _simulate_city_driving.
  match goal with
  | |- context [_calculate_rpm_for_speed ?v None] => exists v
  end.
  split; [apply qmax_bounds |].
  destruct (_calculate_rpm_for_speed _ None). cbn. repeat split.
Qed.

Lemma highway_fields (s : Sim) (tick : Z) (d : Draws) :
  exists v,
    rpm (engine (_simulate_highway_driving s tick d))
    = snd (_calculate_rpm_for_speed v (Some 6%Z)).
Proof.
  unfold _simulate_highway_driving.
  match goal with
  | |- context [_calculate_rpm_for_speed ?v (Some 6%Z)] => exists v
  end.
  destruct (_calculate_rpm_for_speed _ (Some 6%Z)). reflexivity.
Qed.

End ScenarioSpeeds.

(** X27.  Speeds of the driving scenarios.  With draws the random module
    can produce: city, highway, aggressive and eco driving leave the engine
    speed in [800, 7000]; eco driving keeps it at or below 2500 with a
    vehicle speed in [50, 90] and a gear from 3 to 5; aggressive driving
    gives an engine speed in [3000, 6500] and a vehicle speed in [60, 140];
    city driving never gives a negative speed, and its gear is 0 exactly
    when the speed is 0. *)
Theorem scenario_speeds
  (sc : CanSim.DrivingScenario) (s : CanSim.Sim) (tick : Z) (d : CanSim.Draws) :
  valid_draws d ->
  let s' := CanSim.run_scenario sc s tick d in
  let r := CanSim.rpm (CanSim.engine s') in
  let v := CanSim.speed (CanSim.vehicle s') in
  let g := CanSim.gear (CanSim.vehicle s') in
  (In sc [CanSim.CITY_DRIVING; CanSim.HIGHWAY_DRIVING;
          CanSim.AGGRESSIVE_DRIVING; CanSim.ECO_DRIVING] ->
   (800 <= r <= 7000)%Q)
  /\ (sc = CanSim.ECO_DRIVING ->
      (r <= 2500)%Q /\ (50 <= v <= 90)%Q /\ 3 <= g <= 5)
  /\ (sc = CanSim.AGGRESSIVE_DRIVING ->
      (3000 <= r <= 6500)%Q /\ (60 <= v <= 140)%Q)
  /\ (sc = CanSim.CITY_DRIVING ->
      (0 <= v)%Q /\ (g = 0 <-> (v <= 0)%Q)).
Proof.
  intros (Hs & Hr & _) s' r v g. subst s' r v g.
  pose proof (uniform_bounds 50 90 _ ltac:(lra) Hs) as Heco.
  pose proof (uniform_bounds 60 140 _ ltac:(lra) Hs) as Hagg.
  pose proof (uniform_bounds 3000 6500 _ ltac:(lra) Hr) as Haggr.
  assert (Heco_rpm : (800 <= CanSim.rpm (CanSim.engine
                              (CanSim._simulate_eco_driving s d)) <= 2500)%Q).
  { rewrite (proj1 (proj2 (eco_fields s d))).
    pose proof (calculate_rpm_bounds
                  (CanSim.uniform 50 90 (CanSim.u_speed d)) None) as Hb.
    match goal with
    | |- context [Py.qmin ?a ?b] =>
        pose proof (qmin_bounds a b) as Hm;
        destruct (qmin_cases a b) as [Hq | Hq]; rewrite Hq in *
    end; split; lra. }
  split; [| split; [| split]].
  - intros Hin. cbn [In] in Hin.
    destruct Hin as [<- | [<- | [<- | [<- | []]]]]; cbn [CanSim.run_scenario].
    + destruct (city_fields s tick d) as [v (_ & _ & -> & _)].
      apply calculate_rpm_bounds.
    + destruct (highway_fields s tick d) as [v ->].
      apply calculate_rpm_bounds.
    + cbn. split; lra.
    + split; lra.
  - intros ->. cbn [CanSim.run_scenario].
    split; [lra |].
    destruct (eco_fields s d) as (-> & _ & ->). split; [exact Heco |].
    unfold CanSim._calculate_rpm_for_speed, CanSim.auto_gear.
    repeat match goal with
           | |- context [CanSim.qlt ?a ?b] =>
               let E := fresh "E" in
               destruct (CanSim.qlt a b) eqn:E;
               [apply qlt_true in E | apply qlt_false in E]
           end; cbn [negb fst]; try lia; exfalso; lra.
  - intros ->. cbn. split; [exact Haggr | exact Hagg].
  - intros ->. cbn [CanSim.run_scenario].
    destruct (city_fields s tick d) as [v (Hv & -> & _ & ->)].
    split; [exact Hv |].
    unfold CanSim._calculate_rpm_for_speed.
    pose proof (auto_gear_range v) as Hg.
    destruct (CanSim.qlt 0 v) eqn:E;
      [apply qlt_true in E | apply qlt_false in E]; cbn [negb fst].
    + split; [lia | lra].
    + split; [intros _; exact E | reflexivity].
Qed.

Lemma scenario_speeds_witness :
  valid_draws draws_half
  /\ CanSim.ECO_DRIVING = CanSim.ECO_DRIVING
  /\ (CanSim.rpm (CanSim.engine
                    (CanSim.run_scenario CanSim.ECO_DRIVING (CanSim.init true)
                                         0 draws_half)) <= 2500)%Q.
Proof.
  split; [exact draws_half_valid |]. split; [reflexivity |].
  exact (proj1 (proj1 (proj2 (scenario_speeds CanSim.ECO_DRIVING
                                (CanSim.init true) 0 draws_half
                                draws_half_valid)) eq_refl)).
Defined.
